(** * Cloud-storage Telegram bot: upload orchestration and idempotency layer

    A shallow embedding of [src/bot.ts] and [src/services/cloudStorageApi.ts]
    and the properties of its deduplicator, API client, upload orchestrator,
    handlers and formatter.

    Conventions of the embedding.
    - A JavaScript [number] that holds an identifier, a size or a status code
      is an integer; it is a [Z].  The one place where the source leaves the
      integers ([bytes / 1024] followed by [toFixed(1)]) is computed in [Q]:
      dividing an integer below 2^53 by a power of two is exact in binary64,
      so the rational is the value the double holds.
    - A JavaScript string is a sequence of 16-bit code units.  It is written
      here as a [string] of bytes, the UTF-8 form of the text (a surrogate
      that stands alone takes the three bytes of its value); equality and
      concatenation with ASCII text are the same on both forms.  Where the
      source counts or cuts ([length], [substring]) the code units are
      counted and cut, see [Utf16].
    - A body of the backend is an envelope whose [data], when it is there,
      is an object of one of the interfaces that the client declares.  The
      client does not check which: a member that the object lacks reads as
      [undefined], and reading a member of [undefined] throws.
    - [Set<number>] keeps insertion order, which [isProcessed] relies on; it
      is a duplicate-free list, oldest first.
    - [async] code is sequential code in the monad [M]: every [await] is a
      bind, every [throw] or rejected promise a [Throw] outcome, and every
      call that leaves the process is appended to the log of the machine.
      Handlers run one after the other; two handlers taking turns at their
      [await]s are not modelled. *)

From Stdlib Require Import ZArith List String Ascii Bool Lia QArith Qround.
From Stdlib Require Import DecimalString DecimalPos DecimalZ.
Import ListNotations.

Local Open Scope string_scope.
Local Open Scope Z_scope.

(* ================================================================== *)
(** * Strings and numbers of the host language *)
(* ================================================================== *)

(** The line feed of a template literal. *)
Definition nl : string := String (ascii_of_nat 10) EmptyString.

(** The double quote inside a template literal. *)
Definition dq : string := String (ascii_of_nat 34) EmptyString.

(** [`${n}`] and [n.toString()] for an integer [n]. *)
Definition dec (n : Z) : string := NilZero.string_of_int (Z.to_int n).

(** Truthiness of a string value: [undefined] and [''] are falsy. *)
Definition truthy (s : option string) : bool :=
  match s with
  | Some (String _ _) => true
  | _ => false
  end.

(** [a || b] on an optional string and a default. *)
Definition or_else (a : option string) (b : string) : string :=
  match a with
  | Some (String c s) => String c s
  | _ => b
  end.

(** [a || b] when both sides may be [undefined]. *)
Definition or_opt (a b : option string) : option string :=
  if truthy a then a else b.

(** [n || 0] on an optional integer: [undefined] and [0] both give [0]. *)
Definition or_zero (n : option Z) : Z :=
  match n with
  | Some z => z
  | None => 0
  end.

(** [s.startsWith(p)]. *)
Definition startsWith (p s : string) : bool := String.prefix p s.

(** [xs.join(sep)]. *)
Fixpoint join (sep : string) (xs : list string) : string :=
  match xs with
  | [] => ""
  | [x] => x
  | x :: rest => x ++ sep ++ join sep rest
  end.

(** [xs.slice(0, n)]. *)
Definition slice0 {A : Type} (n : nat) (xs : list A) : list A := firstn n xs.

(** The code units of a string.  The bytes are read as UTF-8: one to four
    bytes give a code point (a leading byte that its continuation bytes do
    not follow is no text of the host language and is taken as it is), and
    a code point from 2^16 on is a pair of surrogates. *)
Module Utf16.

Definition byte (c : ascii) : Z := Z.of_N (N_of_ascii c).

Definition chr (b : Z) : ascii := ascii_of_N (Z.to_N b).

Fixpoint decode (s : string) : list Z :=
  match s with
  | EmptyString => []
  | String c0 s1 =>
      let b0 := byte c0 in
      match s1 with
      | String c1 s2 =>
          if (192 <=? b0) && (b0 <? 224) then
            (b0 mod 32 * 64 + byte c1 mod 64) :: decode s2
          else
            match s2 with
            | String c2 s3 =>
                if (224 <=? b0) && (b0 <? 240) then
                  (b0 mod 16 * 4096 + byte c1 mod 64 * 64 + byte c2 mod 64)
                  :: decode s3
                else
                  match s3 with
                  | String c3 s4 =>
                      if (240 <=? b0) && (b0 <? 248) then
                        (b0 mod 8 * 262144 + byte c1 mod 64 * 4096
                         + byte c2 mod 64 * 64 + byte c3 mod 64)
                        :: decode s4
                      else b0 :: decode s1
                  | EmptyString => b0 :: decode s1
                  end
            | EmptyString => b0 :: decode s1
            end
      | EmptyString => [b0]
      end
  end.

Definition units_of_code_point (cp : Z) : list Z :=
  if cp <? 65536 then [cp]
  else [55296 + (cp - 65536) / 1024; 56320 + (cp - 65536) mod 1024].

Definition units (s : string) : list Z :=
  flat_map units_of_code_point (decode s).

Definition is_high (u : Z) : bool := (55296 <=? u) && (u <? 56320).

Definition is_low (u : Z) : bool := (56320 <=? u) && (u <? 57344).

(** A high surrogate with the low surrogate behind it is one code point. *)
Fixpoint code_points (us : list Z) : list Z :=
  match us with
  | [] => []
  | u :: rest =>
      match rest with
      | l :: rest' =>
          if is_high u && is_low l
          then (65536 + (u - 55296) * 1024 + (l - 56320)) :: code_points rest'
          else u :: code_points rest
      | [] => [u]
      end
  end.

Definition encode (cp : Z) : string :=
  if cp <? 128 then String (chr cp) ""
  else if cp <? 2048 then
    String (chr (192 + cp / 64)) (String (chr (128 + cp mod 64)) "")
  else if cp <? 65536 then
    String (chr (224 + cp / 4096))
      (String (chr (128 + cp / 64 mod 64)) (String (chr (128 + cp mod 64)) ""))
  else
    String (chr (240 + cp / 262144))
      (String (chr (128 + cp / 4096 mod 64))
         (String (chr (128 + cp / 64 mod 64))
            (String (chr (128 + cp mod 64)) ""))).

Definition of_code_points (cps : list Z) : string :=
  String.concat "" (map encode cps).

Definition of_units (us : list Z) : string := of_code_points (code_points us).

(** [s.length]. *)
Definition length (s : string) : nat := List.length (units s).

(** A code unit is a number of 16 bits. *)
Definition is_unit (u : Z) : Prop := 0 <= u < 65536.

(** [s.substring(0, n)]. *)
Definition substring0 (n : nat) (s : string) : string :=
  of_units (firstn n (units s)).

End Utf16.

(** [Number.MAX_SAFE_INTEGER], 2^53 - 1: up to here every integer is a
    JavaScript number, and its quotient by a power of two is exact. *)
Definition MAX_SAFE_INTEGER : Z := 9007199254740991.

(** [Number.prototype.toFixed(1)] on an exact value [x]: the sign, then the
    integer [n] for which [n / 10 - |x|] is closest to zero (the larger one
    on a tie), printed with its last digit behind the point.  (The branch of
    [toFixed] for values of 10^21 and more is not modelled; a byte count
    up to [MAX_SAFE_INTEGER] never reaches it.) *)
Definition toFixed1 (x : Q) : string :=
  let neg := negb (Qle_bool 0 x) in
  let ax := if neg then Qopp x else x in
  let n := Qfloor (ax * (10 # 1) + (1 # 2))%Q in
  (if neg then "-" else "") ++ dec (n / 10) ++ "." ++ dec (n mod 10).

(* ================================================================== *)
(** * Presentation formatter *)
(* ================================================================== *)

(** [formatFileSize], bot.ts lines 54-58. *)
Definition formatFileSize (bytes : Z) : string :=
  if bytes <? 1024 then dec bytes ++ " B"
  else if bytes <? 1024 * 1024 then
    toFixed1 (inject_Z bytes / inject_Z 1024)%Q ++ " KB"
  else
    toFixed1 (inject_Z bytes / inject_Z (1024 * 1024))%Q ++ " MB".

(* ================================================================== *)
(** * Update deduplicator *)
(* ================================================================== *)

(** [Set<number>]: the elements in insertion order. *)
Module JsSet.

Definition t : Type := list Z.

Definition empty : t := [].

Definition has (x : Z) (s : t) : bool := existsb (Z.eqb x) s.

(** [add] appends a new element and leaves a present one where it is. *)
Definition add (x : Z) (s : t) : t := if has x s then s else (s ++ [x])%list.

Definition delete (x : Z) (s : t) : t :=
  filter (fun y => negb (Z.eqb x y)) s.

Definition size (s : t) : nat := List.length s.

(** [Array.from(s)]: iteration is in insertion order. *)
Definition to_array (s : t) : list Z := s.

(** What every value built by [empty], [add] and [delete] satisfies. *)
Definition wf (s : t) : Prop := NoDup s.

End JsSet.

Definition MAX_PROCESSED_UPDATES : nat := 1000.

(** [isProcessed], bot.ts lines 32-43, as a function of the module-level
    set [processedUpdates]: the answer and the set afterwards. *)
Definition isProcessed (updateId : Z) (processedUpdates : JsSet.t)
  : bool * JsSet.t :=
  if JsSet.has updateId processedUpdates then (true, processedUpdates)
  else
    let cleaned :=
      if (MAX_PROCESSED_UPDATES <=? JsSet.size processedUpdates)%nat then
        let toDelete := slice0 500 (JsSet.to_array processedUpdates) in
        fold_left (fun s id => JsSet.delete id s) toDelete processedUpdates
      else processedUpdates in
    (false, JsSet.add updateId cleaned).

(** The set after a sequence of calls, one per delivered update. *)
Definition processAll (ids : list Z) (s : JsSet.t) : JsSet.t :=
  fold_left (fun acc u => snd (isProcessed u acc)) ids s.

(* ================================================================== *)
(** * Wire data of the storage backend (cloudStorageApi.ts, lines 5-186) *)
(* ================================================================== *)

Definition Buffer : Type := list Byte.byte.

Record UserResponse := {
  user_id_str : string;
  user_telegramId : string;
  user_phoneNumber : option string;
  user_name : string;
  user_profilePic : option string;
  user_isPhoneVerified : bool;
  user_createdAt : string
}.

Record UpdatePhoneUser := {
  pu_id : string;
  pu_telegramId : string;
  pu_phoneNumber : string;
  pu_name : string;
  pu_isPhoneVerified : bool
}.

Record SharedFile := {
  sf_fsObjectId : string;
  sf_filename : string;
  sf_size : Z;
  sf_sourceType : string;
  sf_createdAt : string;
  sf_shareCreatedAt : string
}.

Record LinkWithViews := {
  lv_fsObjectId : string;
  lv_filename : string;
  lv_size : Z;
  lv_sourceType : string;
  lv_viewCount : Z;
  lv_shareableLink : string;
  lv_createdAt : string;
  lv_shareCreatedAt : string;
  lv_expiresAt : option string
}.

Record Pagination := {
  pg_page : Z;
  pg_limit : Z;
  pg_total : Z;
  pg_totalPages : Z
}.

Record CreateUserData := {
  cu_user : UserResponse;
  cu_token : string;
  cu_isNewUser : bool
}.

Record UploadFileData := {
  uf_fsObjectId : string;
  uf_filename : string;
  uf_size : Z;
  uf_sourceType : string
}.

Record GetUploadUrlData := {
  gu_fsObjectId : string;
  gu_uploadUrl : string;
  gu_s3Key : string
}.

Record CompleteUploadData := {
  co_fsObjectId : string;
  co_filename : string;
  co_size : Z;
  co_sourceType : string;
  co_shareableLink : string
}.

Record DeleteShareLinkData := {
  dl_fsObjectId : string;
  dl_filename : string
}.

Record GenerateShareLinkData := {
  gs_shareableLink : string;
  gs_filename : string;
  gs_fileSize : Z;
  gs_expiresAt : option string
}.

(** The [data] member of a response body, one constructor per response
    interface. *)
Inductive Data : Type :=
| DCreateUser (d : CreateUserData)
| DUploadFile (d : UploadFileData)
| DUpdatePhone (user : UpdatePhoneUser)
| DListSharedFiles (files : list SharedFile)
| DDeleteShareLink (d : DeleteShareLinkData)
| DLinksWithViews (links : list LinkWithViews) (pagination : Pagination)
| DDeleteAccount (deleted : bool)
| DGetUploadUrl (d : GetUploadUrlData)
| DCompleteUpload (d : CompleteUploadData)
| DGenerateShareLink (d : GenerateShareLinkData).

(** A parsed JSON body.  Success bodies carry [status], [message] and
    [data]; the error envelope [ApiErrorResponse] carries [status],
    [message] and the optional [error]. *)
Record Json := {
  j_status : option string;
  j_message : option string;
  j_error : option string;
  j_data : option Data
}.

Definition ApiErrorResponse : Type := Json.

(** The request payloads handed to [JSON.stringify]. *)
Inductive Payload : Type :=
| PCreateUser (telegramId : string) (name phoneNumber : option string)
| PTelegramId (telegramId : string)
| PFsObject (telegramId fsObjectId : string)
| PUpdatePhone (telegramId phoneNumber : string)
| PLinksWithViews (telegramId : string) (page limit : option Z)
| PGetUploadUrl (telegramId filename contentType : string) (fileSize : Z).

(** [response.data]: [None] is [undefined], a body without the member. *)
Definition data (response : Json) : option Data := j_data response.

(** The [user] member is declared by two interfaces. *)
Inductive User : Type :=
| FullUser (u : UserResponse)
| PhoneUser (u : UpdatePhoneUser).

(** The members that the bot reads from a [data] object.  An object has a
    member when its interface declares it; [None] is [undefined]. *)
Definition d_user (d : Data) : option User :=
  match d with
  | DCreateUser x => Some (FullUser (cu_user x))
  | DUpdatePhone u => Some (PhoneUser u)
  | _ => None
  end.

Definition d_token (d : Data) : option string :=
  match d with
  | DCreateUser x => Some (cu_token x)
  | _ => None
  end.

Definition d_isNewUser (d : Data) : option bool :=
  match d with
  | DCreateUser x => Some (cu_isNewUser x)
  | _ => None
  end.

Definition d_fsObjectId (d : Data) : option string :=
  match d with
  | DUploadFile x => Some (uf_fsObjectId x)
  | DDeleteShareLink x => Some (dl_fsObjectId x)
  | DGetUploadUrl x => Some (gu_fsObjectId x)
  | DCompleteUpload x => Some (co_fsObjectId x)
  | _ => None
  end.

Definition d_uploadUrl (d : Data) : option string :=
  match d with
  | DGetUploadUrl x => Some (gu_uploadUrl x)
  | _ => None
  end.

Definition d_filename (d : Data) : option string :=
  match d with
  | DUploadFile x => Some (uf_filename x)
  | DDeleteShareLink x => Some (dl_filename x)
  | DCompleteUpload x => Some (co_filename x)
  | DGenerateShareLink x => Some (gs_filename x)
  | _ => None
  end.

Definition d_size (d : Data) : option Z :=
  match d with
  | DUploadFile x => Some (uf_size x)
  | DCompleteUpload x => Some (co_size x)
  | _ => None
  end.

Definition d_shareableLink (d : Data) : option string :=
  match d with
  | DCompleteUpload x => Some (co_shareableLink x)
  | DGenerateShareLink x => Some (gs_shareableLink x)
  | _ => None
  end.

Definition d_files (d : Data) : option (list SharedFile) :=
  match d with
  | DListSharedFiles files => Some files
  | _ => None
  end.

(** [user.name] and [user.phoneNumber]; [None] is [null]. *)
Definition u_name (u : User) : string :=
  match u with
  | FullUser x => user_name x
  | PhoneUser x => pu_name x
  end.

Definition u_phoneNumber (u : User) : option string :=
  match u with
  | FullUser x => user_phoneNumber x
  | PhoneUser x => Some (pu_phoneNumber x)
  end.

(** [`${value}`] for a string that may be [undefined], and for one that
    may be [null]. *)
Definition interp (value : option string) : string :=
  match value with
  | Some s => s
  | None => "undefined"
  end.

Definition interp_null (value : option string) : string :=
  match value with
  | Some s => s
  | None => "null"
  end.

(* ================================================================== *)
(** * Errors, calls that leave the process, and the world that answers *)
(* ================================================================== *)

(** The values the code throws: [CloudStorageApiError] (lines 188-197 of
    cloudStorageApi.ts) and any other [Error] (a rejected [fetch], a body
    that is not JSON, [new Error(...)] of the download helper). *)
Inductive Exn : Type :=
| JsError (message : string)
| CloudStorageApiError (message : string) (statusCode : Z)
    (response : option ApiErrorResponse).

(** [error instanceof CloudStorageApiError ? error.message : dflt]. *)
Definition apiMessageOr (dflt : string) (error : Exn) : string :=
  match error with
  | CloudStorageApiError message _ _ => message
  | JsError _ => dflt
  end.

Inductive ReqBody : Type :=
| NoBody
| JsonBody (p : Payload)
| BinaryBody (bytes : Buffer).

Record FetchInit := {
  f_method : string;
  f_headers : list (string * string);
  f_body : ReqBody
}.

(** [fetch(url)] with no options. *)
Definition plainGet : FetchInit :=
  {| f_method := "GET"; f_headers := []; f_body := NoBody |}.

Record Button := {
  b_text : string;
  b_callback_data : string
}.

(** grammY's [InlineKeyboard]: the rows of buttons.  (grammY is a library
    the repository imports; this is its documented builder: a keyboard
    starts with one empty row, [text] adds a button to the last row and
    [row] opens a new one.) *)
Module InlineKeyboard.

Definition t : Type := list (list Button).

Definition new : t := [[]].

Definition text (label data : string) (k : t) : t :=
  (removelast k
     ++ [(last k [] ++ [{| b_text := label; b_callback_data := data |}])%list])%list.

Definition row (k : t) : t := (k ++ [[]])%list.

(** The buttons of the keyboard, row by row. *)
Definition buttons (k : t) : list Button := List.concat k.

End InlineKeyboard.

Inductive ReplyMarkup : Type :=
| InlineMarkup (k : InlineKeyboard.t)
| RemoveKeyboard.

Inductive EditTarget : Type :=
| CallbackMessage
| ChatMessage (chat_id message_id : Z).

(** Everything a handler does that is visible outside its own variables,
    in the order in which it happens. *)
Inductive Call : Type :=
| Fetch (url : string) (init : FetchInit)
| AxiosPost (url : string) (filename contentType : string) (file : Buffer)
    (headers : list (string * string))
| TgGetFile (file_id : string)
| TgSendMessage (text : string) (markup : option ReplyMarkup)
| TgEditMessageText (target : EditTarget) (text : string)
| TgAnswerCallbackQuery (text : option string) (show_alert : bool)
| ConsoleLog (text : string)
| ConsoleError (text : string) (error : Exn).

(** A response of [fetch]: the status line and the body, as bytes and, when
    the bytes are JSON, parsed. *)
Record Response := {
  status : Z;
  statusText : string;
  arrayBuffer : Buffer;
  json : option Json
}.

(** [response.ok]: the status is in the range 200-299. *)
Definition ok (r : Response) : bool := (200 <=? status r) && (status r <=? 299).

Record Config := {
  botToken : string;
  cloudStorageApiUrl : string;
  botApiKey : string
}.

(** The world outside the process.  Each answer may depend on everything
    that happened before (the log), so a backend with state of its own is
    one of these worlds.  [inl] is a rejected promise. *)
Record World := {
  config : Config;
  w_fetch : list Call -> string -> FetchInit -> Exn + Response;
  w_axios : list Call -> string -> Buffer -> Exn + (Z * option Json);
  w_getFile : list Call -> string -> Exn + option string;
  w_telegram : list Call -> Call -> Exn + Z;
  w_now : list Call -> Z
}.

(** The state of the process: the module-level set of bot.ts and the log of
    what was done so far.  (The other module-level map, [userTokens], is
    written by the [/start] command and read nowhere; the handler of that
    command takes it as an argument and returns it, see [on_start].) *)
Record Machine := {
  processedUpdates : JsSet.t;
  log : list Call
}.

Definition emit (c : Call) (m : Machine) : Machine :=
  {| processedUpdates := processedUpdates m; log := (log m ++ [c])%list |}.

Inductive Outcome (A : Type) : Type :=
| Ok (a : A)
| Throw (e : Exn).
Arguments Ok {A} a.
Arguments Throw {A} e.

(** Sequential asynchronous code. *)
Definition M (A : Type) : Type := World -> Machine -> Outcome A * Machine.

Definition ret {A : Type} (a : A) : M A := fun _ m => (Ok a, m).

Definition throw {A : Type} (e : Exn) : M A := fun _ m => (Throw e, m).

Definition bind {A B : Type} (c : M A) (k : A -> M B) : M B :=
  fun w m =>
    match c w m with
    | (Ok a, m1) => k a w m1
    | (Throw e, m1) => (Throw e, m1)
    end.

(** [try { c } catch (error) { h }]. *)
Definition try_catch {A : Type} (c : M A) (h : Exn -> M A) : M A :=
  fun w m =>
    match c w m with
    | (Ok a, m1) => (Ok a, m1)
    | (Throw e, m1) => h e w m1
    end.

Notation "x <- c1 ;; c2" := (bind c1 (fun x => c2))
  (at level 61, c1 at next level, right associativity).
Notation "c1 ;; c2" := (bind c1 (fun _ => c2))
  (at level 61, right associativity).

(** The configuration constants read at module load. *)
Definition ask_config : M Config := fun w m => (Ok (config w), m).

(** [Date.now()]. *)
Definition date_now : M Z := fun w m => (Ok (w_now w (log m)), m).

Definition of_sum {A : Type} (r : Exn + A) : Outcome A :=
  match r with
  | inl e => Throw e
  | inr a => Ok a
  end.

Definition fetch (url : string) (init : FetchInit) : M Response :=
  fun w m => (of_sum (w_fetch w (log m) url init), emit (Fetch url init) m).

Definition axios_post (url filename contentType : string) (file : Buffer)
    (headers : list (string * string)) : M (Z * option Json) :=
  fun w m =>
    (of_sum (w_axios w (log m) url file),
     emit (AxiosPost url filename contentType file headers) m).

(** [bot.api.getFile(fileId)], giving [file.file_path]. *)
Definition getFile (fileId : string) : M (option string) :=
  fun w m => (of_sum (w_getFile w (log m) fileId), emit (TgGetFile fileId) m).

(** A Bot API method that sends something to the chat; the answer is the
    [message_id] of the message concerned. *)
Definition telegram (c : Call) : M Z :=
  fun w m => (of_sum (w_telegram w (log m) c), emit c m).

Definition console_log (text : string) : M unit :=
  fun _ m => (Ok tt, emit (ConsoleLog text) m).

Definition console_error (text : string) (error : Exn) : M unit :=
  fun _ m => (Ok tt, emit (ConsoleError text error) m).

(** [await response.json()]. *)
Definition response_json (r : Response) : M Json :=
  match json r with
  | Some j => ret j
  | None => throw (JsError "SyntaxError: Unexpected token in JSON")
  end.

(** [value.name] where [value] may be [undefined]: reading a member of
    [undefined] throws a [TypeError]. *)
Definition read {A B : Type} (name : string) (member : A -> B)
    (value : option A) : M B :=
  match value with
  | Some a => ret (member a)
  | None =>
      throw (JsError ("TypeError: Cannot read properties of undefined (reading '"
                      ++ name ++ "')"))
  end.

(** The part of the log that a run from [m] to [m'] added. *)
Definition new_calls (m m' : Machine) : list Call :=
  skipn (List.length (log m)) (log m').

(* ================================================================== *)
(** * Storage API client (cloudStorageApi.ts, lines 199-360) *)
(* ================================================================== *)

(** [{ ...base, ...extra }] on header objects: a key of [extra] replaces the
    same key of [base]. *)
Definition spread (base extra : list (string * string))
  : list (string * string) :=
  (filter (fun kv => negb (existsb (fun kv' => String.eqb (fst kv) (fst kv')) extra))
          base
   ++ extra)%list.

(** [errorData.message || errorData.error || dflt]. *)
Definition errorText (errorData : ApiErrorResponse) (dflt : string) : string :=
  or_else (or_opt (j_message errorData) (j_error errorData)) dflt.

(** [CloudStorageApi.request], lines 208-237.  The type parameter of the
    source is erased: [return data as T] hands the parsed body back as it
    is, whatever it holds. *)
Definition request (endpoint : string) (options : FetchInit) : M Json :=
  cfg <- ask_config ;;
  let url := cloudStorageApiUrl cfg ++ endpoint in
  let headers :=
    spread [("Content-Type", "application/json"); ("X-API-Key", botApiKey cfg)]
           (f_headers options) in
  response <- fetch url {| f_method := f_method options;
                           f_headers := headers;
                           f_body := f_body options |} ;;
  data <- response_json response ;;
  if negb (ok response) then
    let errorData : ApiErrorResponse := data in
    throw (CloudStorageApiError
             (errorText errorData "API request failed")
             (status response)
             (Some errorData))
  else ret data.

(** [{ method: 'POST', body: JSON.stringify(payload) }]. *)
Definition post (payload : Payload) : FetchInit :=
  {| f_method := "POST"; f_headers := []; f_body := JsonBody payload |}.

Definition createUser (telegramId : string) (name phoneNumber : option string)
  : M Json :=
  request "/api/v1/auth/bot/create-user"
    (post (PCreateUser telegramId name phoneNumber)).

(** [uploadFile], lines 246-286, the multipart path.  axios resolves on a
    status in 200-299 and rejects otherwise; with a response the rejection
    becomes a [CloudStorageApiError], without one it is thrown on as it is.
    What is returned is [response.data], the body when it is JSON.
    (The [X-Filename] header is the URI-encoded [filename] and the multipart
    headers come from the form; neither is spelled out.) *)
Definition uploadFile (telegramId filename contentType : string)
    (fileBuffer : Buffer) : M (option Json) :=
  cfg <- ask_config ;;
  let url := cloudStorageApiUrl cfg ++ "/api/v1/auth/bot/upload-file" in
  response <- axios_post url filename contentType fileBuffer
                [("X-API-Key", botApiKey cfg);
                 ("X-Telegram-Id", telegramId);
                 ("X-Content-Type", contentType)] ;;
  let '(st, body) := response in
  if (200 <=? st) && (st <=? 299) then ret body
  else
    match body with
    | Some errorData =>
        throw (CloudStorageApiError (errorText errorData "Upload failed") st
                 (Some errorData))
    | None => throw (CloudStorageApiError "Upload failed" st None)
    end.

Definition generateShareLink (telegramId fsObjectId : string)
  : M Json :=
  request "/api/v1/auth/bot/generate-share-link"
    (post (PFsObject telegramId fsObjectId)).

Definition updatePhone (telegramId phoneNumber : string)
  : M Json :=
  request "/api/v1/auth/bot/update-phone"
    (post (PUpdatePhone telegramId phoneNumber)).

Definition listSharedFiles (telegramId : string)
  : M Json :=
  request "/api/v1/auth/bot/list-shared-files"
    (post (PTelegramId telegramId)).

Definition deleteShareLink (telegramId fsObjectId : string)
  : M Json :=
  request "/api/v1/auth/bot/delete-share-link"
    (post (PFsObject telegramId fsObjectId)).

Definition getLinksWithViews (telegramId : string) (page limit : option Z)
  : M Json :=
  request "/api/v1/auth/bot/links-with-views"
    (post (PLinksWithViews telegramId page limit)).

Definition deleteAccount (telegramId : string) : M Json :=
  request "/api/v1/auth/bot/delete-account"
    (post (PTelegramId telegramId)).

Definition getUploadUrl (telegramId filename contentType : string)
    (fileSize : Z) : M Json :=
  request "/api/v1/auth/bot/get-upload-url"
    (post (PGetUploadUrl telegramId filename contentType fileSize)).

(** [JSON.stringify({ telegramId, fsObjectId })]: a member that is
    [undefined] is left out of the text. *)
Definition fsObjectPayload (telegramId : string) (fsObjectId : option string)
  : Payload :=
  match fsObjectId with
  | Some f => PFsObject telegramId f
  | None => PTelegramId telegramId
  end.

(** [completeUpload]; its caller takes the object id from a body that it
    does not check. *)
Definition completeUpload (telegramId : string) (fsObjectId : option string)
  : M Json :=
  request "/api/v1/auth/bot/complete-upload"
    (post (fsObjectPayload telegramId fsObjectId)).

(** [uploadToS3], lines 344-359. *)
Definition uploadToS3 (uploadUrl : string) (fileBuffer : Buffer)
    (contentType : string) : M unit :=
  response <- fetch uploadUrl
                {| f_method := "PUT";
                   f_headers := [("Content-Type", contentType)];
                   f_body := BinaryBody fileBuffer |} ;;
  if negb (ok response) then
    throw (CloudStorageApiError "Failed to upload to S3" (status response) None)
  else ret tt.

(** The request that [request] sends for an endpoint and a payload. *)
Definition backendUrl (cfg : Config) (endpoint : string) : string :=
  cloudStorageApiUrl cfg ++ endpoint.

Definition backendInit (cfg : Config) (payload : Payload) : FetchInit :=
  {| f_method := "POST";
     f_headers := [("Content-Type", "application/json");
                   ("X-API-Key", botApiKey cfg)];
     f_body := JsonBody payload |}.

Definition backendCall (cfg : Config) (endpoint : string) (payload : Payload)
  : Call :=
  Fetch (backendUrl cfg endpoint) (backendInit cfg payload).

(** The operations of the client that talk to the backend, for statements
    about all of them. *)
Inductive BackendOp : Type :=
| OpCreateUser (telegramId : string) (name phoneNumber : option string)
| OpUploadFile (telegramId filename contentType : string) (fileBuffer : Buffer)
| OpGenerateShareLink (telegramId fsObjectId : string)
| OpUpdatePhone (telegramId phoneNumber : string)
| OpListSharedFiles (telegramId : string)
| OpDeleteShareLink (telegramId fsObjectId : string)
| OpGetLinksWithViews (telegramId : string) (page limit : option Z)
| OpDeleteAccount (telegramId : string)
| OpGetUploadUrl (telegramId filename contentType : string) (fileSize : Z)
| OpCompleteUpload (telegramId fsObjectId : string).

(** Running an operation and keeping only whether it threw. *)
Definition void {A : Type} (c : M A) : M unit := _ <- c ;; ret tt.

Definition runOp (op : BackendOp) : M unit :=
  match op with
  | OpCreateUser t n p => void (createUser t n p)
  | OpUploadFile t f c b => void (uploadFile t f c b)
  | OpGenerateShareLink t f => void (generateShareLink t f)
  | OpUpdatePhone t p => void (updatePhone t p)
  | OpListSharedFiles t => void (listSharedFiles t)
  | OpDeleteShareLink t f => void (deleteShareLink t f)
  | OpGetLinksWithViews t p l => void (getLinksWithViews t p l)
  | OpDeleteAccount t => void (deleteAccount t)
  | OpGetUploadUrl t f c s => void (getUploadUrl t f c s)
  | OpCompleteUpload t f => void (completeUpload t (Some f))
  end.

(** The one call an operation makes. *)
Definition opCall (cfg : Config) (op : BackendOp) : Call :=
  match op with
  | OpCreateUser t n p =>
      backendCall cfg "/api/v1/auth/bot/create-user" (PCreateUser t n p)
  | OpUploadFile t f c b =>
      AxiosPost (backendUrl cfg "/api/v1/auth/bot/upload-file") f c b
        [("X-API-Key", botApiKey cfg); ("X-Telegram-Id", t);
         ("X-Content-Type", c)]
  | OpGenerateShareLink t f =>
      backendCall cfg "/api/v1/auth/bot/generate-share-link" (PFsObject t f)
  | OpUpdatePhone t p =>
      backendCall cfg "/api/v1/auth/bot/update-phone" (PUpdatePhone t p)
  | OpListSharedFiles t =>
      backendCall cfg "/api/v1/auth/bot/list-shared-files" (PTelegramId t)
  | OpDeleteShareLink t f =>
      backendCall cfg "/api/v1/auth/bot/delete-share-link" (PFsObject t f)
  | OpGetLinksWithViews t p l =>
      backendCall cfg "/api/v1/auth/bot/links-with-views" (PLinksWithViews t p l)
  | OpDeleteAccount t =>
      backendCall cfg "/api/v1/auth/bot/delete-account" (PTelegramId t)
  | OpGetUploadUrl t f c s =>
      backendCall cfg "/api/v1/auth/bot/get-upload-url" (PGetUploadUrl t f c s)
  | OpCompleteUpload t f =>
      backendCall cfg "/api/v1/auth/bot/complete-upload" (PFsObject t f)
  end.


(** What the backend answers to a call in world [w] after the history
    [history]: the HTTP status and the JSON body if there is one; [None] when
    no response arrives at all. *)
Definition backendAnswer (w : World) (history : list Call) (c : Call)
  : option (Z * option Json) :=
  match c with
  | Fetch url init =>
      match w_fetch w history url init with
      | inr r => Some (status r, json r)
      | inl _ => None
      end
  | AxiosPost url _ _ file _ =>
      match w_axios w history url file with
      | inr answer => Some answer
      | inl _ => None
      end
  | _ => None
  end.

(* ================================================================== *)
(** * Helpers and the upload orchestrator (bot.ts, lines 45-130) *)
(* ================================================================== *)

Record From := {
  id : Z;
  first_name : string;
  last_name : option string;
  username : option string
}.

(** [getUserDisplayName], lines 46-51. *)
Definition getUserDisplayName (from : From) : string :=
  if truthy (Some (first_name from)) && truthy (last_name from) then
    first_name from ++ " " ++ or_else (last_name from) ""
  else or_else (or_opt (Some (first_name from)) (username from)) "User".

(** A string that passes [if (!s)]: defined and not empty. *)
Definition nonempty (s : option string) : option string :=
  if truthy s then s else None.

(** [downloadTelegramFile], lines 61-77. *)
Definition downloadTelegramFile (fileId : string) : M Buffer :=
  file_path <- getFile fileId ;;
  match nonempty file_path with
  | None => throw (JsError "Could not get file path from Telegram")
  | Some filePath =>
      cfg <- ask_config ;;
      let fileUrl :=
        "https://api.telegram.org/file/bot" ++ botToken cfg ++ "/" ++ filePath in
      response <- fetch fileUrl plainGet ;;
      if negb (ok response) then
        throw (JsError ("Failed to download file: " ++ statusText response))
      else ret (arrayBuffer response)
  end.

(** What [fastUploadFile] returns: three members of the body of the
    confirmation, each [undefined] when that body has no such member. *)
Record UploadResult := {
  shareableLink : option string;
  filename : option string;
  size : option Z
}.

(** [formatFileSize(bytes)] when [bytes] may be [undefined]: a comparison
    with [undefined] is false, so the last line of the function runs, and
    [(undefined / (1024 * 1024)).toFixed(1)] is ["NaN"]. *)
Definition formatFileSizeOf (bytes : option Z) : string :=
  match bytes with
  | Some b => formatFileSize b
  | None => "NaN MB"
  end.

(** [fastUploadFile], lines 80-116.  The members of the two bodies are
    read where the source reads them: the URL when the transfer is called,
    the object id when the confirmation is called, the rest at the end.
    [fetch] takes its first argument as text, so a URL that is [undefined]
    is the text ["undefined"]. *)
Definition fastUploadFile (telegramId fileId filename contentType : string)
    (fileSize : Z) : M UploadResult :=
  (* Step 1: Get presigned upload URL from backend *)
  urlResponse <- getUploadUrl telegramId filename contentType fileSize ;;
  (* Step 2: Download from Telegram *)
  fileBuffer <- downloadTelegramFile fileId ;;
  (* Step 3: Upload directly to S3 *)
  uploadUrl <- read "uploadUrl" d_uploadUrl (data urlResponse) ;;
  uploadToS3 (interp uploadUrl) fileBuffer contentType ;;
  (* Step 4: Complete upload and get share link *)
  fsObjectId <- read "fsObjectId" d_fsObjectId (data urlResponse) ;;
  completeResponse <- completeUpload telegramId fsObjectId ;;
  link <- read "shareableLink" d_shareableLink (data completeResponse) ;;
  name <- read "filename" d_filename (data completeResponse) ;;
  bytes <- read "size" d_size (data completeResponse) ;;
  ret {| shareableLink := link; filename := name; size := bytes |}.

(** [ensureUserRegistered], lines 119-130. *)
Definition ensureUserRegistered (telegramId : string) (userName : option string)
  : M bool :=
  try_catch
    (createUser telegramId userName None ;; ret true)
    (fun error =>
       console_error "Error ensuring user registration:" error ;;
       ret false).

(** [isProcessed] on the set of the running process. *)
Definition isProcessedM (updateId : Z) : M bool :=
  fun _ m =>
    let '(answer, set') := isProcessed updateId (processedUpdates m) in
    (Ok answer, {| processedUpdates := set'; log := log m |}).

(* ================================================================== *)
(** * Handlers (bot.ts, lines 256-308 and 420-896) *)
(* ================================================================== *)

(** A file descriptor of a message: [document], [video], [audio], [voice]
    and each element of [photo].  The members a kind does not declare are
    absent. *)
Record TgFile := {
  file_id : string;
  file_name : option string;
  mime_type : option string;
  file_size : option Z
}.

Record Contact := {
  phone_number : string;
  contact_user_id : option Z
}.

(** What a handler reads from grammY's context: the update, its sender and
    chat, and the payload [P] of its kind. *)
Record Ctx (P : Type) := {
  update_id : Z;
  from : option From;
  chat_id : Z;
  message : P
}.
Arguments update_id {P} _.
Arguments from {P} _.
Arguments chat_id {P} _.
Arguments message {P} _.

(** [ctx.from?.id.toString()], as far as [if (!telegramId)] lets it pass. *)
Definition telegramId_of {P : Type} (ctx : Ctx P) : option string :=
  nonempty (option_map (fun f => dec (id f)) (from ctx)).

(** [ctx.from ? getUserDisplayName(ctx.from) : undefined]. *)
Definition userName_of {P : Type} (ctx : Ctx P) : option string :=
  option_map getUserDisplayName (from ctx).

(** [ctx.reply(text, { reply_markup })]; the answer is the [message_id]. *)
Definition reply (text : string) (markup : option ReplyMarkup) : M Z :=
  telegram (TgSendMessage text markup).

Definition editMessageText (target : EditTarget) (text : string) : M unit :=
  void (telegram (TgEditMessageText target text)).

Definition answerCallbackQuery (text : option string) (show_alert : bool)
  : M unit :=
  void (telegram (TgAnswerCallbackQuery text show_alert)).

Definition couldNotIdentify : string :=
  "Could not identify your account. Please try again.".

Definition fileTooLarge : string :=
  "❌ File too large!" ++ nl ++ nl ++
  "Maximum file size is 20MB." ++ nl ++
  "Please use a smaller file or compress it first.".

Definition videoTooLarge : string :=
  "❌ Video too large!" ++ nl ++ nl ++
  "Maximum file size is 20MB." ++ nl ++
  "Please use a smaller video or compress it first.".

Definition audioTooLarge : string :=
  "❌ Audio file too large!" ++ nl ++ nl ++
  "Maximum file size is 20MB.".

Definition uploadFailed (errorMessage : string) : string :=
  "❌ Upload failed!" ++ nl ++ nl ++ errorMessage ++ nl ++ nl ++
  "Please try again.".

Definition skippingDuplicate (updateId : Z) : string :=
  "Skipping duplicate update: " ++ dec updateId.

(** [bot.on('message:document')], lines 516-583. *)
Definition on_document (ctx : Ctx TgFile) : M unit :=
  (* Prevent duplicate processing *)
  duplicate <- isProcessedM (update_id ctx) ;;
  if duplicate then console_log (skippingDuplicate (update_id ctx))
  else
    match telegramId_of ctx with
    | None => void (reply couldNotIdentify None)
    | Some telegramId =>
        let document := message ctx in
        let fileName := or_else (file_name document) "unnamed_file" in
        let mimeType :=
          or_else (mime_type document) "application/octet-stream" in
        let fileSize := or_zero (file_size document) in
        (* Check file size (Telegram bot API limit is 20MB) *)
        if fileSize >? 20 * 1024 * 1024 then void (reply fileTooLarge None)
        else
          statusMsg <- reply ("📤 Uploading " ++ dq ++ fileName ++ dq ++ "..."
                              ++ nl ++ "Size: " ++ formatFileSize fileSize)
                             None ;;
          try_catch
            ((* Ensure user is registered *)
             ensureUserRegistered telegramId (userName_of ctx) ;;
             (* Fast upload using presigned URL *)
             result <- fastUploadFile telegramId (file_id document) fileName
                         mimeType fileSize ;;
             editMessageText (ChatMessage (chat_id ctx) statusMsg)
               ("✅ Upload complete!" ++ nl ++ nl ++
                "📄 File: " ++ interp (filename result) ++ nl ++
                "📦 Size: " ++ formatFileSizeOf (size result) ++ nl ++ nl ++
                "🔗 Shareable Link:" ++ nl ++ interp (shareableLink result)))
            (fun error =>
               console_error "Error uploading document:" error ;;
               let errorMessage := apiMessageOr "Failed to upload file." error in
               editMessageText (ChatMessage (chat_id ctx) statusMsg)
                 (uploadFailed errorMessage))
    end.

(** [bot.on('message:photo')], lines 586-648. *)
Definition on_photo (ctx : Ctx (list TgFile)) : M unit :=
  duplicate <- isProcessedM (update_id ctx) ;;
  if duplicate then console_log (skippingDuplicate (update_id ctx))
  else
    match telegramId_of ctx with
    | None => void (reply couldNotIdentify None)
    | Some telegramId =>
        (* Get the largest photo (last in array) *)
        let photos := message ctx in
        match nth_error photos (List.length photos - 1) with
        | None =>
            void (reply "Could not process this photo. Please try again." None)
        | Some photo =>
            let fileSize := or_zero (file_size photo) in
            now <- date_now ;;
            let fileName := "photo_" ++ dec now ++ ".jpg" in
            statusMsg <- reply ("📤 Uploading photo..." ++ nl ++
                                "Size: " ++ formatFileSize fileSize) None ;;
            try_catch
              (ensureUserRegistered telegramId (userName_of ctx) ;;
               result <- fastUploadFile telegramId (file_id photo) fileName
                           "image/jpeg" fileSize ;;
               editMessageText (ChatMessage (chat_id ctx) statusMsg)
                 ("✅ Photo uploaded!" ++ nl ++ nl ++
                  "📸 Size: " ++ formatFileSizeOf (size result) ++ nl ++ nl ++
                  "🔗 Shareable Link:" ++ nl ++ interp (shareableLink result)))
              (fun error =>
                 console_error "Error uploading photo:" error ;;
                 let errorMessage :=
                   apiMessageOr "Failed to upload photo." error in
                 editMessageText (ChatMessage (chat_id ctx) statusMsg)
                   (uploadFailed errorMessage))
        end
    end.

(** [file.file_name || `${stem}_${Date.now()}${ext}`]. *)
Definition nameOrStamp (name : option string) (stem ext : string) : M string :=
  match nonempty name with
  | Some n => ret n
  | None => now <- date_now ;; ret (stem ++ "_" ++ dec now ++ ext)
  end.

(** [bot.on('message:video')], lines 651-718. *)
Definition on_video (ctx : Ctx TgFile) : M unit :=
  duplicate <- isProcessedM (update_id ctx) ;;
  if duplicate then console_log (skippingDuplicate (update_id ctx))
  else
    match telegramId_of ctx with
    | None => void (reply couldNotIdentify None)
    | Some telegramId =>
        let video := message ctx in
        fileName <- nameOrStamp (file_name video) "video" ".mp4" ;;
        let mimeType := or_else (mime_type video) "video/mp4" in
        let fileSize := or_zero (file_size video) in
        (* Check file size (Telegram bot API limit is 20MB) *)
        if fileSize >? 20 * 1024 * 1024 then void (reply videoTooLarge None)
        else
          statusMsg <- reply ("📤 Uploading video " ++ dq ++ fileName ++ dq
                              ++ "..." ++ nl ++
                              "Size: " ++ formatFileSize fileSize) None ;;
          try_catch
            (ensureUserRegistered telegramId (userName_of ctx) ;;
             result <- fastUploadFile telegramId (file_id video) fileName
                         mimeType fileSize ;;
             editMessageText (ChatMessage (chat_id ctx) statusMsg)
               ("✅ Video uploaded!" ++ nl ++ nl ++
                "🎬 File: " ++ interp (filename result) ++ nl ++
                "📦 Size: " ++ formatFileSizeOf (size result) ++ nl ++ nl ++
                "🔗 Shareable Link:" ++ nl ++ interp (shareableLink result)))
            (fun error =>
               console_error "Error uploading video:" error ;;
               let errorMessage := apiMessageOr "Failed to upload video." error in
               editMessageText (ChatMessage (chat_id ctx) statusMsg)
                 (uploadFailed errorMessage))
    end.

(** [bot.on('message:audio')], lines 721-787. *)
Definition on_audio (ctx : Ctx TgFile) : M unit :=
  duplicate <- isProcessedM (update_id ctx) ;;
  if duplicate then console_log (skippingDuplicate (update_id ctx))
  else
    match telegramId_of ctx with
    | None => void (reply couldNotIdentify None)
    | Some telegramId =>
        let audio := message ctx in
        fileName <- nameOrStamp (file_name audio) "audio" ".mp3" ;;
        let mimeType := or_else (mime_type audio) "audio/mpeg" in
        let fileSize := or_zero (file_size audio) in
        (* Check file size *)
        if fileSize >? 20 * 1024 * 1024 then void (reply audioTooLarge None)
        else
          statusMsg <- reply ("📤 Uploading audio " ++ dq ++ fileName ++ dq
                              ++ "..." ++ nl ++
                              "Size: " ++ formatFileSize fileSize) None ;;
          try_catch
            (ensureUserRegistered telegramId (userName_of ctx) ;;
             result <- fastUploadFile telegramId (file_id audio) fileName
                         mimeType fileSize ;;
             editMessageText (ChatMessage (chat_id ctx) statusMsg)
               ("✅ Audio uploaded!" ++ nl ++ nl ++
                "🎵 File: " ++ interp (filename result) ++ nl ++
                "📦 Size: " ++ formatFileSizeOf (size result) ++ nl ++ nl ++
                "🔗 Shareable Link:" ++ nl ++ interp (shareableLink result)))
            (fun error =>
               console_error "Error uploading audio:" error ;;
               let errorMessage := apiMessageOr "Failed to upload audio." error in
               editMessageText (ChatMessage (chat_id ctx) statusMsg)
                 (uploadFailed errorMessage))
    end.

(** [bot.on('message:voice')], lines 790-847. *)
Definition on_voice (ctx : Ctx TgFile) : M unit :=
  duplicate <- isProcessedM (update_id ctx) ;;
  if duplicate then console_log (skippingDuplicate (update_id ctx))
  else
    match telegramId_of ctx with
    | None => void (reply couldNotIdentify None)
    | Some telegramId =>
        let voice := message ctx in
        now <- date_now ;;
        let fileName := "voice_" ++ dec now ++ ".ogg" in
        let mimeType := or_else (mime_type voice) "audio/ogg" in
        let fileSize := or_zero (file_size voice) in
        statusMsg <- reply ("📤 Uploading voice message..." ++ nl ++
                            "Size: " ++ formatFileSize fileSize) None ;;
        try_catch
          (ensureUserRegistered telegramId (userName_of ctx) ;;
           result <- fastUploadFile telegramId (file_id voice) fileName
                       mimeType fileSize ;;
           editMessageText (ChatMessage (chat_id ctx) statusMsg)
             ("✅ Voice message uploaded!" ++ nl ++ nl ++
              "🎤 Size: " ++ formatFileSizeOf (size result) ++ nl ++ nl ++
              "🔗 Shareable Link:" ++ nl ++ interp (shareableLink result)))
          (fun error =>
             console_error "Error uploading voice:" error ;;
             let errorMessage :=
               apiMessageOr "Failed to upload voice message." error in
             editMessageText (ChatMessage (chat_id ctx) statusMsg)
               (uploadFailed errorMessage))
    end.

(** [bot.callbackQuery('confirm_delete_account')], lines 281-308. *)
Definition on_confirm_delete_account (ctx : Ctx unit) : M unit :=
  match telegramId_of ctx with
  | None =>
      answerCallbackQuery (Some "Could not identify your account.") false
  | Some telegramId =>
      try_catch
        (deleteAccount telegramId ;;
         answerCallbackQuery (Some "Account deleted") false ;;
         editMessageText CallbackMessage
           ("✅ Account Deleted" ++ nl ++ nl ++
            "Your account and all associated data have been deleted." ++ nl ++ nl ++
            "Thank you for using Cloud Storage Bot." ++ nl ++
            "If you change your mind, use /start to create a new account."))
        (fun error =>
           console_error "Error deleting account:" error ;;
           let errorMessage := apiMessageOr "Failed to delete account." error in
           answerCallbackQuery (Some errorMessage) true)
  end.

(** [i]-th element first: [xs.map((x, i) => f(x, i))]. *)
Fixpoint mapi_from {A B : Type} (i : Z) (f : A -> Z -> B) (xs : list A)
  : list B :=
  match xs with
  | [] => []
  | x :: rest => f x i :: mapi_from (i + 1) f rest
  end.

Definition mapi {A B : Type} (f : A -> Z -> B) (xs : list A) : list B :=
  mapi_from 0 f xs.

(** The label of a delete button, lines 442-444. *)
Definition displayName (file : SharedFile) : string :=
  if (25 <? Utf16.length (sf_filename file))%nat
  then Utf16.substring0 22 (sf_filename file) ++ "..."
  else sf_filename file.

(** The keyboard of the delete-link selection, lines 439-448. *)
Definition deleteLinkKeyboard (files : list SharedFile) : InlineKeyboard.t :=
  let keyboard := InlineKeyboard.new in
  let keyboard :=
    fold_left
      (fun kb file =>
         InlineKeyboard.row
           (InlineKeyboard.text ("🗑 " ++ displayName file)
              ("delete_link:" ++ sf_fsObjectId file) kb))
      (slice0 10 files) keyboard in
  InlineKeyboard.text "❌ Cancel" "delete_link:cancel" keyboard.

(** One line of the numbered list, line 454. *)
Definition deleteLinkLine (f : SharedFile) (i : Z) : string :=
  dec (i + 1) ++ ". " ++ sf_filename f ++ " (" ++ formatFileSize (sf_size f)
  ++ ")".

(** The text of the delete-link selection, lines 451-456. *)
Definition deleteLinkText (files : list SharedFile) : string :=
  "🔗 Your Shared Files" ++ nl ++ nl ++
  "Select a file to delete its shareable link:" ++ nl ++ nl ++
  join nl (mapi deleteLinkLine (slice0 10 files)) ++
  (if (10 <? List.length files)%nat
   then nl ++ nl ++ "...and " ++ dec (Z.of_nat (List.length files) - 10)
        ++ " more"
   else "").

Definition noSharedFiles : string :=
  "📭 No shared files found." ++ nl ++ nl ++
  "Upload a file first, and I'll generate a shareable link for you.".

(** [bot.command('delete_link')], lines 421-468.  The replies are
    returned, not awaited, inside [try] and [catch]: a reply that fails is
    not caught, so the reply is made after the [try] statement has chosen
    its text and keyboard. *)
Definition on_delete_link_command (ctx : Ctx unit) : M unit :=
  match telegramId_of ctx with
  | None => void (reply couldNotIdentify None)
  | Some telegramId =>
      chosen <-
        try_catch
          (response <- listSharedFiles telegramId ;;
           files <- read "files" d_files (data response) ;;
           (* [files.length] on [undefined] throws *)
           files <- read "length" (fun fs : list SharedFile => fs) files ;;
           if (List.length files =? 0)%nat then ret (noSharedFiles, None)
           else
             ret (deleteLinkText files,
                  Some (InlineMarkup (deleteLinkKeyboard files))))
          (fun error =>
             console_error "Error listing shared files:" error ;;
             match error with
             | CloudStorageApiError message _ _ =>
                 ret ("Failed to list shared files: " ++ message, None)
             | JsError _ =>
                 ret ("An unexpected error occurred. Please try again later.",
                      None)
             end) ;;
      void (reply (fst chosen) (snd chosen))
  end.

(** [bot.callbackQuery(/^delete_link:(.+)$/)], lines 471-513.  The payload
    is [ctx.match?.[1]]. *)
Definition on_delete_link_callback (ctx : Ctx (option string)) : M unit :=
  match telegramId_of ctx with
  | None =>
      answerCallbackQuery (Some "Could not identify your account.") false
  | Some telegramId =>
      match nonempty (message ctx) with
      | None => answerCallbackQuery (Some "Invalid request.") false
      | Some fsObjectId =>
          (* Handle cancel *)
          if String.eqb fsObjectId "cancel" then
            answerCallbackQuery (Some "Cancelled") false ;;
            editMessageText CallbackMessage "Operation cancelled."
          else
            try_catch
              (response <- deleteShareLink telegramId fsObjectId ;;
               answerCallbackQuery (Some "Share link deleted!") false ;;
               name <- read "filename" d_filename (data response) ;;
               editMessageText CallbackMessage
                 ("✅ Share link deleted successfully!" ++ nl ++ nl ++
                  "File: " ++ interp name ++ nl ++ nl ++
                  "The shareable link for this file is no longer active."))
              (fun error =>
                 console_error "Error deleting share link:" error ;;
                 let errorMessage :=
                   apiMessageOr "Failed to delete share link." error in
                 answerCallbackQuery (Some errorMessage) true)
      end
  end.

(** [a !== b] on two values that are strings or [undefined]. *)
Definition strictNe (a b : option string) : bool :=
  match a, b with
  | Some x, Some y => negb (String.eqb x y)
  | None, None => false
  | _, _ => true
  end.

Definition notYourContact : string :=
  "❌ Please share your own phone number, not someone else's contact.".

(** [bot.on('message:contact')], lines 850-896.  The replies of the [try]
    statement are returned, not awaited: a reply that fails is not caught,
    so the reply is made after the statement has chosen its text. *)
Definition on_contact (ctx : Ctx Contact) : M unit :=
  match telegramId_of ctx with
  | None => void (reply couldNotIdentify None)
  | Some telegramId =>
      let contact := message ctx in
      (* Verify that the contact is from the user themselves (not forwarded) *)
      if strictNe (option_map dec (contact_user_id contact)) (Some telegramId)
      then void (reply notYourContact (Some RemoveKeyboard))
      else
        let phoneNumber := phone_number contact in
        (* Ensure phone number has + prefix *)
        let formattedPhone :=
          if startsWith "+" phoneNumber then phoneNumber
          else "+" ++ phoneNumber in
        text <-
          try_catch
            (response <- updatePhone telegramId formattedPhone ;;
             user <- read "user" d_user (data response) ;;
             phone <- read "phoneNumber" u_phoneNumber user ;;
             ret ("✅ Phone number verified successfully!" ++ nl ++ nl ++
                  "📱 Phone: " ++ interp_null phone ++ nl ++ nl ++
                  "Your account is now fully verified."))
            (fun error =>
               console_error "Error updating phone:" error ;;
               let errorMessage :=
                 apiMessageOr "Failed to verify phone number." error in
               ret ("❌ " ++ errorMessage ++ nl ++ nl ++
                    "Please try again later.")) ;;
        void (reply text (Some RemoveKeyboard))
  end.

(** The updates whose handlers change something at the backend, and the
    handler grammY runs for each. *)
Inductive Update : Type :=
| MessageDocument (ctx : Ctx TgFile)
| MessagePhoto (ctx : Ctx (list TgFile))
| MessageVideo (ctx : Ctx TgFile)
| MessageAudio (ctx : Ctx TgFile)
| MessageVoice (ctx : Ctx TgFile)
| MessageContact (ctx : Ctx Contact)
| CallbackConfirmDeleteAccount (ctx : Ctx unit)
| CallbackDeleteLink (ctx : Ctx (option string)).

Definition handle (u : Update) : M unit :=
  match u with
  | MessageDocument ctx => on_document ctx
  | MessagePhoto ctx => on_photo ctx
  | MessageVideo ctx => on_video ctx
  | MessageAudio ctx => on_audio ctx
  | MessageVoice ctx => on_voice ctx
  | MessageContact ctx => on_contact ctx
  | CallbackConfirmDeleteAccount ctx => on_confirm_delete_account ctx
  | CallbackDeleteLink ctx => on_delete_link_callback ctx
  end.

Definition updateId (u : Update) : Z :=
  match u with
  | MessageDocument ctx => update_id ctx
  | MessagePhoto ctx => update_id ctx
  | MessageVideo ctx => update_id ctx
  | MessageAudio ctx => update_id ctx
  | MessageVoice ctx => update_id ctx
  | MessageContact ctx => update_id ctx
  | CallbackConfirmDeleteAccount ctx => update_id ctx
  | CallbackDeleteLink ctx => update_id ctx
  end.

(** The five media uploads. *)
Definition isUpload (u : Update) : bool :=
  match u with
  | MessageDocument _ | MessagePhoto _ | MessageVideo _ | MessageAudio _
  | MessageVoice _ => true
  | _ => false
  end.

(** The size a media update declares: [file_size || 0] of its file, for a
    photo of its largest size. *)
Definition declaredSize (u : Update) : option Z :=
  match u with
  | MessageDocument ctx | MessageVideo ctx | MessageAudio ctx
  | MessageVoice ctx => Some (or_zero (file_size (message ctx)))
  | MessagePhoto ctx =>
      option_map (fun p => or_zero (file_size p))
        (nth_error (message ctx) (List.length (message ctx) - 1))
  | _ => None
  end.

(** Calls that reach the backend, the object storage or the file service of
    the messaging provider; replies to the chat and console output are the
    other calls. *)
Definition isTransferCall (c : Call) : bool :=
  match c with
  | Fetch _ _ | AxiosPost _ _ _ _ _ | TgGetFile _ => true
  | _ => false
  end.

(** What the user gets to see. *)
Definition isUserVisible (c : Call) : bool :=
  match c with
  | TgSendMessage _ _ | TgEditMessageText _ _ | TgAnswerCallbackQuery _ _ => true
  | _ => false
  end.

(** [n / 10] is the value with one decimal nearest to [b / unit], the larger
    one when two are equally near. *)
Definition nearest_tenth (b unit n : Z) : Prop :=
  - unit <= 2 * (10 * b - unit * n) < unit.

(* ================================================================== *)
(** * The calls of the four upload steps *)
(* ================================================================== *)

(** Step 1, presign: the POST to [get-upload-url]. *)
Definition presignCall (cfg : Config) (telegramId filename contentType : string)
    (fileSize : Z) : Call :=
  backendCall cfg "/api/v1/auth/bot/get-upload-url"
    (PGetUploadUrl telegramId filename contentType fileSize).

(** Step 2, fetch: [getFile] at the messaging provider, then the GET of the
    file at the path it names. *)
Definition getFileCall (fileId : string) : Call := TgGetFile fileId.

Definition downloadCall (cfg : Config) (filePath : string) : Call :=
  Fetch ("https://api.telegram.org/file/bot" ++ botToken cfg ++ "/" ++ filePath)
        plainGet.

(** Step 3, transfer: the PUT to the presigned URL. *)
Definition putCall (uploadUrl : string) (fileBuffer : Buffer)
    (contentType : string) : Call :=
  Fetch uploadUrl {| f_method := "PUT";
                     f_headers := [("Content-Type", contentType)];
                     f_body := BinaryBody fileBuffer |}.

(** Step 4, confirm: the POST to [complete-upload]. *)
Definition confirmCall (cfg : Config) (telegramId fsObjectId : string) : Call :=
  backendCall cfg "/api/v1/auth/bot/complete-upload"
    (PFsObject telegramId fsObjectId).

(* ================================================================== *)
(** * A concrete world, for running the handlers *)
(* ================================================================== *)

Definition demoConfig : Config :=
  {| botToken := "TOKEN";
     cloudStorageApiUrl := "http://localhost:7002";
     botApiKey := "KEY" |}.

Definition demoUser : UserResponse :=
  {| user_id_str := "0123456789abcdef";
     user_telegramId := "77";
     user_phoneNumber := None;
     user_name := "Ada";
     user_profilePic := None;
     user_isPhoneVerified := false;
     user_createdAt := "2025-12-01T00:00:00.000Z" |}.

Definition demoFile (n : Z) : SharedFile :=
  {| sf_fsObjectId := "obj-" ++ dec n;
     sf_filename := "file-" ++ dec n ++ ".txt";
     sf_size := 100 * n;
     sf_sourceType := "telegram";
     sf_createdAt := "2025-12-01T00:00:00.000Z";
     sf_shareCreatedAt := "2025-12-01T00:00:00.000Z" |}.

(** The success body of each endpoint. *)
Definition demoData (endpoint : string) : option Data :=
  if String.eqb endpoint "/api/v1/auth/bot/create-user" then
    Some (DCreateUser {| cu_user := demoUser; cu_token := "jwt";
                         cu_isNewUser := false |})
  else if String.eqb endpoint "/api/v1/auth/bot/get-upload-url" then
    Some (DGetUploadUrl {| gu_fsObjectId := "obj-1";
                           gu_uploadUrl := "https://s3.example/put/obj-1";
                           gu_s3Key := "uploads/obj-1" |})
  else if String.eqb endpoint "/api/v1/auth/bot/complete-upload" then
    Some (DCompleteUpload {| co_fsObjectId := "obj-1";
                             co_filename := "voice.ogg";
                             co_size := 2048;
                             co_sourceType := "telegram";
                             co_shareableLink := "https://share.example/obj-1" |})
  else if String.eqb endpoint "/api/v1/auth/bot/delete-account" then
    Some (DDeleteAccount true)
  else if String.eqb endpoint "/api/v1/auth/bot/delete-share-link" then
    Some (DDeleteShareLink {| dl_fsObjectId := "obj-1";
                              dl_filename := "file-1.txt" |})
  else if String.eqb endpoint "/api/v1/auth/bot/update-phone" then
    Some (DUpdatePhone {| pu_id := "0123456789abcdef"; pu_telegramId := "77";
                          pu_phoneNumber := "+15550100"; pu_name := "Ada";
                          pu_isPhoneVerified := true |})
  else if String.eqb endpoint "/api/v1/auth/bot/list-shared-files" then
    Some (DListSharedFiles (map demoFile [1; 2; 3; 4; 5; 6; 7; 8; 9; 10; 11; 12]))
  else None.

Definition demoEnvelope : ApiErrorResponse :=
  {| j_status := Some "error";
     j_message := Some "Service unavailable";
     j_error := None;
     j_data := None |}.

(** [fetch] in the demo world: the object storage accepts every PUT, the
    file service serves two bytes, and the backend answers every endpoint
    with its success body, except the endpoints listed in [failing], which
    answer 503 with an envelope. *)
Definition demoFetch (failing : list string) (history : list Call)
    (url : string) (init : FetchInit) : Exn + Response :=
  if String.eqb (f_method init) "PUT" then
    inr {| status := 200; statusText := "OK"; arrayBuffer := []; json := None |}
  else if String.eqb (f_method init) "GET" then
    inr {| status := 200; statusText := "OK";
           arrayBuffer := [Byte.x4f; Byte.x67]; json := None |}
  else
    let endpoint :=
      substring (String.length (cloudStorageApiUrl demoConfig))
                (String.length url) url in
    if existsb (String.eqb endpoint) failing then
      inr {| status := 503; statusText := "Service Unavailable";
             arrayBuffer := []; json := Some demoEnvelope |}
    else
      match demoData endpoint with
      | Some d =>
          inr {| status := 200; statusText := "OK"; arrayBuffer := [];
                 json := Some {| j_status := Some "success";
                                 j_message := Some "ok";
                                 j_error := None;
                                 j_data := Some d |} |}
      | None =>
          inr {| status := 404; statusText := "Not Found"; arrayBuffer := [];
                 json := None |}
      end.

Definition demoWorld (failing : list string) : World :=
  {| config := demoConfig;
     w_fetch := demoFetch failing;
     w_axios := fun _ _ _ => inr (503, Some demoEnvelope);
     w_getFile := fun _ _ => inr (Some "voice/file_7.oga");
     w_telegram := fun _ _ => inr 42;
     w_now := fun _ => 1764547200000 |}.

(** A backend that answers every request with a success status and an
    envelope without [data]; the rest as in [demoWorld]. *)
Definition datalessWorld : World :=
  {| config := demoConfig;
     w_fetch :=
       fun history url init =>
         if String.eqb (f_method init) "POST" then
           inr {| status := 200; statusText := "OK"; arrayBuffer := [];
                  json := Some {| j_status := Some "success";
                                  j_message := Some "ok";
                                  j_error := None;
                                  j_data := None |} |}
         else demoFetch [] history url init;
     w_axios := fun _ _ _ => inr (503, Some demoEnvelope);
     w_getFile := fun _ _ => inr (Some "voice/file_7.oga");
     w_telegram := fun _ _ => inr 42;
     w_now := fun _ => 1764547200000 |}.

(** A gateway in front of the backend that answers every request with
    502 and a page of HTML: a status outside 200-299 and a body that is not
    JSON. *)
Definition gatewayWorld : World :=
  {| config := demoConfig;
     w_fetch :=
       fun _ _ _ =>
         inr {| status := 502; statusText := "Bad Gateway";
                arrayBuffer := [Byte.x3c; Byte.x68; Byte.x31; Byte.x3e];
                json := None |};
     w_axios := fun _ _ _ => inr (502, None);
     w_getFile := fun _ _ => inr (Some "voice/file_7.oga");
     w_telegram := fun _ _ => inr 42;
     w_now := fun _ => 1764547200000 |}.

Definition freshMachine : Machine :=
  {| processedUpdates := JsSet.empty; log := [] |}.

Definition demoFrom : From :=
  {| id := 77; first_name := "Ada"; last_name := None; username := None |}.

(* ================================================================== *)
(** * Vocabulary of the statements *)
(* ================================================================== *)

(** A computation that leaves the set of processed updates alone. *)
Definition keeps_set {A : Type} (c : M A) : Prop :=
  forall w m, processedUpdates (snd (c w m)) = processedUpdates m.

Definition demoVoice (updateId fileSize : Z) : Ctx TgFile :=
  {| update_id := updateId;
     from := Some demoFrom;
     chat_id := 9;
     message := {| file_id := "AwACAgQ";
                   file_name := None;
                   mime_type := Some "audio/ogg";
                   file_size := Some fileSize |} |}.

Definition demoDocument (updateId fileSize : Z) : Ctx TgFile :=
  {| update_id := updateId;
     from := Some demoFrom;
     chat_id := 9;
     message := {| file_id := "BQACAgQ";
                   file_name := Some "report.pdf";
                   mime_type := Some "application/pdf";
                   file_size := Some fileSize |} |}.

Definition demoPhoto (updateId fileSize : Z) : Ctx (list TgFile) :=
  {| update_id := updateId;
     from := Some demoFrom;
     chat_id := 9;
     message := [ {| file_id := "AgACAgQ-s"; file_name := None;
                     mime_type := None; file_size := Some 1200 |};
                  {| file_id := "AgACAgQ-x"; file_name := None;
                     mime_type := None; file_size := Some fileSize |} ] |}.

Definition demoCallback {P : Type} (updateId : Z) (payload : P) : Ctx P :=
  {| update_id := updateId;
     from := Some demoFrom;
     chat_id := 9;
     message := payload |}.

(** The sender of an update. *)
Definition senderOf (u : Update) : option From :=
  match u with
  | MessageDocument ctx => from ctx
  | MessagePhoto ctx => from ctx
  | MessageVideo ctx => from ctx
  | MessageAudio ctx => from ctx
  | MessageVoice ctx => from ctx
  | MessageContact ctx => from ctx
  | CallbackConfirmDeleteAccount ctx => from ctx
  | CallbackDeleteLink ctx => from ctx
  end.

(** The kinds of upload whose handler checks the declared size, and the
    text each answers with. *)
Definition tooLargeText (u : Update) : option string :=
  match u with
  | MessageDocument _ => Some fileTooLarge
  | MessageVideo _ => Some videoTooLarge
  | MessageAudio _ => Some audioTooLarge
  | _ => None
  end.

(** What the document handler derives from its update and shows to the
    user (lines 528-531, 542-545 and 561-568). *)
Definition documentName (ctx : Ctx TgFile) : string :=
  or_else (file_name (message ctx)) "unnamed_file".

Definition documentMime (ctx : Ctx TgFile) : string :=
  or_else (mime_type (message ctx)) "application/octet-stream".

Definition documentSize (ctx : Ctx TgFile) : Z :=
  or_zero (file_size (message ctx)).

Definition documentStatusText (ctx : Ctx TgFile) : string :=
  "📤 Uploading " ++ dq ++ documentName ctx ++ dq ++ "..." ++ nl ++
  "Size: " ++ formatFileSize (documentSize ctx).

Definition documentCompleteText (result : UploadResult) : string :=
  "✅ Upload complete!" ++ nl ++ nl ++
  "📄 File: " ++ interp (filename result) ++ nl ++
  "📦 Size: " ++ formatFileSizeOf (size result) ++ nl ++ nl ++
  "🔗 Shareable Link:" ++ nl ++ interp (shareableLink result).

(** The machine of the document handler once the status message is out:
    the identifier recorded, the status message in the log. *)
Definition afterStatus (ctx : Ctx TgFile) (m : Machine) : Machine :=
  emit (TgSendMessage (documentStatusText ctx) None)
    {| processedUpdates :=
         snd (isProcessed (update_id ctx) (processedUpdates m));
       log := log m |}.

(** The twelve shared files of the concrete world, as [listSharedFiles]
    returns them. *)
Definition demoFiles : list SharedFile :=
  map demoFile [1; 2; 3; 4; 5; 6; 7; 8; 9; 10; 11; 12].

Definition demoFilesResponse : Json :=
  {| j_status := Some "success"; j_message := Some "ok"; j_error := None;
     j_data := Some (DListSharedFiles demoFiles) |}.

Definition demoContact (updateId : Z) (embedded : option Z) : Ctx Contact :=
  {| update_id := updateId;
     from := Some demoFrom;
     chat_id := 9;
     message := {| phone_number := "15550100"; contact_user_id := embedded |} |}.

(** The identifiers 1, 2, ..., [n], oldest first. *)
Definition idsUpTo (n : nat) : list Z := map Z.of_nat (seq 1 n).

(** What one [request] does: one call, and an outcome read off the answer
    to it. *)
Definition requestOutcome (answer : Exn + Response) (m : Machine)
  : Outcome Json * Machine :=
  match answer with
  | inl e => (Throw e, m)
  | inr r =>
      match json r with
      | None => (Throw (JsError "SyntaxError: Unexpected token in JSON"), m)
      | Some j =>
          if ok r then (Ok j, m)
          else (Throw (CloudStorageApiError (errorText j "API request failed")
                         (status r) (Some j)), m)
      end
  end.

Definition updatePhoneCall (cfg : Config) (telegramId phoneNumber : string)
  : Call :=
  backendCall cfg "/api/v1/auth/bot/update-phone"
    (PUpdatePhone telegramId phoneNumber).

Definition deleteButton (f : SharedFile) : Button :=
  {| b_text := "🗑 " ++ displayName f;
     b_callback_data := "delete_link:" ++ sf_fsObjectId f |}.

Definition cancelButton : Button :=
  {| b_text := "❌ Cancel"; b_callback_data := "delete_link:cancel" |}.

(** A process that has recorded the identifiers 1 to 1000. *)
Definition fullMachine : Machine :=
  {| processedUpdates := idsUpTo 1000; log := [] |}.

(* ================================================================== *)
(** * The other commands and callbacks (bot.ts, lines 132-181, 238-278,
      310-418 and 898-905) *)
(* ================================================================== *)

(** [Map<number, string>]: the entries in insertion order; [set] on a key
    that is present replaces its value where it stands.  A value is what
    the code stores, which may be [undefined] ([None]); [get] answers
    [undefined] for a key that is not there as for a key that holds it. *)
Module JsMap.

Definition t : Type := list (Z * option string).

Definition empty : t := [].

Definition get (k : Z) (m : t) : option string :=
  match find (fun kv => Z.eqb k (fst kv)) m with
  | Some kv => snd kv
  | None => None
  end.

Definition has (k : Z) (m : t) : bool :=
  existsb (fun kv => Z.eqb k (fst kv)) m.

Definition set (k : Z) (v : option string) (m : t) : t :=
  if has k m
  then map (fun kv => if Z.eqb k (fst kv) then (k, v) else kv) m
  else (m ++ [(k, v)])%list.

End JsMap.

Definition welcomeNew (name : string) : string :=
  "Welcome to Cloud Storage, " ++ name ++ "! 🎉" ++ nl ++ nl ++
  "Your account has been created successfully." ++ nl ++ nl ++
  "You can now send me any file (document, photo, or video) and I'll:" ++ nl ++
  "1. Upload it to your cloud storage" ++ nl ++
  "2. Give you a shareable link" ++ nl ++ nl ++
  "Use /help to see all available commands.".

Definition welcomeBack (name : string) : string :=
  "Welcome back, " ++ name ++ "! 👋" ++ nl ++ nl ++
  "Your account is already set up and ready to use." ++ nl ++ nl ++
  "Send me any file to upload it to your cloud storage!".

Definition failedToRegister (error : Exn) : string :=
  match error with
  | CloudStorageApiError message _ _ =>
      "Failed to register: " ++ message ++ nl ++
      "Please try again later or contact support."
  | JsError _ =>
      "An unexpected error occurred while setting up your account." ++ nl ++
      "Please try again later."
  end.

(** [bot.command('start')], lines 133-181, as a function of the
    module-level map [userTokens]: the map afterwards is the result.  The
    replies are returned, not awaited, inside [try] and [catch]: a reply
    that fails is not caught, so it is made after the [try] statement has
    chosen its text.  What [userTokens.set] has stored stays stored when
    the rest of the [try] block throws, so the handler of the [catch] is
    given the map as it is at the throw. *)
Definition on_start (ctx : Ctx unit) (userTokens : JsMap.t) : M JsMap.t :=
  match telegramId_of ctx with
  | None => reply couldNotIdentify None ;; ret userTokens
  | Some telegramId =>
      let userName := userName_of ctx in
      let catch (tokens : JsMap.t) (error : Exn) : M (JsMap.t * string) :=
        console_error "Error creating user:" error ;;
        ret (tokens, failedToRegister error) in
      chosen <-
        try_catch
          (response <- createUser telegramId userName None ;;
           token <- read "token" d_token (data response) ;;
           (* Store token for future API calls *)
           let stored :=
             match from ctx with
             | Some f => JsMap.set (id f) token userTokens
             | None => userTokens
             end in
           try_catch
             (isNewUser <- read "isNewUser" d_isNewUser (data response) ;;
              user <- read "user" d_user (data response) ;;
              name <- read "name" u_name user ;;
              ret (stored,
                   match isNewUser with
                   | Some true => welcomeNew name
                   | _ => welcomeBack name
                   end))
             (catch stored))
          (catch userTokens) ;;
      reply (snd chosen) None ;;
      ret (fst chosen)
  end.

Definition helpText : string :=
  "🤖 Cloud Storage Bot Commands" ++ nl ++ nl ++
  "/start - Start the bot and register" ++ nl ++
  "/status - Check your account status" ++ nl ++
  "/link_list - View all your shared links with views" ++ nl ++
  "/delete_link - Delete a shareable link" ++ nl ++
  "/delete_account - Delete your account" ++ nl ++
  "/help - Show this help message" ++ nl ++ nl ++
  "📁 File Upload:" ++ nl ++
  "Simply send me any file, photo, or video and I'll:" ++ nl ++
  "• Upload it to your cloud storage" ++ nl ++
  "• Generate a shareable link for you" ++ nl ++ nl ++
  "Supported: Documents, Photos, Videos, Audio files".

(** [bot.command('help')], lines 239-254. *)
Definition on_help (ctx : Ctx unit) : M unit := void (reply helpText None).

Definition deleteAccountKeyboard : InlineKeyboard.t :=
  InlineKeyboard.text "❌ Cancel" "cancel_delete_account"
    (InlineKeyboard.row
       (InlineKeyboard.text "⚠️ Yes, delete my account" "confirm_delete_account"
          InlineKeyboard.new)).

Definition deleteAccountPrompt : string :=
  "⚠️ Delete Account" ++ nl ++ nl ++
  "Are you sure you want to delete your account?" ++ nl ++ nl ++
  "This will permanently delete:" ++ nl ++
  "• All your uploaded files" ++ nl ++
  "• All your shareable links" ++ nl ++
  "• Your account data" ++ nl ++ nl ++
  "⛔ This action cannot be undone!".

(** [bot.command('delete_account')], lines 257-278. *)
Definition on_delete_account_command (ctx : Ctx unit) : M unit :=
  match telegramId_of ctx with
  | None => void (reply couldNotIdentify None)
  | Some _ =>
      void (reply deleteAccountPrompt
                  (Some (InlineMarkup deleteAccountKeyboard)))
  end.

(** [bot.callbackQuery('cancel_delete_account')], lines 311-317. *)
Definition on_cancel_delete_account (ctx : Ctx unit) : M unit :=
  answerCallbackQuery (Some "Cancelled") false ;;
  editMessageText CallbackMessage
    ("✅ Account deletion cancelled." ++ nl ++ nl ++
     "Your account is safe. Use /help to see available commands.").

(** [bot.on('message:text')], lines 899-905. *)
Definition on_text (ctx : Ctx unit) : M unit :=
  void (reply ("I don't understand that command." ++ nl ++ nl ++
               "Send me a file, photo, or video to upload it to your cloud storage."
               ++ nl ++ "Use /help to see available commands.") None).

(** ** The page of shared links (lines 347-373) *)

(** One entry of the page, lines 352-356. *)
Definition linkEntry (pagination : Pagination) (link : LinkWithViews)
    (index : Z) : string :=
  let num := (pg_page pagination - 1) * pg_limit pagination + index + 1 in
  let viewEmoji := if lv_viewCount link >? 0 then "👁" else "👁‍🗨" in
  dec num ++ ". " ++ lv_filename link ++ nl ++
  "   📦 " ++ formatFileSize (lv_size link) ++ " | " ++ viewEmoji ++ " "
  ++ dec (lv_viewCount link) ++ " views" ++ nl ++
  "   🔗 " ++ lv_shareableLink link ++ nl ++ nl.

(** The text of the page, lines 348-357: the header and one entry after the
    other. *)
Definition linksMessage (links : list LinkWithViews) (pagination : Pagination)
  : string :=
  fold_left (fun message entry => message ++ entry)
    (mapi (linkEntry pagination) links)
    ("🔗 Your Shared Links (Page " ++ dec (pg_page pagination) ++ "/"
     ++ dec (pg_totalPages pagination) ++ ")" ++ nl ++
     "Total: " ++ dec (pg_total pagination) ++ " links" ++ nl ++ nl).

(** The navigation keyboard of the page, lines 360-373. *)
Definition linksKeyboard (pagination : Pagination) : InlineKeyboard.t :=
  let keyboard := InlineKeyboard.new in
  let keyboard :=
    if pg_page pagination >? 1
    then InlineKeyboard.text "⬅️ Previous"
           ("links_page:" ++ dec (pg_page pagination - 1)) keyboard
    else keyboard in
  let keyboard :=
    if pg_page pagination <? pg_totalPages pagination
    then InlineKeyboard.text "Next ➡️"
           ("links_page:" ++ dec (pg_page pagination + 1)) keyboard
    else keyboard in
  if pg_totalPages pagination >? 1
  then InlineKeyboard.text
         ("📄 " ++ dec (pg_page pagination) ++ "/"
          ++ dec (pg_totalPages pagination))
         "links_page:noop" (InlineKeyboard.row keyboard)
  else keyboard.

(** ** Page numbers in callback data (lines 397-418) *)

Definition isWhiteSpace (c : ascii) : bool :=
  let n := nat_of_ascii c in
  ((9 <=? n) && (n <=? 13) || (n =? 32))%nat.

Fixpoint trimStart (s : string) : string :=
  match s with
  | String c rest => if isWhiteSpace c then trimStart rest else s
  | EmptyString => s
  end.

Definition digitOf (c : ascii) : option Z :=
  let n := nat_of_ascii c in
  if ((48 <=? n) && (n <=? 57))%nat then Some (Z.of_nat n - 48) else None.

(** The value of the longest prefix of digits, after the digits [acc]. *)
Fixpoint digitsValue (acc : Z) (s : string) : Z :=
  match s with
  | String c rest =>
      match digitOf c with
      | Some d => digitsValue (10 * acc + d) rest
      | None => acc
      end
  | EmptyString => acc
  end.

(** [parseInt(s, 10)]; [None] is [NaN].  White space is skipped, a sign is
    read, and the digits up to the first other character are the value.
    (White space outside ASCII is not recognised, and the value is exact
    also beyond 2^53.) *)
Definition parseInt10 (s : string) : option Z :=
  let s := trimStart s in
  let '(sign, s) :=
    match s with
    | String "-"%char rest => (-1, rest)
    | String "+"%char rest => (1, rest)
    | _ => (1, s)
    end in
  match s with
  | String c _ =>
      match digitOf c with
      | Some _ => Some (sign * digitsValue 0 s)
      | None => None
      end
  | EmptyString => None
  end.

(** [bot.callbackQuery(/^links_page:(.+)$/)], lines 397-418; the payload is
    [ctx.match?.[1]].  [showLinksPage] edits the message together with its
    keyboard, for which the log of calls has no entry, so the handler is
    given relative to it. *)
Definition on_links_page_callback (showLinksPage : string -> Z -> M unit)
    (ctx : Ctx (option string)) : M unit :=
  match telegramId_of ctx with
  | None =>
      answerCallbackQuery (Some "Could not identify your account.") false
  | Some telegramId =>
      match nonempty (message ctx) with
      | None => answerCallbackQuery None false
      | Some action =>
          if String.eqb action "noop" then answerCallbackQuery None false
          else
            match parseInt10 action with
            | None => answerCallbackQuery (Some "Invalid page.") false
            | Some page =>
                answerCallbackQuery None false ;;
                showLinksPage telegramId page
            end
      end
  end.

(** The remaining updates, and everything the bot handles. *)
Inductive Command : Type :=
| CommandHelp (ctx : Ctx unit)
| CommandDeleteAccount (ctx : Ctx unit)
| CommandDeleteLink (ctx : Ctx unit)
| CallbackCancelDeleteAccount (ctx : Ctx unit)
| MessageText (ctx : Ctx unit).

Definition handleCommand (c : Command) : M unit :=
  match c with
  | CommandHelp ctx => on_help ctx
  | CommandDeleteAccount ctx => on_delete_account_command ctx
  | CommandDeleteLink ctx => on_delete_link_command ctx
  | CallbackCancelDeleteAccount ctx => on_cancel_delete_account ctx
  | MessageText ctx => on_text ctx
  end.

Inductive Incoming : Type :=
| StateChanging (u : Update)
| Plain (c : Command).

Definition handleIncoming (i : Incoming) : M unit :=
  match i with
  | StateChanging u => handle u
  | Plain c => handleCommand c
  end.

Definition incomingSender (i : Incoming) : option From :=
  match i with
  | StateChanging u => senderOf u
  | Plain (CommandHelp ctx) => from ctx
  | Plain (CommandDeleteAccount ctx) => from ctx
  | Plain (CommandDeleteLink ctx) => from ctx
  | Plain (CallbackCancelDeleteAccount ctx) => from ctx
  | Plain (MessageText ctx) => from ctx
  end.

(** What a handler tells a sender it cannot identify: a reply to a message,
    the answer to a button press. *)
Definition identityRefusal (u : Update) : Call :=
  match u with
  | CallbackConfirmDeleteAccount _ | CallbackDeleteLink _ =>
      TgAnswerCallbackQuery (Some "Could not identify your account.") false
  | _ => TgSendMessage couldNotIdentify None
  end.


(** A world in which the Bot API accepts every message, edit and answer. *)
Definition botApiAnswers (w : World) : Prop :=
  forall history c, exists k, w_telegram w history c = inr k.

(** A computation that throws nothing in such a world. *)
Definition contained {A : Type} (c : M A) : Prop :=
  forall w m, botApiAnswers w -> exists a, fst (c w m) = Ok a.

(** A computation that only ever adds to the log. *)
Definition grows {A : Type} (c : M A) : Prop :=
  forall w m, exists added, log (snd (c w m)) = (log m ++ added)%list.

(** A computation whose first addition to the log is [call]. *)
Definition begins_with {A : Type} (call : Call) (c : M A) : Prop :=
  forall w m, exists rest, log (snd (c w m)) = (log m ++ call :: rest)%list.

(** The announcement of the photo handler, lines 608-611. *)
Definition photoStatusText (photo : TgFile) : string :=
  "📤 Uploading photo..." ++ nl ++
  "Size: " ++ formatFileSize (or_zero (file_size photo)).

(** The text of a confirmed deletion, lines 292-297. *)
Definition accountDeletedText : string :=
  "✅ Account Deleted" ++ nl ++ nl ++
  "Your account and all associated data have been deleted." ++ nl ++ nl ++
  "Thank you for using Cloud Storage Bot." ++ nl ++
  "If you change your mind, use /start to create a new account.".

(** The value of a decimal numeral read after the digits [acc]. *)
Fixpoint uintValue (acc : Z) (d : Decimal.uint) : Z :=
  match d with
  | Decimal.Nil => acc
  | Decimal.D0 l => uintValue (10 * acc + 0) l
  | Decimal.D1 l => uintValue (10 * acc + 1) l
  | Decimal.D2 l => uintValue (10 * acc + 2) l
  | Decimal.D3 l => uintValue (10 * acc + 3) l
  | Decimal.D4 l => uintValue (10 * acc + 4) l
  | Decimal.D5 l => uintValue (10 * acc + 5) l
  | Decimal.D6 l => uintValue (10 * acc + 6) l
  | Decimal.D7 l => uintValue (10 * acc + 7) l
  | Decimal.D8 l => uintValue (10 * acc + 8) l
  | Decimal.D9 l => uintValue (10 * acc + 9) l
  end.

(** Whether a text goes on with a digit. *)
Definition startsWithDigit (s : string) : bool :=
  match s with
  | String c _ => match digitOf c with Some _ => true | None => false end
  | EmptyString => false
  end.

(** The buttons of the links page: the one that goes back, the one that
    goes on, and the page indicator. *)
Definition previousButton (pagination : Pagination) : Button :=
  {| b_text := "⬅️ Previous";
     b_callback_data := "links_page:" ++ dec (pg_page pagination - 1) |}.

Definition nextButton (pagination : Pagination) : Button :=
  {| b_text := "Next ➡️";
     b_callback_data := "links_page:" ++ dec (pg_page pagination + 1) |}.

Definition indicatorButton (pagination : Pagination) : Button :=
  {| b_text := "📄 " ++ dec (pg_page pagination) ++ "/"
               ++ dec (pg_totalPages pagination);
     b_callback_data := "links_page:noop" |}.

(* ================================================================== *)
(** * Theorems *)
(* ================================================================== *)

Example formatFileSize_512 : formatFileSize 512 = "512 B".
Proof. reflexivity. Qed.

Example formatFileSize_1536 : formatFileSize 1536 = "1.5 KB".
Proof. reflexivity. Qed.

Example formatFileSize_1100 : formatFileSize 1100 = "1.1 KB".
Proof. vm_compute. reflexivity. Qed.

Example formatFileSize_20MiB : formatFileSize (20 * 1024 * 1024) = "20.0 MB".
Proof. vm_compute. reflexivity. Qed.

(* ------------------------------------------------------------------ *)
(** ** The set and the deduplicator *)
(* ------------------------------------------------------------------ *)

Lemma has_true_iff (x : Z) (s : JsSet.t) : JsSet.has x s = true <-> In x s.
Proof.
  unfold JsSet.has. rewrite existsb_exists. split.
  - intros [y [Hy Heq]]. apply Z.eqb_eq in Heq. now subst.
  - intros H. exists x. split; [assumption | apply Z.eqb_refl].
Qed.

Lemma has_false_iff (x : Z) (s : JsSet.t) : JsSet.has x s = false <-> ~ In x s.
Proof.
  rewrite <- has_true_iff. destruct (JsSet.has x s); split; congruence.
Qed.

Lemma add_fresh (x : Z) (s : JsSet.t) :
  ~ In x s -> JsSet.add x s = (s ++ [x])%list.
Proof.
  intros H. unfold JsSet.add. apply has_false_iff in H. now rewrite H.
Qed.

(** Deleting a batch of elements one by one is one filter. *)
Lemma delete_all_filter (l : list Z) (s : JsSet.t) :
  fold_left (fun acc id => JsSet.delete id acc) l s
  = filter (fun y => negb (existsb (Z.eqb y) l)) s.
Proof.
  revert s. induction l as [| a l IH]; intros s; simpl.
  - induction s as [| b s IHs]; simpl; [reflexivity | now rewrite <- IHs].
  - rewrite IH. unfold JsSet.delete.
    induction s as [| b s IHs]; simpl; [reflexivity |].
    rewrite (Z.eqb_sym b a).
    destruct (a =? b); simpl; rewrite IHs; reflexivity.
Qed.

Lemma filter_out_all (l s : list Z) :
  (forall y, In y s -> In y l) ->
  filter (fun y => negb (existsb (Z.eqb y) l)) s = [].
Proof.
  induction s as [| b s IH]; intros H; simpl; [reflexivity |].
  assert (Hb : existsb (Z.eqb b) l = true).
  { apply existsb_exists. exists b. split; [apply H; now left | apply Z.eqb_refl]. }
  rewrite Hb. simpl. apply IH. intros y Hy. apply H. now right.
Qed.

Lemma filter_keep_all (l s : list Z) :
  (forall y, In y s -> ~ In y l) ->
  filter (fun y => negb (existsb (Z.eqb y) l)) s = s.
Proof.
  induction s as [| b s IH]; intros H; simpl; [reflexivity |].
  assert (Hb : existsb (Z.eqb b) l = false).
  { destruct (existsb (Z.eqb b) l) eqn:E; [| reflexivity].
    apply existsb_exists in E. destruct E as [y [Hy Hyb]].
    apply Z.eqb_eq in Hyb. subst y. exfalso. apply (H b); [now left | assumption]. }
  rewrite Hb. simpl. f_equal. apply IH. intros y Hy. apply H. now right.
Qed.

Lemma NoDup_app_disjoint (p q : list Z) (y : Z) :
  NoDup (p ++ q) -> In y p -> In y q -> False.
Proof.
  induction p as [| a p IH]; intros Hnd Hp Hq; [contradiction |].
  simpl in Hnd. inversion Hnd as [| ? ? Hnotin Hnd']; subst.
  destruct Hp as [-> | Hp].
  - apply Hnotin. apply in_or_app. now right.
  - now apply IH.
Qed.

Lemma filter_out_prefix (p q : list Z) :
  NoDup (p ++ q) ->
  filter (fun y => negb (existsb (Z.eqb y) p)) (p ++ q) = q.
Proof.
  intros Hnd. rewrite filter_app.
  rewrite filter_out_all by auto.
  rewrite filter_keep_all; [reflexivity |].
  intros y Hq Hp. exact (NoDup_app_disjoint p q y Hnd Hp Hq).
Qed.

(** On a set, deleting its [n] oldest elements leaves the rest, in order. *)
Lemma delete_oldest (n : nat) (s : JsSet.t) :
  JsSet.wf s ->
  fold_left (fun acc id => JsSet.delete id acc) (slice0 n (JsSet.to_array s)) s
  = skipn n s.
Proof.
  unfold JsSet.wf, slice0, JsSet.to_array. intros Hnd.
  rewrite delete_all_filter.
  rewrite <- (firstn_skipn n s) in Hnd.
  pose proof (filter_out_prefix _ _ Hnd) as H.
  now rewrite (firstn_skipn n s) in H.
Qed.

(** The deduplicator in closed form. *)
Lemma isProcessed_unfold (u : Z) (s : JsSet.t) :
  JsSet.wf s ->
  isProcessed u s =
    if JsSet.has u s then (true, s)
    else if (MAX_PROCESSED_UPDATES <=? JsSet.size s)%nat
         then (false, (skipn 500 s ++ [u])%list)
         else (false, (s ++ [u])%list).
Proof.
  intros Hwf. unfold isProcessed.
  destruct (JsSet.has u s) eqn:Hhas; [reflexivity |].
  apply has_false_iff in Hhas.
  destruct (MAX_PROCESSED_UPDATES <=? JsSet.size s)%nat.
  - rewrite delete_oldest by assumption.
    rewrite add_fresh; [reflexivity |].
    intros Hin. apply Hhas. rewrite <- (firstn_skipn 500 s).
    apply in_or_app. now right.
  - now rewrite add_fresh.
Qed.

Lemma NoDup_snoc (u : Z) (s : list Z) :
  NoDup s -> ~ In u s -> NoDup (s ++ [u]).
Proof.
  intros Hs Hu. apply NoDup_app; [assumption | repeat constructor; intros [] |].
  intros x Hx [<- | []]. contradiction.
Qed.

Lemma NoDup_skipn (n : nat) (s : list Z) : NoDup s -> NoDup (skipn n s).
Proof.
  intros H. rewrite <- (firstn_skipn n s) in H.
  now apply NoDup_app_remove_l in H.
Qed.

(** One call keeps the set a set and within its capacity. *)
Lemma isProcessed_preserves (u : Z) (s : JsSet.t) :
  JsSet.wf s /\ (JsSet.size s <= MAX_PROCESSED_UPDATES)%nat ->
  JsSet.wf (snd (isProcessed u s))
  /\ (JsSet.size (snd (isProcessed u s)) <= MAX_PROCESSED_UPDATES)%nat.
Proof.
  intros [Hwf Hsz]. rewrite isProcessed_unfold by assumption.
  unfold JsSet.wf, JsSet.size, MAX_PROCESSED_UPDATES in *.
  destruct (JsSet.has u s) eqn:Hhas; [now split |].
  apply has_false_iff in Hhas.
  destruct (Nat.leb_spec 1000 (List.length s)); cbn [snd].
  - split.
    + apply NoDup_snoc; [now apply NoDup_skipn |].
      intros Hin. apply Hhas. rewrite <- (firstn_skipn 500 s).
      apply in_or_app. now right.
    + rewrite length_app, length_skipn. cbn [List.length]. lia.
  - split; [now apply NoDup_snoc |].
    rewrite length_app. cbn [List.length]. lia.
Qed.

Lemma processAll_invariant (ids : list Z) (s : JsSet.t) :
  JsSet.wf s /\ (JsSet.size s <= MAX_PROCESSED_UPDATES)%nat ->
  JsSet.wf (processAll ids s)
  /\ (JsSet.size (processAll ids s) <= MAX_PROCESSED_UPDATES)%nat.
Proof.
  revert s. induction ids as [| u ids IH]; intros s H; simpl; [exact H |].
  apply IH. now apply isProcessed_preserves.
Qed.

(** C4.  On the set of recorded identifiers, [isProcessed u] answers [true]
    exactly when [u] is recorded, and then leaves the set alone; otherwise it
    answers [false] and records [u] as the newest element.  Below the
    capacity of 1000 nothing else changes; at the capacity (1000 recorded
    identifiers or more) the 500 oldest are dropped in one batch first, so
    the set becomes the remaining ones, in order, followed by [u]. *)
Theorem isProcessed_contract (u : Z) (s : JsSet.t) :
  JsSet.wf s ->
  MAX_PROCESSED_UPDATES = 1000%nat
  /\ (fst (isProcessed u s) = true <-> In u (JsSet.to_array s))
  /\ (In u (JsSet.to_array s) -> isProcessed u s = (true, s))
  /\ (~ In u (JsSet.to_array s) -> (JsSet.size s < 1000)%nat ->
      isProcessed u s = (false, (s ++ [u])%list))
  /\ (~ In u (JsSet.to_array s) -> (1000 <= JsSet.size s)%nat ->
      isProcessed u s = (false, (skipn 500 s ++ [u])%list)
      /\ (forall x, In x (firstn 500 s) ->
            JsSet.has x (snd (isProcessed u s)) = false)).
Proof.
  intros Hwf. unfold JsSet.to_array.
  split; [reflexivity |].
  rewrite (isProcessed_unfold u s Hwf). unfold MAX_PROCESSED_UPDATES.
  destruct (JsSet.has u s) eqn:Hhas.
  - apply has_true_iff in Hhas.
    split; [tauto |]. split; [reflexivity |].
    split; intros Hn; contradiction.
  - apply has_false_iff in Hhas.
    destruct (Nat.leb_spec 1000 (JsSet.size s)) as [Hfull | Hroom]; cbn [fst].
    + split; [split; [discriminate | contradiction] |].
      split; [contradiction |].
      split; [intros _ Hlt; lia |].
      intros _ _. split; [reflexivity |].
      intros x Hx. cbn [snd]. apply has_false_iff.
      intros Hin. apply in_app_or in Hin.
      destruct Hin as [Hin | [<- | []]].
      * unfold JsSet.wf in Hwf. rewrite <- (firstn_skipn 500 s) in Hwf.
        exact (NoDup_app_disjoint _ _ x Hwf Hx Hin).
      * apply Hhas. rewrite <- (firstn_skipn 500 s). apply in_or_app. now left.
    + split; [split; [discriminate | contradiction] |].
      split; [contradiction |].
      split; [reflexivity |].
      intros _ Hge. lia.
Qed.

(** The contract at a small set: a recorded identifier and a new one. *)
Lemma isProcessed_contract_witness :
  JsSet.wf [1; 2; 3]
  /\ isProcessed 2 [1; 2; 3] = (true, [1; 2; 3])
  /\ isProcessed 7 [1; 2; 3] = (false, [1; 2; 3; 7]).
Proof.
  assert (Hwf : JsSet.wf [1; 2; 3]).
  { unfold JsSet.wf. repeat constructor; simpl; intuition discriminate. }
  split; [exact Hwf |].
  destruct (isProcessed_contract 2 [1; 2; 3] Hwf) as (_ & _ & Hin & _).
  destruct (isProcessed_contract 7 [1; 2; 3] Hwf) as (_ & _ & _ & Hnew & _).
  split.
  - apply Hin. simpl. auto.
  - apply Hnew; [simpl; intuition discriminate | simpl; lia].
Defined.

(** C9.  Starting from the empty set, after any sequence of calls of
    [isProcessed] the set holds at most [MAX_PROCESSED_UPDATES] = 1000
    identifiers.  (Every prefix of a sequence is a sequence, so the bound
    holds after each call.) *)
Theorem processedUpdates_bounded (ids : list Z) :
  (JsSet.size (processAll ids JsSet.empty) <= MAX_PROCESSED_UPDATES)%nat
  /\ MAX_PROCESSED_UPDATES = 1000%nat.
Proof.
  split; [| reflexivity].
  apply processAll_invariant. split.
  - constructor.
  - unfold JsSet.size, JsSet.empty, MAX_PROCESSED_UPDATES. simpl. lia.
Qed.

(* ------------------------------------------------------------------ *)
(** ** The formatter *)
(* ------------------------------------------------------------------ *)

Lemma append_assoc (a b c : string) : (a ++ b) ++ c = a ++ (b ++ c).
Proof.
  induction a as [| ch a IH]; simpl; [reflexivity | now rewrite IH].
Qed.

(** [toFixed(1)] of a non-negative ratio of integers, in integer
    arithmetic. *)
Lemma toFixed1_ratio (b u : Z) :
  0 <= b -> 0 < u ->
  toFixed1 (inject_Z b / inject_Z u)%Q
  = dec ((20 * b + u) / (2 * u) / 10) ++ "."
    ++ dec (((20 * b + u) / (2 * u)) mod 10).
Proof.
  intros Hb Hu. destruct u as [| p | p]; try lia.
  unfold toFixed1.
  unfold Qdiv, Qinv, inject_Z. cbn [Qnum Qden].
  unfold Qle_bool, Qmult. cbn [Qnum Qden].
  replace (0 * Z.pos (1 * p) <=? b * 1 * 1) with true
    by (symmetry; apply Z.leb_le; lia).
  cbn [negb]. unfold Qplus, Qfloor. cbn [Qnum Qden].
  replace (b * 1 * 10 * 2 + 1 * Z.pos (1 * p * 1)) with (20 * b + Z.pos p) by lia.
  replace (Z.pos (1 * p * 1 * 2)) with (2 * Z.pos p) by lia.
  reflexivity.
Qed.

Lemma nearest_tenth_round (b u : Z) :
  0 < u -> nearest_tenth b u ((20 * b + u) / (2 * u)).
Proof.
  intros Hu. unfold nearest_tenth.
  pose proof (Z.div_mod (20 * b + u) (2 * u) ltac:(lia)) as Hdm.
  pose proof (Z.mod_pos_bound (20 * b + u) (2 * u) ltac:(lia)) as Hbd.
  nia.
Qed.

Lemma dec_digit (d : Z) : 0 <= d < 10 -> String.length (dec d) = 1%nat.
Proof.
  intros H.
  assert (d = 0 \/ d = 1 \/ d = 2 \/ d = 3 \/ d = 4 \/ d = 5 \/ d = 6 \/ d = 7
          \/ d = 8 \/ d = 9) as Hd by lia.
  repeat (destruct Hd as [-> | Hd]; [reflexivity |]). subst. reflexivity.
Qed.

(** Above the first threshold the text is a number with one decimal: an
    integer part, a point and one digit, nearest to the exact quotient. *)
Lemma formatFileSize_scaled (b u : Z) (suffix : string) :
  0 <= b -> 0 < u ->
  exists n : Z,
    toFixed1 (inject_Z b / inject_Z u)%Q ++ suffix
    = dec (n / 10) ++ "." ++ dec (n mod 10) ++ suffix
    /\ nearest_tenth b u n
    /\ String.length (dec (n mod 10)) = 1%nat.
Proof.
  intros Hb Hu. exists ((20 * b + u) / (2 * u)).
  split; [| split].
  - rewrite toFixed1_ratio by assumption.
    rewrite !append_assoc. reflexivity.
  - now apply nearest_tenth_round.
  - apply dec_digit. apply Z.mod_pos_bound. lia.
Qed.

(** C8.  [formatFileSize] is a function of the byte count alone, with
    thresholds at 1024 and 1024^2.  For every byte count (a non-negative
    integer that a JavaScript number holds exactly): below 1024 the text is
    the integer itself followed by [" B"]; from 1024 up to 1024^2 it is the
    count divided by 1024, and from 1024^2 on the count divided by 1024^2,
    written with exactly one digit behind the point (the nearest such value,
    the larger one on a tie) and followed by [" KB"] and [" MB"]. *)
Theorem formatFileSize_thresholds (b : Z) :
  0 <= b <= MAX_SAFE_INTEGER ->
  (b < 1024 -> formatFileSize b = dec b ++ " B")
  /\ (1024 <= b < 1024 * 1024 ->
      exists n : Z,
        formatFileSize b = dec (n / 10) ++ "." ++ dec (n mod 10) ++ " KB"
        /\ nearest_tenth b 1024 n
        /\ String.length (dec (n mod 10)) = 1%nat)
  /\ (1024 * 1024 <= b ->
      exists n : Z,
        formatFileSize b = dec (n / 10) ++ "." ++ dec (n mod 10) ++ " MB"
        /\ nearest_tenth b (1024 * 1024) n
        /\ String.length (dec (n mod 10)) = 1%nat).
Proof.
  intros [Hb _]. unfold formatFileSize. split; [| split]; intros H.
  - destruct (Z.ltb_spec b 1024); [reflexivity | lia].
  - destruct (Z.ltb_spec b 1024); [lia |].
    destruct (Z.ltb_spec b (1024 * 1024)); [| lia].
    apply formatFileSize_scaled; lia.
  - destruct (Z.ltb_spec b 1024); [lia |].
    destruct (Z.ltb_spec b (1024 * 1024)); [lia |].
    apply formatFileSize_scaled; lia.
Qed.

(** The three ranges at 1000, 1536 and 5 MiB + 1 bytes. *)
Lemma formatFileSize_thresholds_witness :
  formatFileSize 1000 = "1000 B"
  /\ (exists n, formatFileSize 1536 = dec (n / 10) ++ "." ++ dec (n mod 10) ++ " KB"
                /\ nearest_tenth 1536 1024 n
                /\ String.length (dec (n mod 10)) = 1%nat)
  /\ (exists n, formatFileSize 5242881 = dec (n / 10) ++ "." ++ dec (n mod 10) ++ " MB"
                /\ nearest_tenth 5242881 (1024 * 1024) n
                /\ String.length (dec (n mod 10)) = 1%nat).
Proof.
  split; [| split].
  - apply (formatFileSize_thresholds 1000); unfold MAX_SAFE_INTEGER; lia.
  - apply (formatFileSize_thresholds 1536); unfold MAX_SAFE_INTEGER; lia.
  - apply (formatFileSize_thresholds 5242881); unfold MAX_SAFE_INTEGER; lia.
Defined.

(** Rounding at the tie and next to the thresholds. *)
Example formatFileSize_edges :
  formatFileSize 0 = "0 B"
  /\ formatFileSize 1023 = "1023 B"
  /\ formatFileSize 1024 = "1.0 KB"
  /\ formatFileSize 1075 = "1.0 KB"
  /\ formatFileSize 1076 = "1.1 KB"
  /\ formatFileSize 1280 = "1.3 KB"
  /\ formatFileSize 1048575 = "1024.0 KB"
  /\ formatFileSize 1048576 = "1.0 MB".
Proof. vm_compute. repeat split; reflexivity. Qed.

(* ------------------------------------------------------------------ *)
(** ** The API client *)
(* ------------------------------------------------------------------ *)

Lemma request_run (endpoint : string) (payload : Payload) (w : World)
    (m : Machine) :
  request endpoint (post payload) w m
  = requestOutcome
      (w_fetch w (log m) (backendUrl (config w) endpoint)
         (backendInit (config w) payload))
      (emit (backendCall (config w) endpoint payload) m).
Proof.
  unfold request, requestOutcome, bind, ask_config, fetch, response_json,
    backendCall, backendUrl, backendInit, post, spread.
  cbn.
  destruct (w_fetch w (log m) _ _) as [e | r]; cbn; [reflexivity |].
  destruct (json r) as [j |]; cbn; [| reflexivity].
  destruct (ok r); reflexivity.
Qed.

(** A [request] adds its one call to the log and nothing else. *)
Lemma request_machine (endpoint : string) (payload : Payload) (w : World)
    (m : Machine) :
  snd (request endpoint (post payload) w m)
  = emit (backendCall (config w) endpoint payload) m.
Proof.
  rewrite request_run. unfold requestOutcome.
  destruct (w_fetch w (log m) _ _) as [e | r]; [reflexivity |].
  destruct (json r) as [j |]; [| reflexivity].
  destruct (ok r); reflexivity.
Qed.

(** A [request] resolves with the body when the answer has a status in
    200-299 and a body that is JSON, whatever the body holds. *)
Lemma request_resolves (endpoint : string) (payload : Payload) (w : World)
    (m : Machine) (r : Response) (j : Json) :
  w_fetch w (log m) (backendUrl (config w) endpoint)
    (backendInit (config w) payload) = inr r ->
  ok r = true -> json r = Some j ->
  request endpoint (post payload) w m
  = (Ok j, emit (backendCall (config w) endpoint payload) m).
Proof.
  intros Hfetch Hok Hjson. rewrite request_run. unfold requestOutcome.
  now rewrite Hfetch, Hjson, Hok.
Qed.






(** C5 fails in the code when the answer with the error status has a body
    that is not JSON.  Behind a gateway that answers 502 with a page of
    HTML, each of the nine operations that go through [request] throws the
    parse error of the body: the caller gets no [CloudStorageApiError] and
    the status is lost.  The multipart upload, which does not go through
    [request], throws a [CloudStorageApiError] with the status on the same
    answer. *)
Theorem backend_error_without_envelope :
  backendAnswer gatewayWorld (log freshMachine)
    (opCall demoConfig (OpCreateUser "77" (Some "Ada") None))
  = Some (502, None)
  /\ runOp (OpCreateUser "77" (Some "Ada") None) gatewayWorld freshMachine
     = (Throw (JsError "SyntaxError: Unexpected token in JSON"),
        emit (opCall demoConfig (OpCreateUser "77" (Some "Ada") None))
          freshMachine)
  /\ (forall op,
        (forall t f c b, op <> OpUploadFile t f c b) ->
        fst (runOp op gatewayWorld freshMachine)
        = Throw (JsError "SyntaxError: Unexpected token in JSON"))
  /\ fst (runOp (OpUploadFile "77" "a.txt" "text/plain" [Byte.x61])
            gatewayWorld freshMachine)
     = Throw (CloudStorageApiError "Upload failed" 502 None).
Proof.
  split; [reflexivity |]. split; [reflexivity |]. split; [| reflexivity].
  intros op Hop. destruct op; try reflexivity.
  exfalso. eapply Hop. reflexivity.
Qed.

(* ------------------------------------------------------------------ *)
(** ** The upload orchestrator *)
(* ------------------------------------------------------------------ *)

Lemma log_emit2 (c1 c2 : Call) (m : Machine) :
  log (emit c2 (emit c1 m)) = (log m ++ [c1; c2])%list.
Proof. cbn. now rewrite <- app_assoc. Qed.

(** Step 2 makes the [getFile] call and, if that names a path, the download
    of that path; it fails without the second call only. *)
Lemma downloadTelegramFile_run (fileId : string) (w : World) (m : Machine) :
  (exists e, downloadTelegramFile fileId w m
             = (Throw e, emit (getFileCall fileId) m))
  \/ (exists path r,
        downloadTelegramFile fileId w m
        = (r, emit (downloadCall (config w) path) (emit (getFileCall fileId) m))).
Proof.
  unfold downloadTelegramFile, bind, getFile, getFileCall.
  destruct (w_getFile w (log m) fileId) as [e | p]; cbn.
  - left. now exists e.
  - destruct (nonempty p) as [path |]; cbn.
    + right. exists path.
      unfold ask_config, fetch, downloadCall. cbn.
      destruct (w_fetch w _ _ _) as [e | r]; cbn.
      * now exists (Throw e).
      * destruct (ok r); cbn; eexists; reflexivity.
    + left. eexists. reflexivity.
Qed.

Lemma uploadToS3_machine (url : string) (buf : Buffer) (ct : string)
    (w : World) (m : Machine) :
  snd (uploadToS3 url buf ct w m) = emit (putCall url buf ct) m.
Proof.
  unfold uploadToS3, bind, fetch, putCall.
  destruct (w_fetch w _ _ _) as [e | r]; cbn; [reflexivity |].
  destruct (ok r); reflexivity.
Qed.

(** C1.  A run of [fastUploadFile] that succeeds has made exactly the calls
    of the four steps, in the order presign, fetch ([getFile] and the
    download), transfer (the PUT to the URL that the body of the presign
    step carries, with the bytes the fetch step returned) and confirm (for
    the object that the same body names).  A run that throws has stopped at
    one step: the error is the one that step threw, the log ends with the
    calls of that step, and no call of a later step is in it.  The steps are
    the four statements of the source, each with the members it reads:
    the transfer reads the URL (it throws before its PUT when the body of
    the presign step has no [data]), the confirmation reads the object id
    and, after its request, the members of the result. *)
Theorem fastUploadFile_steps (telegramId fileId filename contentType : string)
    (fileSize : Z) (w : World) (m : Machine) :
  let cfg := config w in
  let presign := presignCall cfg telegramId filename contentType fileSize in
  let put d buf := putCall (interp (d_uploadUrl d)) buf contentType in
  let confirm d :=
    backendCall cfg "/api/v1/auth/bot/complete-upload"
      (fsObjectPayload telegramId (d_fsObjectId d)) in
  let step1 := getUploadUrl telegramId filename contentType fileSize in
  let step2 := downloadTelegramFile fileId in
  let step3 u buf :=
    (uploadUrl <- read "uploadUrl" d_uploadUrl (data u) ;;
     uploadToS3 (interp uploadUrl) buf contentType) in
  let step4 u :=
    (fsObjectId <- read "fsObjectId" d_fsObjectId (data u) ;;
     completeResponse <- completeUpload telegramId fsObjectId ;;
     link <- read "shareableLink" d_shareableLink (data completeResponse) ;;
     name <- read "filename" d_filename (data completeResponse) ;;
     bytes <- read "size" d_size (data completeResponse) ;;
     ret {| shareableLink := link; filename := name; size := bytes |}) in
  (forall g buf,
     put (DGetUploadUrl g) buf = putCall (gu_uploadUrl g) buf contentType
     /\ confirm (DGetUploadUrl g) = confirmCall cfg telegramId (gu_fsObjectId g))
  /\
  match fastUploadFile telegramId fileId filename contentType fileSize w m with
  | (Ok result, m') =>
      exists u d m1 buf m2 m3 c dc path,
        step1 w m = (Ok u, m1) /\ step2 w m1 = (Ok buf, m2)
        /\ step3 u buf w m2 = (Ok tt, m3) /\ step4 u w m3 = (Ok result, m')
        /\ data u = Some d
        /\ completeUpload telegramId (d_fsObjectId d) w m3 = (Ok c, m')
        /\ data c = Some dc
        /\ result = {| shareableLink := d_shareableLink dc;
                       filename := d_filename dc;
                       size := d_size dc |}
        /\ processedUpdates m' = processedUpdates m
        /\ log m' = (log m ++
                     [presign; getFileCall fileId; downloadCall cfg path;
                      put d buf; confirm d])%list
  | (Throw e, m') =>
      processedUpdates m' = processedUpdates m
      /\ ((step1 w m = (Throw e, m')
           /\ log m' = (log m ++ [presign])%list)
          \/ (exists u m1,
                step1 w m = (Ok u, m1) /\ step2 w m1 = (Throw e, m')
                /\ (log m' = (log m ++ [presign; getFileCall fileId])%list
                    \/ exists path,
                         log m' = (log m ++ [presign; getFileCall fileId;
                                             downloadCall cfg path])%list))
          \/ (exists u m1 buf m2 path,
                step1 w m = (Ok u, m1) /\ step2 w m1 = (Ok buf, m2)
                /\ step3 u buf w m2 = (Throw e, m')
                /\ log m2 = (log m ++
                             [presign; getFileCall fileId;
                              downloadCall cfg path])%list
                /\ ((data u = None /\ m' = m2)
                    \/ exists d,
                         data u = Some d
                         /\ log m' = (log m2 ++ [put d buf])%list))
          \/ (exists u d m1 buf m2 m3 path,
                step1 w m = (Ok u, m1) /\ step2 w m1 = (Ok buf, m2)
                /\ step3 u buf w m2 = (Ok tt, m3)
                /\ step4 u w m3 = (Throw e, m')
                /\ data u = Some d
                /\ log m' = (log m ++
                             [presign; getFileCall fileId; downloadCall cfg path;
                              put d buf; confirm d])%list))
  end.
Proof.
  cbv zeta. split; [intros g buf; split; reflexivity |].
  unfold fastUploadFile.
  (* step 1 *)
  unfold bind at 1.
  pose proof (request_machine "/api/v1/auth/bot/get-upload-url"
                (PGetUploadUrl telegramId filename contentType fileSize) w m)
    as Hm1.
  fold (getUploadUrl telegramId filename contentType fileSize) in Hm1.
  fold (presignCall (config w) telegramId filename contentType fileSize) in Hm1.
  destruct (getUploadUrl telegramId filename contentType fileSize w m)
    as [[u | e] m1] eqn:H1; cbn [snd] in Hm1; subst m1.
  2:{ split; [reflexivity |]. left. now split. }
  (* step 2 *)
  unfold bind at 1.
  destruct (downloadTelegramFile_run fileId w
              (emit (presignCall (config w) telegramId filename contentType
                       fileSize) m))
    as [[e H2] | [path [r H2]]]; rewrite H2.
  { split; [reflexivity |]. right. left. exists u. eexists.
    split; [reflexivity |]. split; [exact H2 |].
    left. apply log_emit2. }
  destruct r as [buf | e].
  2:{ split; [reflexivity |]. right. left. exists u. eexists.
      split; [reflexivity |]. split; [exact H2 |].
      right. exists path. cbn. now rewrite <- !app_assoc. }
  (* step 3 *)
  set (m2 := emit (downloadCall (config w) path)
               (emit (getFileCall fileId)
                  (emit (presignCall (config w) telegramId filename
                           contentType fileSize) m))) in *.
  assert (Hlog2 : log m2
                  = (log m ++
                     [presignCall (config w) telegramId filename contentType
                        fileSize;
                      getFileCall fileId; downloadCall (config w) path])%list).
  { cbn. now rewrite <- !app_assoc. }
  destruct (data u) as [d |] eqn:Hd.
  2:{ split; [reflexivity |]. right. right. left.
      exists u. eexists. exists buf, m2, path.
      split; [reflexivity |]. split; [exact H2 |].
      split; [unfold bind, read, throw; now rewrite Hd |].
      split; [exact Hlog2 |]. left. now split. }
  unfold bind at 1, read at 1, ret at 1.
  unfold bind at 1.
  pose proof (uploadToS3_machine (interp (d_uploadUrl d)) buf contentType w m2)
    as Hm3.
  destruct (uploadToS3 (interp (d_uploadUrl d)) buf contentType w m2)
    as [[[] | e] m3] eqn:H3; cbn [snd] in Hm3; subst m3.
  2:{ split; [reflexivity |]. right. right. left.
      exists u. eexists. exists buf, m2, path.
      split; [reflexivity |]. split; [exact H2 |].
      split; [unfold bind, read, ret; now rewrite Hd, H3 |].
      split; [exact Hlog2 |]. right. exists d. now split. }
  (* step 4 *)
  unfold bind at 1, read at 1, ret at 1.
  unfold bind at 1.
  pose proof (request_machine "/api/v1/auth/bot/complete-upload"
                (fsObjectPayload telegramId (d_fsObjectId d)) w
                (emit (putCall (interp (d_uploadUrl d)) buf contentType) m2))
    as Hm4.
  fold (completeUpload telegramId (d_fsObjectId d)) in Hm4.
  assert (Hlog4 : forall c,
            log (emit c (emit (putCall (interp (d_uploadUrl d)) buf contentType)
                           m2))
            = (log m ++
               [presignCall (config w) telegramId filename contentType fileSize;
                getFileCall fileId; downloadCall (config w) path;
                putCall (interp (d_uploadUrl d)) buf contentType; c])%list).
  { intros c. cbn [log emit]. rewrite Hlog2. now rewrite <- !app_assoc. }
  destruct (completeUpload telegramId (d_fsObjectId d) w _)
    as [[c | e] m4] eqn:H4; cbn [snd] in Hm4; subst m4.
  2:{ split; [reflexivity |]. right. right. right.
      exists u, d. eexists. exists buf, m2. eexists. exists path.
      split; [reflexivity |]. split; [exact H2 |].
      split; [unfold bind, read, ret; now rewrite Hd, H3 |].
      split; [unfold bind, read, ret; now rewrite Hd, H4 |].
      split; [exact Hd |]. apply Hlog4. }
  destruct (data c) as [dc |] eqn:Hdc.
  2:{ split; [reflexivity |]. right. right. right.
      exists u, d. eexists. exists buf, m2. eexists. exists path.
      split; [reflexivity |]. split; [exact H2 |].
      split; [unfold bind, read, ret; now rewrite Hd, H3 |].
      split; [unfold bind, read, ret, throw; rewrite Hd, H4, Hdc; reflexivity |].
      split; [exact Hd |]. apply Hlog4. }
  exists u, d. eexists. exists buf, m2. eexists. exists c, dc, path.
  split; [reflexivity |]. split; [exact H2 |].
  split; [unfold bind, read, ret; now rewrite Hd, H3 |].
  split; [unfold bind, read, ret; rewrite Hd, H4, Hdc; reflexivity |].
  split; [exact Hd |]. split; [exact H4 |]. split; [exact Hdc |].
  split; [reflexivity |]. split; [reflexivity |]. apply Hlog4.
Qed.

(** A presign step that answers 200 without [data]: the run makes the
    calls of the first two steps and throws where the transfer reads the
    URL; nothing is put and nothing is confirmed. *)
Example fastUploadFile_without_data :
  fastUploadFile "77" "AwACAgQ" "a.ogg" "audio/ogg" 2048 datalessWorld
    freshMachine
  = (Throw (JsError ("TypeError: Cannot read properties of undefined " ++
                     "(reading 'uploadUrl')")),
     {| processedUpdates := [];
        log := [presignCall demoConfig "77" "a.ogg" "audio/ogg" 2048;
                getFileCall "AwACAgQ";
                downloadCall demoConfig "voice/file_7.oga"] |}).
Proof. vm_compute. reflexivity. Qed.

(* ------------------------------------------------------------------ *)
(** ** Identifiers as text *)
(* ------------------------------------------------------------------ *)

Lemma to_int_not_nil (z : Z) :
  Z.to_int z <> Decimal.Pos Decimal.Nil /\ Z.to_int z <> Decimal.Neg Decimal.Nil.
Proof.
  destruct z as [| p | p]; cbn; split; try discriminate;
    intros H; injection H as H; exact (DecimalPos.Unsigned.to_uint_nonnil p H).
Qed.

(** Two integers with the same decimal text are the same integer. *)
Lemma dec_inj (a b : Z) : dec a = dec b -> a = b.
Proof.
  unfold dec. intros H.
  destruct (to_int_not_nil a) as [Ha1 Ha2].
  destruct (to_int_not_nil b) as [Hb1 Hb2].
  apply DecimalZ.to_int_inj.
  pose proof (NilZero.isi (Z.to_int a) Ha1 Ha2) as Ea.
  pose proof (NilZero.isi (Z.to_int b) Hb1 Hb2) as Eb.
  rewrite H in Ea. rewrite Ea in Eb. now injection Eb.
Qed.

(** The decimal text of an integer is never empty. *)
Lemma dec_nonempty (z : Z) : truthy (Some (dec z)) = true.
Proof.
  unfold dec. destruct (Z.to_int z) as [d | d]; cbn; [| reflexivity].
  destruct d; reflexivity.
Qed.

Lemma telegramId_of_from {P : Type} (ctx : Ctx P) (f : From) :
  from ctx = Some f -> telegramId_of ctx = Some (dec (id f)).
Proof.
  intros H. unfold telegramId_of, nonempty. rewrite H. cbn [option_map].
  now rewrite dec_nonempty.
Qed.

Lemma telegramId_of_none {P : Type} (ctx : Ctx P) :
  from ctx = None -> telegramId_of ctx = None.
Proof. intros H. unfold telegramId_of. now rewrite H. Qed.

Lemma new_calls_app (m m' : Machine) (added : list Call) :
  log m' = (log m ++ added)%list -> new_calls m m' = added.
Proof.
  intros H. unfold new_calls. rewrite H.
  rewrite skipn_app, skipn_all, Nat.sub_diag. reflexivity.
Qed.

Lemma new_calls_head (m m' : Machine) (c : Call) (rest : list Call) :
  log m' = (log m ++ c :: rest)%list -> hd_error (new_calls m m') = Some c.
Proof. intros H. now rewrite (new_calls_app m m' (c :: rest) H). Qed.

(* ------------------------------------------------------------------ *)
(** ** What never touches the set of processed updates *)
(* ------------------------------------------------------------------ *)

Lemma keeps_ret {A : Type} (a : A) : keeps_set (ret a).
Proof. intros w m. reflexivity. Qed.

Lemma keeps_throw {A : Type} (e : Exn) : keeps_set (@throw A e).
Proof. intros w m. reflexivity. Qed.

Lemma keeps_bind {A B : Type} (c : M A) (k : A -> M B) :
  keeps_set c -> (forall a, keeps_set (k a)) -> keeps_set (bind c k).
Proof.
  intros Hc Hk w m. unfold bind. specialize (Hc w m).
  destruct (c w m) as [[a | e] m1]; cbn [snd] in *.
  - now rewrite Hk.
  - assumption.
Qed.

Lemma keeps_try_catch {A : Type} (c : M A) (h : Exn -> M A) :
  keeps_set c -> (forall e, keeps_set (h e)) -> keeps_set (try_catch c h).
Proof.
  intros Hc Hh w m. unfold try_catch. specialize (Hc w m).
  destruct (c w m) as [[a | e] m1]; cbn [snd] in *.
  - assumption.
  - now rewrite Hh.
Qed.

Lemma keeps_ask_config : keeps_set ask_config.
Proof. intros w m. reflexivity. Qed.

Lemma keeps_date_now : keeps_set date_now.
Proof. intros w m. reflexivity. Qed.

Lemma keeps_fetch (url : string) (init : FetchInit) : keeps_set (fetch url init).
Proof. intros w m. reflexivity. Qed.

Lemma keeps_getFile (fileId : string) : keeps_set (getFile fileId).
Proof. intros w m. reflexivity. Qed.

Lemma keeps_telegram (c : Call) : keeps_set (telegram c).
Proof. intros w m. reflexivity. Qed.

Lemma keeps_console_log (text : string) : keeps_set (console_log text).
Proof. intros w m. reflexivity. Qed.

Lemma keeps_console_error (text : string) (e : Exn) :
  keeps_set (console_error text e).
Proof. intros w m. reflexivity. Qed.

Create HintDb keeps.
#[local] Hint Resolve keeps_ret keeps_throw keeps_ask_config keeps_date_now
  keeps_fetch keeps_getFile keeps_telegram keeps_console_log
  keeps_console_error : keeps.

(** Walks through binds, handlers and case distinctions. *)
Ltac keeps_step :=
  match goal with
  | |- keeps_set (bind _ _) => apply keeps_bind; [| intros ?]
  | |- keeps_set (try_catch _ _) => apply keeps_try_catch; [| intros ?]
  | |- keeps_set (if ?b then _ else _) => destruct b
  | |- keeps_set (match ?x with _ => _ end) => destruct x
  | |- keeps_set (let '(_, _) := ?x in _) => destruct x
  | |- keeps_set _ => solve [auto with keeps]
  end.

Ltac keeps := repeat keeps_step.

Lemma keeps_request (endpoint : string) (options : FetchInit) :
  keeps_set (request endpoint options).
Proof. unfold request, response_json. keeps. Qed.

Lemma keeps_read {A B : Type} (name : string) (member : A -> B)
    (value : option A) : keeps_set (read name member value).
Proof. unfold read. keeps. Qed.

Lemma keeps_void {A : Type} (c : M A) : keeps_set c -> keeps_set (void c).
Proof. intros H. unfold void. keeps. Qed.

#[local] Hint Resolve keeps_request keeps_read keeps_void : keeps.

Lemma keeps_downloadTelegramFile (fileId : string) :
  keeps_set (downloadTelegramFile fileId).
Proof. unfold downloadTelegramFile. keeps. Qed.

Lemma keeps_uploadToS3 (url : string) (buf : Buffer) (ct : string) :
  keeps_set (uploadToS3 url buf ct).
Proof. unfold uploadToS3. keeps. Qed.

#[local] Hint Resolve keeps_downloadTelegramFile keeps_uploadToS3 : keeps.

Lemma keeps_fastUploadFile (telegramId fileId filename contentType : string)
    (fileSize : Z) :
  keeps_set (fastUploadFile telegramId fileId filename contentType fileSize).
Proof. unfold fastUploadFile, getUploadUrl, completeUpload. keeps. Qed.

Lemma keeps_ensureUserRegistered (telegramId : string) (userName : option string) :
  keeps_set (ensureUserRegistered telegramId userName).
Proof. unfold ensureUserRegistered, createUser. keeps. Qed.

Lemma keeps_reply (text : string) (markup : option ReplyMarkup) :
  keeps_set (reply text markup).
Proof. unfold reply. keeps. Qed.

Lemma keeps_editMessageText (target : EditTarget) (text : string) :
  keeps_set (editMessageText target text).
Proof. unfold editMessageText. keeps. Qed.

Lemma keeps_nameOrStamp (name : option string) (stem ext : string) :
  keeps_set (nameOrStamp name stem ext).
Proof. unfold nameOrStamp. keeps. Qed.

#[local] Hint Resolve keeps_fastUploadFile keeps_ensureUserRegistered
  keeps_reply keeps_editMessageText keeps_nameOrStamp : keeps.

(* ------------------------------------------------------------------ *)
(** ** Deduplication in the handlers *)
(* ------------------------------------------------------------------ *)

Lemma isProcessed_records (u : Z) (s : JsSet.t) : In u (snd (isProcessed u s)).
Proof.
  unfold isProcessed. destruct (JsSet.has u s) eqn:Hhas; cbn [snd].
  - now apply has_true_iff.
  - unfold JsSet.add.
    match goal with |- In u (if JsSet.has u ?c then _ else _) =>
      destruct (JsSet.has u c) eqn:Hc end.
    + now apply has_true_iff.
    + apply in_or_app. right. now left.
Qed.

Lemma isProcessedM_recorded (u : Z) (w : World) (m : Machine) :
  In u (processedUpdates m) -> isProcessedM u w m = (Ok true, m).
Proof.
  intros H. unfold isProcessedM, isProcessed.
  apply has_true_iff in H. rewrite H. now destruct m.
Qed.

(** A handler that starts with [isProcessed] has recorded the identifier
    when it is done, whatever else it does. *)
Lemma bind_isProcessed_records {A : Type} (u : Z) (k : bool -> M A)
    (w : World) (m : Machine) :
  (forall b, keeps_set (k b)) ->
  In u (processedUpdates (snd (bind (isProcessedM u) k w m))).
Proof.
  intros Hk. unfold bind, isProcessedM.
  pose proof (isProcessed_records u (processedUpdates m)) as Hin.
  destruct (isProcessed u (processedUpdates m)) as [b s']. cbn [snd] in Hin.
  rewrite Hk. exact Hin.
Qed.

Lemma upload_records (u : Update) (w : World) (m : Machine) :
  isUpload u = true ->
  In (updateId u) (processedUpdates (snd (handle u w m))).
Proof.
  intros Hu.
  destruct u; try discriminate; cbn [handle updateId];
    unfold on_document, on_photo, on_video, on_audio, on_voice;
    apply bind_isProcessed_records; intros b; cbv zeta; keeps.
Qed.

Lemma upload_duplicate_dropped (u : Update) (w : World) (m : Machine) :
  isUpload u = true ->
  In (updateId u) (processedUpdates m) ->
  handle u w m
  = (Ok tt, emit (ConsoleLog (skippingDuplicate (updateId u))) m).
Proof.
  intros Hu Hin.
  destruct u; try discriminate; cbn [handle updateId] in *;
    unfold on_document, on_photo, on_video, on_audio, on_voice;
    unfold bind at 1; rewrite (isProcessedM_recorded _ w m Hin); reflexivity.
Qed.

(** C3, as amended.  Each of the five media-upload handlers consults the
    deduplicator first: when the identifier of the update is recorded, the
    handler writes one console line and does nothing else, and after a
    handler has run on an update its identifier is recorded.  So the second
    of two upload updates with the same identifier, submitted one after the
    other, is dropped: it reaches neither the backend, nor the object
    storage, nor the provider, and the user sees nothing. *)
Theorem upload_dedup (u1 u2 : Update) (w : World) (m : Machine) :
  isUpload u1 = true -> isUpload u2 = true -> updateId u1 = updateId u2 ->
  (In (updateId u1) (processedUpdates m) ->
   handle u1 w m
   = (Ok tt, emit (ConsoleLog (skippingDuplicate (updateId u1))) m))
  /\ (let m1 := snd (handle u1 w m) in
      let m2 := snd (handle u2 w m1) in
      handle u2 w m1
      = (Ok tt, emit (ConsoleLog (skippingDuplicate (updateId u2))) m1)
      /\ new_calls m1 m2 = [ConsoleLog (skippingDuplicate (updateId u2))]
      /\ filter isTransferCall (new_calls m1 m2) = []
      /\ filter isUserVisible (new_calls m1 m2) = []
      /\ processedUpdates m2 = processedUpdates m1).
Proof.
  intros H1 H2 Hid. split.
  - now apply upload_duplicate_dropped.
  - cbv zeta.
    assert (Hdrop : handle u2 w (snd (handle u1 w m))
                    = (Ok tt, emit (ConsoleLog (skippingDuplicate (updateId u2)))
                                (snd (handle u1 w m)))).
    { apply upload_duplicate_dropped; [assumption |].
      rewrite <- Hid. now apply upload_records. }
    rewrite Hdrop. cbn [snd].
    rewrite (new_calls_app _ _ [ConsoleLog (skippingDuplicate (updateId u2))])
      by reflexivity.
    repeat split; reflexivity.
Qed.

(** A voice message delivered twice: the second delivery is dropped. *)
Lemma upload_dedup_witness :
  handle (MessageVoice (demoVoice 5 2048)) (demoWorld [])
    (snd (handle (MessageVoice (demoVoice 5 2048)) (demoWorld []) freshMachine))
  = (Ok tt,
     emit (ConsoleLog (skippingDuplicate 5))
       (snd (handle (MessageVoice (demoVoice 5 2048)) (demoWorld [])
               freshMachine))).
Proof.
  exact (proj1 (proj2 (upload_dedup (MessageVoice (demoVoice 5 2048))
                         (MessageVoice (demoVoice 5 2048)) (demoWorld [])
                         freshMachine eq_refl eq_refl eq_refl))).
Defined.

(** C3, as stated, fails: the handler of the delete-account confirmation
    never consults the deduplicator.  The same update delivered twice
    deletes at the backend twice, and no identifier is ever recorded. *)
Lemma confirm_delete_account_twice :
  filter isTransferCall
    (new_calls
       (snd (handle (CallbackConfirmDeleteAccount (demoCallback 5 tt))
               (demoWorld []) freshMachine))
       (snd (handle (CallbackConfirmDeleteAccount (demoCallback 5 tt))
               (demoWorld [])
               (snd (handle (CallbackConfirmDeleteAccount (demoCallback 5 tt))
                       (demoWorld []) freshMachine)))))
  = [backendCall demoConfig "/api/v1/auth/bot/delete-account" (PTelegramId "77")]
  /\ processedUpdates
       (snd (handle (CallbackConfirmDeleteAccount (demoCallback 5 tt))
               (demoWorld [])
               (snd (handle (CallbackConfirmDeleteAccount (demoCallback 5 tt))
                       (demoWorld []) freshMachine))))
     = [].
Proof. vm_compute. split; reflexivity. Qed.

(* ------------------------------------------------------------------ *)
(** ** The size guard *)
(* ------------------------------------------------------------------ *)

Lemma isProcessedM_fresh (u : Z) (w : World) (m : Machine) :
  ~ In u (processedUpdates m) ->
  isProcessedM u w m
  = (Ok false, {| processedUpdates := snd (isProcessed u (processedUpdates m));
                  log := log m |}).
Proof.
  intros H. unfold isProcessedM, isProcessed.
  apply has_false_iff in H. rewrite H. reflexivity.
Qed.

(** The document, video and audio handlers answer an update that declares
    more than 20 MiB with their own "too large" text and make no other
    call. *)
Lemma oversize_rejected (u : Update) (w : World) (m : Machine) (f : From)
    (sz : Z) (text : string) :
  tooLargeText u = Some text ->
  ~ In (updateId u) (processedUpdates m) ->
  senderOf u = Some f ->
  declaredSize u = Some sz ->
  sz > 20 * 1024 * 1024 ->
  new_calls m (snd (handle u w m)) = [TgSendMessage text None].
Proof.
  intros Htext Hfresh Hfrom Hsize Hbig.
  apply new_calls_app.
  destruct u; try discriminate; cbn [handle updateId senderOf declaredSize] in *;
    injection Htext as <-; injection Hsize as <-;
    unfold on_document, on_video, on_audio;
    unfold bind at 1; rewrite (isProcessedM_fresh _ w m Hfresh);
    rewrite (telegramId_of_from ctx f Hfrom); cbv zeta.
  - replace (or_zero (file_size (message ctx)) >? 20 * 1024 * 1024) with true
      by (symmetry; apply Z.gtb_lt; lia).
    unfold void, reply, telegram, bind. cbn.
    destruct (w_telegram w _ _); reflexivity.
  - unfold bind at 1, nameOrStamp.
    replace (or_zero (file_size (message ctx)) >? 20 * 1024 * 1024) with true
      by (symmetry; apply Z.gtb_lt; lia).
    destruct (nonempty (file_name (message ctx)));
      unfold void, reply, telegram, bind, date_now, ret; cbn;
      destruct (w_telegram w _ _); reflexivity.
  - unfold bind at 1, nameOrStamp.
    replace (or_zero (file_size (message ctx)) >? 20 * 1024 * 1024) with true
      by (symmetry; apply Z.gtb_lt; lia).
    destruct (nonempty (file_name (message ctx)));
      unfold void, reply, telegram, bind, date_now, ret; cbn;
      destruct (w_telegram w _ _); reflexivity.
Qed.

(** C2 fails in the code for voice messages.  A voice update that declares
    20 MiB + 1 bytes is not rejected: the handler announces the upload,
    registers the user, and runs all four steps of the orchestrator. *)
Theorem voice_oversize_not_rejected :
  declaredSize (MessageVoice (demoVoice 5 20971521)) = Some 20971521
  /\ 20971521 > 20 * 1024 * 1024
  /\ filter isTransferCall
       (log (snd (handle (MessageVoice (demoVoice 5 20971521)) (demoWorld [])
                    freshMachine)))
     = [backendCall demoConfig "/api/v1/auth/bot/create-user"
          (PCreateUser "77" (Some "Ada") None);
        presignCall demoConfig "77" "voice_1764547200000.ogg" "audio/ogg"
          20971521;
        getFileCall "AwACAgQ";
        downloadCall demoConfig "voice/file_7.oga";
        putCall "https://s3.example/put/obj-1" [Byte.x4f; Byte.x67] "audio/ogg";
        confirmCall demoConfig "77" "obj-1"]
  /\ hd_error
       (log (snd (handle (MessageVoice (demoVoice 5 20971521)) (demoWorld [])
                    freshMachine)))
     = Some (TgSendMessage ("📤 Uploading voice message..." ++ nl ++
                            "Size: 20.0 MB") None).
Proof. vm_compute. repeat split; reflexivity. Qed.

(** The photo handler has no size guard either. *)
Example photo_oversize_not_rejected :
  declaredSize (MessagePhoto (demoPhoto 6 20971521)) = Some 20971521
  /\ List.length
       (filter isTransferCall
          (log (snd (handle (MessagePhoto (demoPhoto 6 20971521)) (demoWorld [])
                       freshMachine))))
     = 6%nat.
Proof. vm_compute. split; reflexivity. Qed.

(** The same declared size on a document is rejected. *)
Example document_oversize_rejected :
  log (snd (handle (MessageDocument (demoDocument 7 20971521)) (demoWorld [])
              freshMachine))
  = [TgSendMessage fileTooLarge None].
Proof. vm_compute. reflexivity. Qed.

(* ------------------------------------------------------------------ *)
(** ** Contact verification *)
(* ------------------------------------------------------------------ *)

(** The comparison of the handler is a comparison of the identifiers. *)
Lemma strictNe_ids (embedded : option Z) (sender : Z) :
  strictNe (option_map dec embedded) (Some (dec sender)) = false
  <-> embedded = Some sender.
Proof.
  destruct embedded as [e |]; cbn.
  - rewrite negb_false_iff, String.eqb_eq. split.
    + intros H. f_equal. now apply dec_inj.
    + intros H. injection H as ->. reflexivity.
  - split; discriminate.
Qed.

(** C6.  For a contact shared by sender [f]: when the user id embedded in
    the contact is not [f]'s id (or is missing) the handler sends the
    rejection text and does nothing else; when it is [f]'s id the first
    thing the handler does is the phone update at the backend, for [f] and
    the number with a leading [+].  So a call to the backend, the storage
    or the file service happens in this handler only if the embedded id is
    the sender's; without a sender there is none either. *)
Theorem contact_identity_check (ctx : Ctx Contact) (w : World) (m : Machine) :
  (forall f, from ctx = Some f ->
     contact_user_id (message ctx) <> Some (id f) ->
     new_calls m (snd (on_contact ctx w m))
     = [TgSendMessage notYourContact (Some RemoveKeyboard)])
  /\ (forall f, from ctx = Some f ->
        contact_user_id (message ctx) = Some (id f) ->
        hd_error (new_calls m (snd (on_contact ctx w m)))
        = Some (updatePhoneCall (config w) (dec (id f))
                  (if startsWith "+" (phone_number (message ctx))
                   then phone_number (message ctx)
                   else "+" ++ phone_number (message ctx))))
  /\ (filter isTransferCall (new_calls m (snd (on_contact ctx w m))) <> [] ->
      exists f, from ctx = Some f
                /\ contact_user_id (message ctx) = Some (id f)).
Proof.
  assert (Hreject : forall f, from ctx = Some f ->
            contact_user_id (message ctx) <> Some (id f) ->
            new_calls m (snd (on_contact ctx w m))
            = [TgSendMessage notYourContact (Some RemoveKeyboard)]).
  { intros f Hf Hne. apply new_calls_app.
    unfold on_contact. rewrite (telegramId_of_from ctx f Hf). cbv zeta.
    destruct (strictNe (option_map dec (contact_user_id (message ctx)))
                (Some (dec (id f)))) eqn:Hcmp.
    - unfold void, reply, telegram, bind. cbn.
      destruct (w_telegram w _ _); reflexivity.
    - apply strictNe_ids in Hcmp. contradiction. }
  split; [exact Hreject |]. split.
  - intros f Hf Heq.
    unfold on_contact. rewrite (telegramId_of_from ctx f Hf). cbv zeta.
    apply strictNe_ids in Heq. rewrite Heq.
    unfold bind at 1, try_catch, bind at 1.
    pose proof (request_machine "/api/v1/auth/bot/update-phone"
                  (PUpdatePhone (dec (id f))
                     (if startsWith "+" (phone_number (message ctx))
                      then phone_number (message ctx)
                      else "+" ++ phone_number (message ctx))) w m) as Hm1.
    fold (updatePhone (dec (id f))
            (if startsWith "+" (phone_number (message ctx))
             then phone_number (message ctx)
             else "+" ++ phone_number (message ctx))) in Hm1.
    destruct (updatePhone _ _ w m) as [[r | e] m1]; cbn [snd] in Hm1; subst m1.
    + unfold read, void, reply, telegram, bind, console_error, ret, throw.
      destruct (data r) as [d |]; [destruct (d_user d) as [user |] |]; cbn;
        destruct (w_telegram w _ _); cbn;
        unfold new_calls; cbn; rewrite <- ?app_assoc;
        rewrite skipn_app, skipn_all, Nat.sub_diag; reflexivity.
    + unfold void, reply, telegram, bind, console_error. cbn.
      destruct (w_telegram w _ _); cbn;
        unfold new_calls; cbn; rewrite <- ?app_assoc;
        rewrite skipn_app, skipn_all, Nat.sub_diag; reflexivity.
  - intros Hcalls.
    destruct (from ctx) as [f |] eqn:Hf.
    + exists f. split; [reflexivity |].
      destruct (contact_user_id (message ctx)) as [e |] eqn:He.
      * destruct (Z.eq_dec e (id f)) as [-> | Hne]; [reflexivity |].
        exfalso. apply Hcalls. rewrite (Hreject f eq_refl); [reflexivity |].
        try rewrite He. intros H. injection H as H. contradiction.
      * exfalso. apply Hcalls. rewrite (Hreject f eq_refl); [reflexivity |].
        try rewrite He. discriminate.
    + exfalso. apply Hcalls.
      rewrite (new_calls_app m _ [TgSendMessage couldNotIdentify None]);
        [reflexivity |].
      unfold on_contact. rewrite (telegramId_of_none ctx Hf).
      unfold void, reply, telegram, bind. cbn.
      destruct (w_telegram w _ _); reflexivity.
Qed.

(* ------------------------------------------------------------------ *)
(** ** Registration before an upload *)
(* ------------------------------------------------------------------ *)

(** [ensureUserRegistered] never throws: a failure of the registration call
    is logged and turned into [false]. *)
Lemma ensureUserRegistered_run (telegramId : string) (userName : option string)
    (w : World) (m : Machine) :
  match createUser telegramId userName None w m with
  | (Ok _, m1) => ensureUserRegistered telegramId userName w m = (Ok true, m1)
  | (Throw e, m1) =>
      ensureUserRegistered telegramId userName w m
      = (Ok false, emit (ConsoleError "Error ensuring user registration:" e) m1)
  end.
Proof.
  unfold ensureUserRegistered, try_catch, bind.
  destruct (createUser telegramId userName None w m) as [[r | e] m1];
    reflexivity.
Qed.

(** The document handler from the status message on. *)
Lemma on_document_accepted (ctx : Ctx TgFile) (w : World) (m : Machine)
    (f : From) (statusMsg : Z) :
  ~ In (update_id ctx) (processedUpdates m) ->
  from ctx = Some f ->
  documentSize ctx <= 20 * 1024 * 1024 ->
  w_telegram w (log m) (TgSendMessage (documentStatusText ctx) None)
  = inr statusMsg ->
  on_document ctx w m
  = try_catch
      (ensureUserRegistered (dec (id f)) (Some (getUserDisplayName f)) ;;
       result <- fastUploadFile (dec (id f)) (file_id (message ctx))
                   (documentName ctx) (documentMime ctx) (documentSize ctx) ;;
       editMessageText (ChatMessage (chat_id ctx) statusMsg)
         (documentCompleteText result))
      (fun error =>
         console_error "Error uploading document:" error ;;
         editMessageText (ChatMessage (chat_id ctx) statusMsg)
           (uploadFailed (apiMessageOr "Failed to upload file." error)))
      w (afterStatus ctx m).
Proof.
  intros Hfresh Hfrom Hsize Hstatus.
  unfold on_document. unfold bind at 1.
  rewrite (isProcessedM_fresh _ w m Hfresh).
  rewrite (telegramId_of_from ctx f Hfrom). cbv zeta.
  fold (documentSize ctx). fold (documentName ctx). fold (documentMime ctx).
  replace (documentSize ctx >? 20 * 1024 * 1024) with false
    by (symmetry; rewrite Z.gtb_ltb; apply Z.ltb_ge; lia).
  fold (documentStatusText ctx).
  unfold bind at 1. unfold reply at 1, telegram at 1. cbn [log].
  rewrite Hstatus. cbn [of_sum].
  unfold userName_of. rewrite Hfrom. reflexivity.
Qed.

(** C7, as amended.  When the registration call fails while a document is
    being handled, [ensureUserRegistered] does not throw: it writes the
    error to the console and returns [false].  The handler does not look at
    that answer and goes on with the upload.  What the user is told is the
    outcome of the upload: the completion text when [fastUploadFile]
    succeeds, and the text of the failure of the upload itself when it
    throws. *)
Theorem registration_failure_ignored (ctx : Ctx TgFile) (w : World)
    (m : Machine) (f : From) (statusMsg : Z) (e : Exn) (m1 : Machine) :
  ~ In (update_id ctx) (processedUpdates m) ->
  from ctx = Some f ->
  documentSize ctx <= 20 * 1024 * 1024 ->
  w_telegram w (log m) (TgSendMessage (documentStatusText ctx) None)
  = inr statusMsg ->
  createUser (dec (id f)) (Some (getUserDisplayName f)) None w
    (afterStatus ctx m) = (Throw e, m1) ->
  let registered :=
    emit (ConsoleError "Error ensuring user registration:" e) m1 in
  let upload :=
    fastUploadFile (dec (id f)) (file_id (message ctx)) (documentName ctx)
      (documentMime ctx) (documentSize ctx) w registered in
  ensureUserRegistered (dec (id f)) (Some (getUserDisplayName f)) w
    (afterStatus ctx m) = (Ok false, registered)
  /\ match upload with
     | (Ok result, m2) =>
         forall k,
           w_telegram w (log m2)
             (TgEditMessageText (ChatMessage (chat_id ctx) statusMsg)
                (documentCompleteText result)) = inr k ->
           on_document ctx w m
           = (Ok tt,
              emit (TgEditMessageText (ChatMessage (chat_id ctx) statusMsg)
                      (documentCompleteText result)) m2)
     | (Throw e2, m2) =>
         snd (on_document ctx w m)
         = emit (TgEditMessageText (ChatMessage (chat_id ctx) statusMsg)
                   (uploadFailed (apiMessageOr "Failed to upload file." e2)))
             (emit (ConsoleError "Error uploading document:" e2) m2)
     end.
Proof.
  intros Hfresh Hfrom Hsize Hstatus Hcreate. cbv zeta.
  pose proof (ensureUserRegistered_run (dec (id f))
                (Some (getUserDisplayName f)) w (afterStatus ctx m)) as Hreg.
  rewrite Hcreate in Hreg.
  split; [exact Hreg |].
  pose proof (on_document_accepted ctx w m f statusMsg Hfresh Hfrom Hsize
                Hstatus) as Hdoc.
  unfold try_catch in Hdoc. unfold bind at 1 in Hdoc. rewrite Hreg in Hdoc.
  unfold bind at 1 in Hdoc.
  destruct (fastUploadFile _ _ _ _ _ w _) as [[result | e2] m2].
  - intros k Hk. rewrite Hdoc.
    unfold editMessageText, void, telegram, bind. cbn [log].
    rewrite Hk. reflexivity.
  - rewrite Hdoc. clear Hdoc Hstatus.
    unfold editMessageText, void, telegram, bind, console_error. cbn.
    destruct (w_telegram w _ _); reflexivity.
Qed.

(** A failing registration and a working upload, in the concrete world. *)
Lemma registration_failure_ignored_witness :
  ensureUserRegistered "77" (Some "Ada")
    (demoWorld ["/api/v1/auth/bot/create-user"])
    (afterStatus (demoDocument 7 2048) freshMachine)
  = (Ok false,
     emit (ConsoleError "Error ensuring user registration:"
             (CloudStorageApiError "Service unavailable" 503 (Some demoEnvelope)))
       (emit (backendCall demoConfig "/api/v1/auth/bot/create-user"
                (PCreateUser "77" (Some "Ada") None))
          (afterStatus (demoDocument 7 2048) freshMachine))).
Proof.
  refine (proj1 (registration_failure_ignored (demoDocument 7 2048)
                   (demoWorld ["/api/v1/auth/bot/create-user"]) freshMachine
                   demoFrom 42
                   (CloudStorageApiError "Service unavailable" 503
                      (Some demoEnvelope))
                   (emit (backendCall demoConfig "/api/v1/auth/bot/create-user"
                            (PCreateUser "77" (Some "Ada") None))
                      (afterStatus (demoDocument 7 2048) freshMachine))
                   _ eq_refl _ eq_refl eq_refl)).
  - simpl. tauto.
  - vm_compute. discriminate.
Defined.

(** C7, as stated, fails: the registration call fails, the upload works,
    and the user is told that the upload is complete.  The failure is on the
    console only. *)
Lemma registration_failure_unreported :
  filter isUserVisible
    (log (snd (handle (MessageDocument (demoDocument 7 2048))
                 (demoWorld ["/api/v1/auth/bot/create-user"]) freshMachine)))
  = [TgSendMessage ("📤 Uploading " ++ dq ++ "report.pdf" ++ dq ++ "..." ++ nl
                    ++ "Size: 2.0 KB") None;
     TgEditMessageText (ChatMessage 9 42)
       ("✅ Upload complete!" ++ nl ++ nl ++
        "📄 File: voice.ogg" ++ nl ++
        "📦 Size: 2.0 KB" ++ nl ++ nl ++
        "🔗 Shareable Link:" ++ nl ++ "https://share.example/obj-1")]
  /\ nth_error
       (log (snd (handle (MessageDocument (demoDocument 7 2048))
                    (demoWorld ["/api/v1/auth/bot/create-user"]) freshMachine)))
       2
     = Some (ConsoleError "Error ensuring user registration:"
               (CloudStorageApiError "Service unavailable" 503
                  (Some demoEnvelope))).
Proof. vm_compute. split; reflexivity. Qed.

(* ------------------------------------------------------------------ *)
(** ** The delete-link selection *)
(* ------------------------------------------------------------------ *)

Lemma text_on_open_row (rows : InlineKeyboard.t) (label payload : string) :
  InlineKeyboard.text label payload (rows ++ [[]])%list
  = (rows ++ [[{| b_text := label; b_callback_data := payload |}]])%list.
Proof.
  unfold InlineKeyboard.text. now rewrite removelast_last, last_last.
Qed.

(** Adding a button and closing its row, file by file. *)
Lemma delete_rows (files : list SharedFile) (rows : InlineKeyboard.t) :
  fold_left
    (fun kb file =>
       InlineKeyboard.row
         (InlineKeyboard.text ("🗑 " ++ displayName file)
            ("delete_link:" ++ sf_fsObjectId file) kb))
    files (rows ++ [[]])%list
  = (rows ++ map (fun f => [deleteButton f]) files ++ [[]])%list.
Proof.
  revert rows. induction files as [| f files IH]; intros rows; cbn [fold_left map].
  - reflexivity.
  - rewrite text_on_open_row. unfold InlineKeyboard.row.
    rewrite IH. rewrite <- app_assoc. reflexivity.
Qed.

Lemma deleteLinkKeyboard_rows (files : list SharedFile) :
  deleteLinkKeyboard files
  = (map (fun f => [deleteButton f]) (firstn 10 files) ++ [[cancelButton]])%list.
Proof.
  unfold deleteLinkKeyboard, InlineKeyboard.new, slice0.
  pose proof (delete_rows (firstn 10 files) []) as H. cbn [app] in H.
  cbv zeta. rewrite H. apply text_on_open_row.
Qed.

Lemma concat_singletons {A B : Type} (g : A -> B) (l : list A) :
  List.concat (map (fun x => [g x]) l) = map g l.
Proof. induction l as [| x l IH]; cbn; [reflexivity | now rewrite IH]. Qed.

Lemma mapi_from_nth {A B : Type} (f : A -> Z -> B) (l : list A) (start : Z)
    (i : nat) (x : A) :
  nth_error l i = Some x ->
  nth_error (mapi_from start f l) i = Some (f x (start + Z.of_nat i)).
Proof.
  revert start i. induction l as [| y l IH]; intros start i H.
  - destruct i; discriminate.
  - destruct i as [| i]; cbn in *.
    + injection H as ->. now rewrite Z.add_0_r.
    + rewrite (IH (start + 1) i H). do 2 f_equal. lia.
Qed.

Lemma mapi_from_length {A B : Type} (f : A -> Z -> B) (l : list A) (start : Z) :
  List.length (mapi_from start f l) = List.length l.
Proof.
  revert start. induction l as [| y l IH]; intros start; cbn;
    [reflexivity | now rewrite IH].
Qed.

(* ------------------------------------------------------------------ *)
(** ** Code units *)
(* ------------------------------------------------------------------ *)

Lemma byte_range (c : ascii) : 0 <= Utf16.byte c < 256.
Proof.
  unfold Utf16.byte. pose proof (N_ascii_bounded c) as H. lia.
Qed.

Lemma byte_chr (b : Z) : 0 <= b < 256 -> Utf16.byte (Utf16.chr b) = b.
Proof.
  intros H. unfold Utf16.byte, Utf16.chr.
  rewrite N_ascii_embedding by lia. lia.
Qed.

Lemma decode_eq (c0 : ascii) (s1 : string) :
  Utf16.decode (String c0 s1)
  = match s1 with
    | String c1 s2 =>
        if (192 <=? Utf16.byte c0) && (Utf16.byte c0 <? 224) then
          (Utf16.byte c0 mod 32 * 64 + Utf16.byte c1 mod 64) :: Utf16.decode s2
        else
          match s2 with
          | String c2 s3 =>
              if (224 <=? Utf16.byte c0) && (Utf16.byte c0 <? 240) then
                (Utf16.byte c0 mod 16 * 4096 + Utf16.byte c1 mod 64 * 64
                 + Utf16.byte c2 mod 64) :: Utf16.decode s3
              else
                match s3 with
                | String c3 s4 =>
                    if (240 <=? Utf16.byte c0) && (Utf16.byte c0 <? 248) then
                      (Utf16.byte c0 mod 8 * 262144
                       + Utf16.byte c1 mod 64 * 4096
                       + Utf16.byte c2 mod 64 * 64 + Utf16.byte c3 mod 64)
                      :: Utf16.decode s4
                    else Utf16.byte c0 :: Utf16.decode s1
                | EmptyString => Utf16.byte c0 :: Utf16.decode s1
                end
          | EmptyString => Utf16.byte c0 :: Utf16.decode s1
          end
    | EmptyString => [Utf16.byte c0]
    end.
Proof. destruct s1; reflexivity. Qed.

Ltac decide_range :=
  repeat match goal with
    | |- context [?a <=? ?b] => destruct (Z.leb_spec a b); try lia
    | |- context [?a <? ?b] => destruct (Z.ltb_spec a b); try lia
    end;
  cbn [andb].

Lemma decode_one (c0 : ascii) (s : string) :
  Utf16.byte c0 < 192 ->
  Utf16.decode (String c0 s) = Utf16.byte c0 :: Utf16.decode s.
Proof.
  intros H. rewrite decode_eq.
  destruct s as [| c1 [| c2 [| c3 s4]]]; try reflexivity; decide_range;
    reflexivity.
Qed.

Lemma decode_two (c0 c1 : ascii) (s : string) :
  192 <= Utf16.byte c0 < 224 ->
  Utf16.decode (String c0 (String c1 s))
  = (Utf16.byte c0 mod 32 * 64 + Utf16.byte c1 mod 64) :: Utf16.decode s.
Proof. intros H. rewrite decode_eq. decide_range. reflexivity. Qed.

Lemma decode_three (c0 c1 c2 : ascii) (s : string) :
  224 <= Utf16.byte c0 < 240 ->
  Utf16.decode (String c0 (String c1 (String c2 s)))
  = (Utf16.byte c0 mod 16 * 4096 + Utf16.byte c1 mod 64 * 64
     + Utf16.byte c2 mod 64) :: Utf16.decode s.
Proof. intros H. rewrite decode_eq. decide_range. reflexivity. Qed.

Lemma decode_four (c0 c1 c2 c3 : ascii) (s : string) :
  240 <= Utf16.byte c0 < 248 ->
  Utf16.decode (String c0 (String c1 (String c2 (String c3 s))))
  = (Utf16.byte c0 mod 8 * 262144 + Utf16.byte c1 mod 64 * 4096
     + Utf16.byte c2 mod 64 * 64 + Utf16.byte c3 mod 64) :: Utf16.decode s.
Proof. intros H. rewrite decode_eq. decide_range. reflexivity. Qed.

(** Decoding reads a code point back from its bytes. *)
Lemma decode_encode (cp : Z) (s : string) :
  0 <= cp < 1114112 ->
  Utf16.decode (Utf16.encode cp ++ s) = cp :: Utf16.decode s.
Proof.
  intros H. unfold Utf16.encode.
  destruct (Z.ltb_spec cp 128); [| destruct (Z.ltb_spec cp 2048);
    [| destruct (Z.ltb_spec cp 65536)]]; cbn [append].
  - rewrite decode_one; rewrite byte_chr by lia; [reflexivity | lia].
  - assert (0 <= cp / 64 < 32 /\ 0 <= cp mod 64 < 64)
      by (Z.to_euclidean_division_equations; lia).
    rewrite decode_two; rewrite !byte_chr by lia; [| lia].
    f_equal. Z.to_euclidean_division_equations. lia.
  - assert (0 <= cp / 4096 < 16 /\ 0 <= cp / 64 mod 64 < 64
            /\ 0 <= cp mod 64 < 64)
      by (Z.to_euclidean_division_equations; lia).
    rewrite decode_three; rewrite !byte_chr by lia; [| lia].
    f_equal. Z.to_euclidean_division_equations. lia.
  - assert (0 <= cp / 262144 < 8 /\ 0 <= cp / 4096 mod 64 < 64
            /\ 0 <= cp / 64 mod 64 < 64 /\ 0 <= cp mod 64 < 64)
      by (Z.to_euclidean_division_equations; lia).
    rewrite decode_four; rewrite !byte_chr by lia; [| lia].
    f_equal. Z.to_euclidean_division_equations. lia.
Qed.

Lemma decode_of_code_points (cps : list Z) (s : string) :
  Forall (fun cp => 0 <= cp < 1114112) cps ->
  Utf16.decode (Utf16.of_code_points cps ++ s) = (cps ++ Utf16.decode s)%list.
Proof.
  unfold Utf16.of_code_points.
  induction 1 as [| cp cps Hcp _ IH]; [reflexivity |].
  cbn [map app].
  assert (Hcat : String.concat "" (Utf16.encode cp :: map Utf16.encode cps)
                 = Utf16.encode cp ++ String.concat "" (map Utf16.encode cps)).
  { cbn [String.concat]. destruct (map Utf16.encode cps) as [| x xs] eqn:E.
    - cbn. clear. induction (Utf16.encode cp) as [| c e IHe]; cbn;
        [reflexivity | now rewrite <- IHe].
    - reflexivity. }
  rewrite Hcat, append_assoc, decode_encode by assumption.
  now rewrite IH.
Qed.

Lemma code_points_spec (n : nat) :
  forall us, (List.length us <= n)%nat -> Forall Utf16.is_unit us ->
    Forall (fun cp => 0 <= cp < 1114112) (Utf16.code_points us)
    /\ flat_map Utf16.units_of_code_point (Utf16.code_points us) = us.
Proof.
  induction n as [| n IH]; intros us Hlen Hus.
  - destruct us; [split; [constructor | reflexivity] | cbn in Hlen; lia].
  - destruct us as [| u [| l rest]].
    + split; [constructor | reflexivity].
    + inversion Hus as [| ? ? Hu _]; subst. unfold Utf16.is_unit in Hu.
      cbn [Utf16.code_points]. split.
      * constructor; [lia | constructor].
      * cbn. unfold Utf16.units_of_code_point.
        destruct (Z.ltb_spec u 65536); [reflexivity | lia].
    + inversion Hus as [| ? ? Hu Hrest]; subst.
      inversion Hrest as [| ? ? Hl Hrest']; subst.
      unfold Utf16.is_unit in Hu, Hl. cbn [List.length] in Hlen.
      change (Utf16.code_points (u :: l :: rest))
        with (if Utf16.is_high u && Utf16.is_low l
              then (65536 + (u - 55296) * 1024 + (l - 56320))
                   :: Utf16.code_points rest
              else u :: Utf16.code_points (l :: rest)).
      destruct (Utf16.is_high u && Utf16.is_low l) eqn:Hpair.
      * apply andb_true_iff in Hpair as [Hh Hlw].
        unfold Utf16.is_high, Utf16.is_low in Hh, Hlw.
        apply andb_true_iff in Hh as [Hh1 Hh2].
        apply andb_true_iff in Hlw as [Hl1 Hl2].
        apply Z.leb_le in Hh1, Hl1. apply Z.ltb_lt in Hh2, Hl2.
        destruct (IH rest ltac:(lia) Hrest') as [Hv Hr].
        split.
        -- constructor; [lia | exact Hv].
        -- cbn [flat_map]. rewrite Hr. unfold Utf16.units_of_code_point.
           destruct (Z.ltb_spec (65536 + (u - 55296) * 1024 + (l - 56320))
                       65536); [lia |].
           cbn [app]. f_equal; [| f_equal];
             Z.to_euclidean_division_equations; lia.
      * destruct (IH (l :: rest) ltac:(cbn [List.length]; lia) Hrest)
          as [Hv Hr].
        split.
        -- constructor; [lia | exact Hv].
        -- cbn [flat_map]. rewrite Hr. unfold Utf16.units_of_code_point.
           destruct (Z.ltb_spec u 65536); [reflexivity | lia].
Qed.

(** The code units of a text written from code units are these units, and
    text appended behind them follows them. *)
Lemma units_of_units (us : list Z) (s : string) :
  Forall Utf16.is_unit us ->
  Utf16.units (Utf16.of_units us ++ s) = (us ++ Utf16.units s)%list.
Proof.
  intros Hus.
  destruct (code_points_spec (List.length us) us (le_n _) Hus) as [Hv Hr].
  unfold Utf16.units, Utf16.of_units.
  rewrite decode_of_code_points by exact Hv.
  rewrite flat_map_app, Hr. reflexivity.
Qed.

Lemma decode_range (n : nat) :
  forall s, (String.length s <= n)%nat ->
    Forall (fun cp => 0 <= cp < 2097152) (Utf16.decode s).
Proof.
  induction n as [| n IH]; intros s Hlen.
  - destruct s; [constructor | cbn in Hlen; lia].
  - destruct s as [| c0 s1]; [constructor |].
    cbn [String.length] in Hlen.
    pose proof (byte_range c0) as H0.
    assert (Hone : Forall (fun cp => 0 <= cp < 2097152)
                     (Utf16.byte c0 :: Utf16.decode s1)).
    { constructor; [lia | apply IH; lia]. }
    rewrite decode_eq.
    destruct s1 as [| c1 s2]; [constructor; [lia | constructor] |].
    pose proof (byte_range c1) as H1. cbn [String.length] in Hlen.
    destruct ((192 <=? Utf16.byte c0) && (Utf16.byte c0 <? 224)).
    { constructor; [Z.to_euclidean_division_equations; lia | apply IH; lia]. }
    destruct s2 as [| c2 s3]; [exact Hone |].
    pose proof (byte_range c2) as H2. cbn [String.length] in Hlen.
    destruct ((224 <=? Utf16.byte c0) && (Utf16.byte c0 <? 240)).
    { constructor; [Z.to_euclidean_division_equations; lia | apply IH; lia]. }
    destruct s3 as [| c3 s4]; [exact Hone |].
    pose proof (byte_range c3) as H3. cbn [String.length] in Hlen.
    destruct ((240 <=? Utf16.byte c0) && (Utf16.byte c0 <? 248));
      [| exact Hone].
    constructor; [Z.to_euclidean_division_equations; lia | apply IH; lia].
Qed.

Lemma units_are_units (s : string) : Forall Utf16.is_unit (Utf16.units s).
Proof.
  unfold Utf16.units.
  pose proof (decode_range (String.length s) s (le_n _)) as H.
  induction H as [| cp cps Hcp _ IH]; [constructor |].
  cbn [flat_map]. apply Forall_app. split; [| exact IH].
  unfold Utf16.units_of_code_point, Utf16.is_unit.
  destruct (Z.ltb_spec cp 65536).
  - constructor; [lia | constructor].
  - constructor; [| constructor; [| constructor]];
      Z.to_euclidean_division_equations; lia.
Qed.

(** [s.substring(0, n)] has the first [n] code units of [s], and text
    appended to it follows them. *)
Lemma units_substring0 (n : nat) (s rest : string) :
  Utf16.units (Utf16.substring0 n s ++ rest)
  = (firstn n (Utf16.units s) ++ Utf16.units rest)%list.
Proof.
  unfold Utf16.substring0. apply units_of_units.
  pose proof (units_are_units s) as H. revert n.
  induction H as [| u us Hu _ IH]; intros [| n]; cbn [firstn];
    try constructor; [exact Hu | apply IH].
Qed.

(** C10.  When the backend returns a non-empty list of shared files, the
    delete-link command answers with the selection message and does nothing
    else.  Its keyboard has one row with one delete button for each of the
    first ten files, in order, and a last row with the cancel button: at
    most ten delete buttons, each carrying the object id of its file, and
    none for a file beyond the tenth.  Its text numbers the same first ten
    files from 1 and, when there are more than ten, ends with the count of
    the others.  The label of a button is the filename, or its first 22
    characters followed by ["..."] when the filename is longer than 25;
    characters are counted as the source counts them, in code units. *)
Theorem delete_link_selection (ctx : Ctx unit) (w : World) (m : Machine)
    (f : From) (r : Json) (files : list SharedFile) (m1 : Machine) :
  from ctx = Some f ->
  listSharedFiles (dec (id f)) w m = (Ok r, m1) ->
  data r = Some (DListSharedFiles files) ->
  files <> [] ->
  let shown := firstn 10 files in
  new_calls m1 (snd (on_delete_link_command ctx w m))
  = [TgSendMessage (deleteLinkText files)
       (Some (InlineMarkup (deleteLinkKeyboard files)))]
  /\ deleteLinkKeyboard files
     = (map (fun file => [deleteButton file]) shown ++ [[cancelButton]])%list
  /\ InlineKeyboard.buttons (deleteLinkKeyboard files)
     = (map deleteButton shown ++ [cancelButton])%list
  /\ (List.length shown <= 10)%nat
  /\ List.length shown = Nat.min 10 (List.length files)
  /\ deleteLinkText files
     = "🔗 Your Shared Files" ++ nl ++ nl ++
       "Select a file to delete its shareable link:" ++ nl ++ nl ++
       join nl (mapi deleteLinkLine shown) ++
       (if (10 <? List.length files)%nat
        then nl ++ nl ++ "...and " ++ dec (Z.of_nat (List.length files) - 10)
             ++ " more"
        else "")
  /\ List.length (mapi deleteLinkLine shown) = List.length shown
  /\ (forall i file, nth_error shown i = Some file ->
        nth_error (mapi deleteLinkLine shown) i
        = Some (dec (Z.of_nat i + 1) ++ ". " ++ sf_filename file ++ " ("
                ++ formatFileSize (sf_size file) ++ ")"))
  /\ (forall file, (25 < Utf16.length (sf_filename file))%nat ->
        b_text (deleteButton file)
        = "🗑 " ++ Utf16.substring0 22 (sf_filename file) ++ "..."
        /\ Utf16.units (displayName file)
           = (firstn 22 (Utf16.units (sf_filename file))
              ++ Utf16.units "...")%list
        /\ Utf16.length (displayName file) = 25%nat)
  /\ (forall file, (Utf16.length (sf_filename file) <= 25)%nat ->
        b_text (deleteButton file) = "🗑 " ++ sf_filename file).
Proof.
  intros Hfrom Hlist Hdata Hne. cbv zeta.
  split; [| split; [| split; [| split; [| split; [| split; [| split;
    [| split; [| split]]]]]]]].
  - unfold on_delete_link_command. rewrite (telegramId_of_from ctx f Hfrom).
    unfold bind at 1, try_catch, bind at 1. rewrite Hlist.
    unfold bind at 1, read at 1. rewrite Hdata. cbn [d_files].
    unfold ret at 1, bind at 1, read at 1, ret at 1.
    destruct files as [| file rest]; [contradiction |].
    cbn [List.length Nat.eqb]. unfold ret at 1. cbn [fst snd].
    apply new_calls_app. unfold void, reply, telegram, bind. cbn [log].
    destruct (w_telegram w (log m1) _); reflexivity.
  - apply deleteLinkKeyboard_rows.
  - rewrite deleteLinkKeyboard_rows. unfold InlineKeyboard.buttons.
    rewrite concat_app, concat_singletons. reflexivity.
  - rewrite length_firstn. lia.
  - apply length_firstn.
  - reflexivity.
  - apply mapi_from_length.
  - intros i file Hi. unfold mapi.
    rewrite (mapi_from_nth _ _ 0 i file Hi). unfold deleteLinkLine.
    reflexivity.
  - intros file Hlen. unfold deleteButton, displayName. cbn [b_text].
    apply Nat.ltb_lt in Hlen as Hb. rewrite Hb. split; [reflexivity |].
    assert (Hunits : Utf16.units (Utf16.substring0 22 (sf_filename file) ++ "...")
                     = (firstn 22 (Utf16.units (sf_filename file))
                        ++ Utf16.units "...")%list)
      by apply units_substring0.
    split; [exact Hunits |].
    unfold Utf16.length in *. rewrite Hunits, length_app, length_firstn.
    change (List.length (Utf16.units "...")) with 3%nat. lia.
  - intros file Hlen. unfold deleteButton, displayName. cbn [b_text].
    replace (25 <? Utf16.length (sf_filename file))%nat with false
      by (symmetry; apply Nat.ltb_ge; lia).
    reflexivity.
Qed.

(** Twelve shared files: ten delete buttons and the cancel button. *)
Lemma delete_link_selection_witness :
  new_calls
    (emit (backendCall demoConfig "/api/v1/auth/bot/list-shared-files"
             (PTelegramId "77")) freshMachine)
    (snd (on_delete_link_command (demoCallback 5 tt) (demoWorld [])
            freshMachine))
  = [TgSendMessage (deleteLinkText demoFiles)
       (Some (InlineMarkup (deleteLinkKeyboard demoFiles)))]
  /\ InlineKeyboard.buttons (deleteLinkKeyboard demoFiles)
     = (map deleteButton (firstn 10 demoFiles) ++ [cancelButton])%list.
Proof.
  assert (Hne : demoFiles <> []) by discriminate.
  destruct (delete_link_selection (demoCallback 5 tt) (demoWorld [])
              freshMachine demoFrom demoFilesResponse demoFiles
              (emit (backendCall demoConfig "/api/v1/auth/bot/list-shared-files"
                       (PTelegramId "77")) freshMachine)
              eq_refl eq_refl eq_refl Hne) as (Hreply & _ & Hbuttons & _).
  split; [exact Hreply | exact Hbuttons].
Defined.

Example delete_link_demo_buttons :
  map b_callback_data (InlineKeyboard.buttons (deleteLinkKeyboard demoFiles))
  = ["delete_link:obj-1"; "delete_link:obj-2"; "delete_link:obj-3";
     "delete_link:obj-4"; "delete_link:obj-5"; "delete_link:obj-6";
     "delete_link:obj-7"; "delete_link:obj-8"; "delete_link:obj-9";
     "delete_link:obj-10"; "delete_link:cancel"].
Proof. vm_compute. reflexivity. Qed.

Example delete_link_demo_text :
  deleteLinkText (map demoFile [1; 2; 3; 4; 5; 6; 7; 8; 9; 10; 11])
  = "🔗 Your Shared Files" ++ nl ++ nl ++
    "Select a file to delete its shareable link:" ++ nl ++ nl ++
    "1. file-1.txt (100 B)" ++ nl ++ "2. file-2.txt (200 B)" ++ nl ++
    "3. file-3.txt (300 B)" ++ nl ++ "4. file-4.txt (400 B)" ++ nl ++
    "5. file-5.txt (500 B)" ++ nl ++ "6. file-6.txt (600 B)" ++ nl ++
    "7. file-7.txt (700 B)" ++ nl ++ "8. file-8.txt (800 B)" ++ nl ++
    "9. file-9.txt (900 B)" ++ nl ++ "10. file-10.txt (1000 B)" ++ nl ++ nl ++
    "...and 1 more".
Proof. vm_compute. reflexivity. Qed.

Example displayName_truncates :
  displayName {| sf_fsObjectId := "obj"; sf_filename := "quarterly-report-2025-final.pdf";
                 sf_size := 1; sf_sourceType := "telegram";
                 sf_createdAt := ""; sf_shareCreatedAt := "" |}
  = "quarterly-report-2025-..."
  /\ displayName {| sf_fsObjectId := "obj"; sf_filename := "exactly-25-characters.pdf";
                    sf_size := 1; sf_sourceType := "telegram";
                    sf_createdAt := ""; sf_shareCreatedAt := "" |}
     = "exactly-25-characters.pdf".
Proof. vm_compute. split; reflexivity. Qed.

(** A name of twenty Cyrillic letters has twenty code units and is not
    cut; one of thirty is cut behind its twenty-second letter; and a cut
    that falls inside a pair of surrogates leaves its first half. *)
Example displayName_counts_code_units :
  displayName {| sf_fsObjectId := "obj"; sf_filename := "отчёт-за-квартал.pdf";
                 sf_size := 1; sf_sourceType := "telegram";
                 sf_createdAt := "2025"; sf_shareCreatedAt := "2025" |}
  = "отчёт-за-квартал.pdf"
  /\ displayName {| sf_fsObjectId := "obj";
                    sf_filename := "годовой-отчёт-за-2025-год.pdf";
                    sf_size := 1; sf_sourceType := "telegram";
                    sf_createdAt := "2025"; sf_shareCreatedAt := "2025" |}
     = "годовой-отчёт-за-2025-..."
  /\ Utf16.units
       (displayName {| sf_fsObjectId := "obj";
                       sf_filename := "holiday-pictures-2025-🎉-final.zip";
                       sf_size := 1; sf_sourceType := "telegram";
                       sf_createdAt := "2025"; sf_shareCreatedAt := "2025" |})
     = (Utf16.units "holiday-pictures-2025-" ++ Utf16.units "...")%list
  /\ Utf16.units
       (displayName {| sf_fsObjectId := "obj";
                       sf_filename := "holiday-pictures-2025🎉-final.zip";
                       sf_size := 1; sf_sourceType := "telegram";
                       sf_createdAt := "2025"; sf_shareCreatedAt := "2025" |})
     = (Utf16.units "holiday-pictures-2025" ++ [55356] ++ Utf16.units "...")%list.
Proof. vm_compute. repeat split; reflexivity. Qed.

(** A forwarded contact of another user is rejected; one's own contact
    reaches the backend. *)
Lemma contact_identity_check_witness :
  new_calls freshMachine
    (snd (on_contact (demoContact 5 (Some 88)) (demoWorld []) freshMachine))
  = [TgSendMessage notYourContact (Some RemoveKeyboard)]
  /\ hd_error
       (new_calls freshMachine
          (snd (on_contact (demoContact 5 (Some 77)) (demoWorld []) freshMachine)))
     = Some (updatePhoneCall demoConfig "77" "+15550100").
Proof.
  split.
  - apply (proj1 (contact_identity_check (demoContact 5 (Some 88))
                    (demoWorld []) freshMachine) demoFrom eq_refl).
    discriminate.
  - exact (proj1 (proj2 (contact_identity_check (demoContact 5 (Some 77))
                           (demoWorld []) freshMachine)) demoFrom eq_refl eq_refl).
Defined.

(** The set at its capacity: the 500 oldest identifiers go, the new one
    comes last. *)
Example isProcessed_evicts_oldest_half :
  isProcessed 1001 (idsUpTo 1000)
  = (false, (skipn 500 (idsUpTo 1000) ++ [1001])%list)
  /\ JsSet.size (snd (isProcessed 1001 (idsUpTo 1000))) = 501%nat
  /\ hd_error (snd (isProcessed 1001 (idsUpTo 1000))) = Some 501.
Proof. vm_compute. repeat split; reflexivity. Qed.

(** Deduplication covers the recent window only: identifier 1 is recorded,
    update 1001 evicts it with the oldest half, and update 1 is uploaded
    again. *)
Example upload_again_after_eviction :
  JsSet.has 1 (processedUpdates fullMachine) = true
  /\ JsSet.has 1
       (processedUpdates
          (snd (handle (MessageDocument (demoDocument 1001 2048)) (demoWorld [])
                  fullMachine))) = false
  /\ List.length
       (filter isTransferCall
          (new_calls
             (snd (handle (MessageDocument (demoDocument 1001 2048))
                     (demoWorld []) fullMachine))
             (snd (handle (MessageDocument (demoDocument 1 2048)) (demoWorld [])
                     (snd (handle (MessageDocument (demoDocument 1001 2048))
                             (demoWorld []) fullMachine))))))
     = 6%nat.
Proof. vm_compute. repeat split; reflexivity. Qed.

(** The orchestrator in the concrete world: a complete run, a run whose
    presign step fails, and a run whose confirm step fails. *)
Example fastUploadFile_demo :
  fastUploadFile "77" "AwACAgQ" "a.ogg" "audio/ogg" 2048 (demoWorld [])
    freshMachine
  = (Ok {| shareableLink := Some "https://share.example/obj-1";
           filename := Some "voice.ogg";
           size := Some 2048 |},
     {| processedUpdates := [];
        log := [presignCall demoConfig "77" "a.ogg" "audio/ogg" 2048;
                getFileCall "AwACAgQ";
                downloadCall demoConfig "voice/file_7.oga";
                putCall "https://s3.example/put/obj-1" [Byte.x4f; Byte.x67]
                  "audio/ogg";
                confirmCall demoConfig "77" "obj-1"] |})
  /\ fastUploadFile "77" "AwACAgQ" "a.ogg" "audio/ogg" 2048
       (demoWorld ["/api/v1/auth/bot/get-upload-url"]) freshMachine
     = (Throw (CloudStorageApiError "Service unavailable" 503
                 (Some demoEnvelope)),
        {| processedUpdates := [];
           log := [presignCall demoConfig "77" "a.ogg" "audio/ogg" 2048] |})
  /\ fastUploadFile "77" "AwACAgQ" "a.ogg" "audio/ogg" 2048
       (demoWorld ["/api/v1/auth/bot/complete-upload"]) freshMachine
     = (Throw (CloudStorageApiError "Service unavailable" 503
                 (Some demoEnvelope)),
        {| processedUpdates := [];
           log := [presignCall demoConfig "77" "a.ogg" "audio/ogg" 2048;
                   getFileCall "AwACAgQ";
                   downloadCall demoConfig "voice/file_7.oga";
                   putCall "https://s3.example/put/obj-1" [Byte.x4f; Byte.x67]
                     "audio/ogg";
                   confirmCall demoConfig "77" "obj-1"] |}).
Proof. vm_compute. repeat split; reflexivity. Qed.

(* ================================================================== *)
(** * Further properties of the code *)
(* ================================================================== *)

(* ------------------------------------------------------------------ *)
(** ** How long an identifier stays recorded *)
(* ------------------------------------------------------------------ *)

Lemma isProcessed_wf (v : Z) (s : JsSet.t) :
  JsSet.wf s -> JsSet.wf (snd (isProcessed v s)).
Proof.
  intros Hwf. rewrite isProcessed_unfold by assumption.
  unfold JsSet.wf in *.
  destruct (JsSet.has v s) eqn:Hhas; [assumption |].
  apply has_false_iff in Hhas.
  destruct (MAX_PROCESSED_UPDATES <=? JsSet.size s)%nat; cbn [snd].
  - apply NoDup_snoc; [now apply NoDup_skipn |].
    intros Hin. apply Hhas. rewrite <- (firstn_skipn 500 s).
    apply in_or_app. now right.
  - now apply NoDup_snoc.
Qed.

(** One more call adds at most one identifier behind [u], and does not
    drop [u] as long as fewer than 500 identifiers are behind it. *)
Lemma isProcessed_keeps_recent (u v : Z) (pre post : list Z) :
  JsSet.wf (pre ++ u :: post)%list ->
  (List.length post < 500)%nat ->
  exists pre' post',
    snd (isProcessed v (pre ++ u :: post)%list) = (pre' ++ u :: post')%list
    /\ (List.length post' <= S (List.length post))%nat.
Proof.
  intros Hwf Hpost. rewrite isProcessed_unfold by assumption.
  destruct (JsSet.has v (pre ++ u :: post)%list).
  - exists pre, post. split; [reflexivity | lia].
  - unfold MAX_PROCESSED_UPDATES, JsSet.size.
    destruct (Nat.leb_spec 1000 (List.length (pre ++ u :: post)%list))
      as [Hfull | Hroom]; cbn [snd].
    + rewrite length_app in Hfull. cbn [List.length] in Hfull.
      exists (skipn 500 pre), (post ++ [v])%list. split.
      * rewrite skipn_app.
        replace (500 - List.length pre)%nat with 0%nat by lia.
        cbn [skipn]. rewrite <- app_assoc. reflexivity.
      * rewrite length_app. cbn [List.length]. lia.
    + exists pre, (post ++ [v])%list. split.
      * rewrite <- app_assoc. reflexivity.
      * rewrite length_app. cbn [List.length]. lia.
Qed.

Lemma processAll_keeps_recent (u : Z) (ids : list Z) :
  forall pre post,
    JsSet.wf (pre ++ u :: post)%list ->
    (List.length post + List.length ids <= 500)%nat ->
    In u (processAll ids (pre ++ u :: post)%list).
Proof.
  induction ids as [| v ids IH]; intros pre post Hwf Hlen.
  - cbn. apply in_or_app. right. now left.
  - cbn [processAll fold_left]. cbn [List.length] in Hlen.
    destruct (isProcessed_keeps_recent u v pre post Hwf ltac:(lia))
      as (pre' & post' & Heq & Hpost').
    pose proof (isProcessed_wf v _ Hwf) as Hwf'.
    rewrite Heq in Hwf' |- *.
    apply (IH pre' post' Hwf'). lia.
Qed.

(** X1.  The deduplicator protects a window of 500 calls: an identifier
    that [isProcessed] has just recorded is still recorded after any 500
    further calls, whatever identifiers they are for, so each redelivery
    within that window is answered [true]. *)
Theorem dedup_window (u : Z) (s : JsSet.t) (ids : list Z) :
  JsSet.wf s ->
  ~ In u (JsSet.to_array s) ->
  (List.length ids <= 500)%nat ->
  In u (JsSet.to_array (processAll ids (snd (isProcessed u s))))
  /\ fst (isProcessed u (processAll ids (snd (isProcessed u s)))) = true.
Proof.
  intros Hwf Hnew Hlen. unfold JsSet.to_array in *.
  assert (Hin : In u (processAll ids (snd (isProcessed u s)))).
  { pose proof (isProcessed_wf u s Hwf) as Hwf'.
    rewrite isProcessed_unfold in Hwf' |- * by assumption.
    apply has_false_iff in Hnew. rewrite Hnew in Hwf' |- *.
    destruct (MAX_PROCESSED_UPDATES <=? JsSet.size s)%nat; cbn [snd] in *.
    - apply (processAll_keeps_recent u ids (skipn 500 s) []); [assumption |].
      cbn. lia.
    - apply (processAll_keeps_recent u ids s []); [assumption |].
      cbn. lia. }
  split; [exact Hin |].
  apply has_true_iff in Hin. revert Hin.
  generalize (processAll ids (snd (isProcessed u s))). intros after Hin.
  unfold isProcessed. now rewrite Hin.
Qed.

Lemma dedup_window_witness :
  In 3 (JsSet.to_array (processAll [4; 3; 5] (snd (isProcessed 3 [1; 2]))))
  /\ fst (isProcessed 3 (processAll [4; 3; 5] (snd (isProcessed 3 [1; 2]))))
     = true.
Proof.
  apply (dedup_window 3 [1; 2] [4; 3; 5]).
  - unfold JsSet.wf. repeat constructor; simpl; intuition discriminate.
  - simpl. intuition discriminate.
  - simpl. lia.
Defined.

(** The window is not longer than that: identifier 500 is recorded as the
    500th element, 500 new identifiers fill the set, and the next one
    evicts it. *)
Example dedup_window_is_tight :
  JsSet.has 500 (processAll (map Z.of_nat (seq 501 500)) (idsUpTo 500)) = true
  /\ JsSet.has 500 (processAll (map Z.of_nat (seq 501 501)) (idsUpTo 500))
     = false.
Proof. vm_compute. split; reflexivity. Qed.

(* ------------------------------------------------------------------ *)
(** ** Display names *)
(* ------------------------------------------------------------------ *)

(** X2.  The display name of a sender is never empty.  It is the first and
    last name when both are there; otherwise the first name; without a
    first name it is the username (a last name alone is not used), and
    ["User"] when that is missing too. *)
Theorem getUserDisplayName_cases (f : From) :
  getUserDisplayName f <> ""
  /\ (forall l, first_name f <> "" -> last_name f = Some l -> l <> "" ->
        getUserDisplayName f = first_name f ++ " " ++ l)
  /\ (first_name f <> "" -> truthy (last_name f) = false ->
        getUserDisplayName f = first_name f)
  /\ (forall n, first_name f = "" -> username f = Some n -> n <> "" ->
        getUserDisplayName f = n)
  /\ (first_name f = "" -> truthy (username f) = false ->
        getUserDisplayName f = "User").
Proof.
  unfold getUserDisplayName, or_opt.
  destruct f as [i first last user]; cbn [first_name last_name username].
  destruct first as [| c first]; cbn [truthy andb].
  - split; [| split; [| split; [| split]]].
    + destruct user as [[| c n] |]; cbn; discriminate.
    + intros l H. contradiction.
    + intros H. contradiction.
    + intros n _ Hn Hne. rewrite Hn. destruct n; [contradiction | reflexivity].
    + intros _ Hu. destruct user as [[| c n] |]; cbn in *;
        try reflexivity; discriminate.
  - split; [| split; [| split; [| split]]].
    + destruct last as [[| d l] |]; cbn; discriminate.
    + intros l _ Hl Hne. rewrite Hl. destruct l; [contradiction | reflexivity].
    + intros _ Hl. rewrite Hl. reflexivity.
    + intros n H. discriminate.
    + intros H. discriminate.
Qed.

Lemma getUserDisplayName_cases_witness :
  getUserDisplayName demoFrom = "Ada"
  /\ getUserDisplayName
       {| id := 1; first_name := ""; last_name := Some "Lovelace";
          username := Some "ada_l" |} = "ada_l".
Proof.
  split.
  - apply (proj1 (proj2 (proj2 (getUserDisplayName_cases demoFrom))));
      [discriminate | reflexivity].
  - apply (proj1 (proj2 (proj2 (proj2
             (getUserDisplayName_cases
                {| id := 1; first_name := ""; last_name := Some "Lovelace";
                   username := Some "ada_l" |})))) "ada_l");
      [reflexivity | reflexivity | discriminate].
Defined.

(* ------------------------------------------------------------------ *)
(** ** Fetching the bytes from the messaging provider *)
(* ------------------------------------------------------------------ *)

(** X3.  [downloadTelegramFile] returns bytes only as the body of a
    response with a status in 200-299 to the GET of the path that [getFile]
    named, and has then made exactly these two calls.  When [getFile] names
    no path (none, or an empty one) it throws after that one call: no
    download is attempted. *)
Theorem downloadTelegramFile_bytes (fileId : string) (w : World) (m : Machine) :
  (forall buf m',
     downloadTelegramFile fileId w m = (Ok buf, m') ->
     exists path r,
       w_getFile w (log m) fileId = inr (Some path)
       /\ path <> ""
       /\ w_fetch w (log m ++ [getFileCall fileId])%list
            ("https://api.telegram.org/file/bot" ++ botToken (config w) ++ "/"
             ++ path) plainGet = inr r
       /\ ok r = true
       /\ buf = arrayBuffer r
       /\ log m' = (log m ++ [getFileCall fileId;
                              downloadCall (config w) path])%list)
  /\ (forall p,
        w_getFile w (log m) fileId = inr p -> truthy p = false ->
        downloadTelegramFile fileId w m
        = (Throw (JsError "Could not get file path from Telegram"),
           emit (getFileCall fileId) m)).
Proof.
  split.
  - intros buf m' Hrun.
    unfold downloadTelegramFile, bind, getFile in Hrun.
    destruct (w_getFile w (log m) fileId) as [e | p]; cbn in Hrun;
      [discriminate |].
    unfold nonempty in Hrun.
    destruct p as [[| c path] |]; cbn in Hrun; try discriminate.
    exists (String c path).
    destruct (w_fetch w _ _ _) as [e | r] eqn:Hfetch; cbn in Hrun;
      [discriminate |].
    exists r. destruct (ok r) eqn:Hok; cbn in Hrun; [| discriminate].
    injection Hrun as <- <-.
    repeat split; try reflexivity; try discriminate.
    cbn. rewrite <- app_assoc. reflexivity.
  - intros p Hp Hfalsy.
    unfold downloadTelegramFile, bind, getFile. rewrite Hp. cbn [of_sum].
    unfold nonempty. rewrite Hfalsy. reflexivity.
Qed.

Lemma downloadTelegramFile_bytes_witness :
  exists path r,
    w_getFile (demoWorld []) [] "AwACAgQ" = inr (Some path)
    /\ path <> ""
    /\ w_fetch (demoWorld []) ([] ++ [getFileCall "AwACAgQ"])%list
         ("https://api.telegram.org/file/bot" ++ botToken demoConfig ++ "/"
          ++ path) plainGet = inr r
    /\ ok r = true
    /\ [Byte.x4f; Byte.x67] = arrayBuffer r
    /\ [getFileCall "AwACAgQ"; downloadCall demoConfig "voice/file_7.oga"]
       = ([] ++ [getFileCall "AwACAgQ"; downloadCall demoConfig path])%list.
Proof.
  exact (proj1 (downloadTelegramFile_bytes "AwACAgQ" (demoWorld []) freshMachine)
           [Byte.x4f; Byte.x67]
           {| processedUpdates := [];
              log := [getFileCall "AwACAgQ";
                      downloadCall demoConfig "voice/file_7.oga"] |}
           eq_refl).
Defined.

(* ------------------------------------------------------------------ *)
(** ** One request per operation *)
(* ------------------------------------------------------------------ *)



(* ------------------------------------------------------------------ *)
(** ** A body that is not JSON *)
(* ------------------------------------------------------------------ *)

(** X5.  [request] reads the body as JSON before it looks at the status.
    When the body of the answer is not JSON the request fails with the
    parse error, for an error status as for a success status: the caller
    gets no [CloudStorageApiError] and so no status code. *)
Theorem request_body_not_json (endpoint : string) (payload : Payload)
    (w : World) (m : Machine) (r : Response) :
  w_fetch w (log m) (backendUrl (config w) endpoint)
    (backendInit (config w) payload) = inr r ->
  json r = None ->
  exists text,
    request endpoint (post payload) w m
    = (Throw (JsError text), emit (backendCall (config w) endpoint payload) m)
    /\ forall message code envelope,
         fst (request endpoint (post payload) w m)
         <> Throw (CloudStorageApiError message code envelope).
Proof.
  intros Hfetch Hjson. rewrite request_run. unfold requestOutcome.
  rewrite Hfetch, Hjson. eexists. split; [reflexivity |].
  intros message code envelope. cbn. discriminate.
Qed.

(** A gateway answers 502 with a page of HTML to the delete-account call:
    the caller sees a plain error. *)
Lemma request_body_not_json_witness :
  exists text,
    request "/api/v1/auth/unknown" (post (PTelegramId "77"))
      (demoWorld []) freshMachine
    = (Throw (JsError text),
       emit (backendCall demoConfig "/api/v1/auth/unknown" (PTelegramId "77"))
         freshMachine)
    /\ forall message code envelope,
         fst (request "/api/v1/auth/unknown"
                (post (PTelegramId "77")) (demoWorld []) freshMachine)
         <> Throw (CloudStorageApiError message code envelope).
Proof.
  exact (request_body_not_json "/api/v1/auth/unknown"
           (PTelegramId "77") (demoWorld []) freshMachine
           {| status := 404; statusText := "Not Found"; arrayBuffer := [];
              json := None |} eq_refl eq_refl).
Defined.

(* ------------------------------------------------------------------ *)
(** ** Registration as a side step *)
(* ------------------------------------------------------------------ *)

(** X6.  [ensureUserRegistered] never throws.  It makes the one
    [create-user] request for the sender, answers [true] exactly when that
    request succeeded, and writes to the console exactly when it did not.
    The request has succeeded when the answer has a status in 200-299 and a
    body that is JSON: the body is not read, so it need not hold any
    [data]. *)
Theorem ensureUserRegistered_contained (telegramId : string)
    (userName : option string) (w : World) (m : Machine) :
  let create :=
    backendCall (config w) "/api/v1/auth/bot/create-user"
      (PCreateUser telegramId userName None) in
  exists registered,
    fst (ensureUserRegistered telegramId userName w m) = Ok registered
    /\ (registered = true <->
        exists r, fst (createUser telegramId userName None w m) = Ok r)
    /\ (forall r j,
          w_fetch w (log m)
            (backendUrl (config w) "/api/v1/auth/bot/create-user")
            (backendInit (config w) (PCreateUser telegramId userName None))
          = inr r ->
          ok r = true -> json r = Some j -> registered = true)
    /\ (if registered
        then log (snd (ensureUserRegistered telegramId userName w m))
             = (log m ++ [create])%list
        else exists e,
               fst (createUser telegramId userName None w m) = Throw e
               /\ log (snd (ensureUserRegistered telegramId userName w m))
                  = (log m ++ [create;
                               ConsoleError "Error ensuring user registration:"
                                 e])%list).
Proof.
  cbv zeta.
  pose proof (ensureUserRegistered_run telegramId userName w m) as Hrun.
  pose proof (request_machine "/api/v1/auth/bot/create-user"
                (PCreateUser telegramId userName None) w m) as Hm.
  fold (createUser telegramId userName None) in Hm.
  destruct (createUser telegramId userName None w m) as [[r | e] m1] eqn:Hcreate;
    cbn [snd] in Hm; subst m1; rewrite Hrun; cbn [fst snd].
  - exists true. split; [reflexivity |]. split; [| split; [| reflexivity]].
    + split; [intros _; now exists r | reflexivity].
    + reflexivity.
  - exists false. split; [reflexivity |]. split; [| split].
    + split; [discriminate | intros [r Hr]; discriminate].
    + intros r j Hfetch Hok Hjson. unfold createUser in Hcreate.
      rewrite (request_resolves _ _ w m r j Hfetch Hok Hjson) in Hcreate.
      discriminate.
    + exists e. split; [reflexivity |]. cbn. rewrite <- app_assoc. reflexivity.
Qed.

(** A registration that is answered 200 without [data] has succeeded: the
    answer is not read. *)
Example ensureUserRegistered_without_data :
  ensureUserRegistered "77" (Some "Ada") datalessWorld freshMachine
  = (Ok true,
     emit (backendCall demoConfig "/api/v1/auth/bot/create-user"
             (PCreateUser "77" (Some "Ada") None)) freshMachine).
Proof. vm_compute. reflexivity. Qed.

(* ------------------------------------------------------------------ *)
(** ** Errors stay inside the handlers *)
(* ------------------------------------------------------------------ *)

Lemma contained_ret {A : Type} (a : A) : contained (ret a).
Proof. intros w m _. now exists a. Qed.

Lemma contained_bind {A B : Type} (c : M A) (k : A -> M B) :
  contained c -> (forall a, contained (k a)) -> contained (bind c k).
Proof.
  intros Hc Hk w m Hw. unfold bind.
  destruct (Hc w m Hw) as [a Ha].
  destruct (c w m) as [[a' | e] m1]; cbn [fst] in Ha; [| discriminate].
  apply (Hk a' w m1 Hw).
Qed.

(** A [try] whose [catch] block is contained is contained, whatever the
    [try] block throws. *)
Lemma contained_try_catch {A : Type} (c : M A) (h : Exn -> M A) :
  (forall e, contained (h e)) -> contained (try_catch c h).
Proof.
  intros Hh w m Hw. unfold try_catch.
  destruct (c w m) as [[a | e] m1].
  - now exists a.
  - apply (Hh e w m1 Hw).
Qed.

Lemma contained_telegram (c : Call) : contained (telegram c).
Proof.
  intros w m Hw. unfold telegram. destruct (Hw (log m) c) as [k Hk].
  exists k. cbn. now rewrite Hk.
Qed.

Lemma contained_console_log (text : string) : contained (console_log text).
Proof. intros w m _. now exists tt. Qed.

Lemma contained_console_error (text : string) (e : Exn) :
  contained (console_error text e).
Proof. intros w m _. now exists tt. Qed.

Lemma contained_date_now : contained date_now.
Proof. intros w m _. eexists. reflexivity. Qed.

Lemma contained_isProcessedM (u : Z) : contained (isProcessedM u).
Proof.
  intros w m _. unfold isProcessedM.
  destruct (isProcessed u (processedUpdates m)) as [answer set'].
  now exists answer.
Qed.

Create HintDb contained.
#[local] Hint Resolve contained_ret contained_telegram contained_console_log
  contained_console_error contained_date_now contained_isProcessedM
  : contained.

Ltac contained_step :=
  match goal with
  | |- contained (bind _ _) => apply contained_bind; [| intros ?]
  | |- contained (try_catch _ _) => apply contained_try_catch; intros ?
  | |- contained (if ?b then _ else _) => destruct b
  | |- contained (match ?x with _ => _ end) => destruct x
  | |- contained _ => solve [auto with contained]
  end.

Ltac contained_tac := repeat contained_step.

Lemma contained_reply (text : string) (markup : option ReplyMarkup) :
  contained (reply text markup).
Proof. unfold reply. contained_tac. Qed.

Lemma contained_void {A : Type} (c : M A) : contained c -> contained (void c).
Proof. intros H. unfold void. contained_tac. Qed.

Lemma contained_editMessageText (target : EditTarget) (text : string) :
  contained (editMessageText target text).
Proof. unfold editMessageText, void. contained_tac. Qed.

Lemma contained_answerCallbackQuery (text : option string) (alert : bool) :
  contained (answerCallbackQuery text alert).
Proof. unfold answerCallbackQuery, void. contained_tac. Qed.

Lemma contained_nameOrStamp (name : option string) (stem ext : string) :
  contained (nameOrStamp name stem ext).
Proof. unfold nameOrStamp. contained_tac. Qed.

#[local] Hint Resolve contained_reply contained_void contained_editMessageText
  contained_answerCallbackQuery contained_nameOrStamp : contained.

Lemma contained_handle (u : Update) : contained (handle u).
Proof.
  destruct u; cbn [handle];
    unfold on_document, on_photo, on_video, on_audio, on_voice, on_contact,
      on_confirm_delete_account, on_delete_link_callback;
    cbv zeta; contained_tac.
Qed.

Lemma contained_handleCommand (c : Command) : contained (handleCommand c).
Proof.
  destruct c; cbn [handleCommand];
    unfold on_help, on_delete_account_command, on_delete_link_command,
      on_cancel_delete_account, on_text;
    cbv zeta; contained_tac.
Qed.

Lemma botApiAnswers_demo (failing : list string) :
  botApiAnswers (demoWorld failing).
Proof. intros history c. now exists 42. Qed.

(** X7.  No error of the backend, of the object storage or of the file
    download leaves a handler.  In a world where the Bot API accepts the
    messages, edits and answers of the bot, every handler (the five
    uploads, the contact, the two state-changing button presses, and the
    help, delete-account, delete-link, cancel and fallback handlers) ends
    normally, whatever all other calls answer. *)
Theorem handlers_contain_errors (i : Incoming) (w : World) (m : Machine) :
  botApiAnswers w -> fst (handleIncoming i w m) = Ok tt.
Proof.
  intros Hw.
  assert (H : contained (handleIncoming i)).
  { destruct i; cbn [handleIncoming];
      [apply contained_handle | apply contained_handleCommand]. }
  destruct (H w m Hw) as [[] Ha]. exact Ha.
Qed.

(** Every endpoint of the backend is down, and the upload handler still
    ends normally. *)
Lemma handlers_contain_errors_witness :
  fst (handleIncoming (StateChanging (MessageDocument (demoDocument 7 2048)))
         (demoWorld ["/api/v1/auth/bot/create-user";
                     "/api/v1/auth/bot/get-upload-url"]) freshMachine)
  = Ok tt.
Proof.
  apply (handlers_contain_errors
           (StateChanging (MessageDocument (demoDocument 7 2048)))
           (demoWorld ["/api/v1/auth/bot/create-user";
                       "/api/v1/auth/bot/get-upload-url"]) freshMachine).
  intros history c. exists 42. reflexivity.
Defined.

(* ------------------------------------------------------------------ *)
(** ** A sender that cannot be identified *)
(* ------------------------------------------------------------------ *)

(** X8.  An update without a sender gets the "could not identify" text
    and nothing else happens: the handlers of the uploads (for an
    identifier not seen before), of the contact and of the two
    state-changing button presses make that one call, and none to the
    backend, the storage or the file service. *)
Theorem missing_sender_refused (u : Update) (w : World) (m : Machine) :
  senderOf u = None ->
  ~ In (updateId u) (processedUpdates m) ->
  new_calls m (snd (handle u w m)) = [identityRefusal u]
  /\ filter isTransferCall (new_calls m (snd (handle u w m))) = [].
Proof.
  intros Hfrom Hfresh.
  assert (H : new_calls m (snd (handle u w m)) = [identityRefusal u]).
  { apply new_calls_app.
    destruct u; cbn [handle senderOf updateId identityRefusal] in *;
      unfold on_document, on_photo, on_video, on_audio, on_voice, on_contact,
        on_confirm_delete_account, on_delete_link_callback;
      try (unfold bind at 1; rewrite (isProcessedM_fresh _ w m Hfresh));
      rewrite (telegramId_of_none ctx Hfrom);
      unfold void, reply, answerCallbackQuery, void, telegram, bind; cbn;
      destruct (w_telegram w _ _); reflexivity. }
  rewrite H. split; [reflexivity |].
  destruct u; reflexivity.
Qed.

Lemma missing_sender_refused_witness :
  new_calls freshMachine
    (snd (handle (CallbackConfirmDeleteAccount
                    {| update_id := 5; from := None; chat_id := 9;
                       message := tt |}) (demoWorld []) freshMachine))
  = [TgAnswerCallbackQuery (Some "Could not identify your account.") false].
Proof.
  apply (missing_sender_refused
           (CallbackConfirmDeleteAccount
              {| update_id := 5; from := None; chat_id := 9; message := tt |})
           (demoWorld []) freshMachine eq_refl).
  simpl. tauto.
Defined.

(** The size guard of the document handler at work. *)
Lemma oversize_rejected_witness :
  new_calls freshMachine
    (snd (handle (MessageDocument (demoDocument 7 20971521)) (demoWorld [])
            freshMachine))
  = [TgSendMessage fileTooLarge None].
Proof.
  apply (oversize_rejected (MessageDocument (demoDocument 7 20971521))
           (demoWorld []) freshMachine demoFrom 20971521 fileTooLarge
           eq_refl).
  - simpl. tauto.
  - reflexivity.
  - reflexivity.
  - reflexivity.
Defined.

(* ------------------------------------------------------------------ *)
(** ** The log only grows *)
(* ------------------------------------------------------------------ *)

Lemma grows_ret {A : Type} (a : A) : grows (ret a).
Proof. intros w m. exists []. cbn. now rewrite app_nil_r. Qed.

Lemma grows_throw {A : Type} (e : Exn) : grows (@throw A e).
Proof. intros w m. exists []. cbn. now rewrite app_nil_r. Qed.

Lemma grows_bind {A B : Type} (c : M A) (k : A -> M B) :
  grows c -> (forall a, grows (k a)) -> grows (bind c k).
Proof.
  intros Hc Hk w m. unfold bind. destruct (Hc w m) as [l1 H1].
  destruct (c w m) as [[a | e] m1]; cbn [snd] in *.
  - destruct (Hk a w m1) as [l2 H2]. exists (l1 ++ l2)%list.
    now rewrite H2, H1, app_assoc.
  - now exists l1.
Qed.

Lemma grows_try_catch {A : Type} (c : M A) (h : Exn -> M A) :
  grows c -> (forall e, grows (h e)) -> grows (try_catch c h).
Proof.
  intros Hc Hh w m. unfold try_catch. destruct (Hc w m) as [l1 H1].
  destruct (c w m) as [[a | e] m1]; cbn [snd] in *.
  - now exists l1.
  - destruct (Hh e w m1) as [l2 H2]. exists (l1 ++ l2)%list.
    now rewrite H2, H1, app_assoc.
Qed.

Lemma grows_emit {A : Type} (c : M A) (call : Call) :
  (forall w m, snd (c w m) = emit call m) -> grows c.
Proof. intros H w m. exists [call]. now rewrite H. Qed.

Lemma grows_still {A : Type} (c : M A) :
  (forall w m, log (snd (c w m)) = log m) -> grows c.
Proof. intros H w m. exists []. now rewrite H, app_nil_r. Qed.

Lemma grows_fetch (url : string) (init : FetchInit) : grows (fetch url init).
Proof. now apply (grows_emit _ (Fetch url init)). Qed.

Lemma grows_getFile (fileId : string) : grows (getFile fileId).
Proof. now apply (grows_emit _ (TgGetFile fileId)). Qed.

Lemma grows_telegram (c : Call) : grows (telegram c).
Proof. now apply (grows_emit _ c). Qed.

Lemma grows_console_log (text : string) : grows (console_log text).
Proof. now apply (grows_emit _ (ConsoleLog text)). Qed.

Lemma grows_console_error (text : string) (e : Exn) :
  grows (console_error text e).
Proof. now apply (grows_emit _ (ConsoleError text e)). Qed.

Lemma grows_ask_config : grows ask_config.
Proof. now apply grows_still. Qed.

Lemma grows_date_now : grows date_now.
Proof. now apply grows_still. Qed.

Create HintDb grows.
#[local] Hint Resolve grows_ret grows_throw grows_fetch grows_getFile
  grows_telegram grows_console_log grows_console_error grows_ask_config
  grows_date_now : grows.

Ltac grows_step :=
  match goal with
  | |- grows (bind _ _) => apply grows_bind; [| intros ?]
  | |- grows (try_catch _ _) => apply grows_try_catch; [| intros ?]
  | |- grows (if ?b then _ else _) => destruct b
  | |- grows (match ?x with _ => _ end) => destruct x
  | |- grows _ => solve [auto with grows]
  end.

Ltac grows_tac := repeat grows_step.

Lemma grows_request (endpoint : string) (options : FetchInit) :
  grows (request endpoint options).
Proof. unfold request, response_json. grows_tac. Qed.

Lemma grows_read {A B : Type} (name : string) (member : A -> B)
    (value : option A) : grows (read name member value).
Proof. unfold read. grows_tac. Qed.

Lemma grows_void {A : Type} (c : M A) : grows c -> grows (void c).
Proof. intros H. unfold void. grows_tac. Qed.

#[local] Hint Resolve grows_request grows_read grows_void : grows.

Lemma grows_fastUploadFile (telegramId fileId filename contentType : string)
    (fileSize : Z) :
  grows (fastUploadFile telegramId fileId filename contentType fileSize).
Proof.
  unfold fastUploadFile, getUploadUrl, completeUpload, downloadTelegramFile,
    uploadToS3.
  grows_tac.
Qed.

Lemma grows_reply (text : string) (markup : option ReplyMarkup) :
  grows (reply text markup).
Proof. unfold reply. grows_tac. Qed.

Lemma grows_editMessageText (target : EditTarget) (text : string) :
  grows (editMessageText target text).
Proof. unfold editMessageText. grows_tac. Qed.

Lemma grows_answerCallbackQuery (text : option string) (alert : bool) :
  grows (answerCallbackQuery text alert).
Proof. unfold answerCallbackQuery. grows_tac. Qed.

#[local] Hint Resolve grows_fastUploadFile grows_reply grows_editMessageText
  grows_answerCallbackQuery : grows.

(** A [try] block that opens with one call: that call is the first entry
    the statement adds to the log, whatever happens next. *)
Lemma try_catch_first {A B : Type} (c : M A) (k : A -> M B) (h : Exn -> M B)
    (call : Call) (w : World) (m : Machine) :
  snd (c w m) = emit call m ->
  (forall a, grows (k a)) -> (forall e, grows (h e)) ->
  exists rest,
    log (snd (try_catch (bind c k) h w m)) = (log m ++ call :: rest)%list.
Proof.
  intros Hc Hk Hh. unfold try_catch, bind.
  destruct (c w m) as [[a | e] m1]; cbn [snd] in Hc; subst m1.
  - destruct (Hk a w (emit call m)) as [l1 H1].
    destruct (k a w (emit call m)) as [[b | e] m2]; cbn [snd] in *.
    + exists l1. rewrite H1. cbn. now rewrite <- app_assoc.
    + destruct (Hh e w m2) as [l2 H2]. exists (l1 ++ l2)%list.
      rewrite H2, H1. cbn. now rewrite <- !app_assoc.
  - destruct (Hh e w (emit call m)) as [l2 H2]. exists l2.
    rewrite H2. cbn. now rewrite <- app_assoc.
Qed.

(* ------------------------------------------------------------------ *)
(** ** Pressing a delete button *)
(* ------------------------------------------------------------------ *)



(* ------------------------------------------------------------------ *)
(** ** The two sides of the size limit *)
(* ------------------------------------------------------------------ *)

Lemma bind_first {A B : Type} (c : M A) (k : A -> M B) (call : Call)
    (w : World) (m : Machine) :
  snd (c w m) = emit call m -> (forall a, grows (k a)) ->
  exists rest, log (snd (bind c k w m)) = (log m ++ call :: rest)%list.
Proof.
  intros Hc Hk. unfold bind.
  destruct (c w m) as [[a | e] m1]; cbn [snd] in Hc; subst m1.
  - destruct (Hk a w (emit call m)) as [l1 H1]. exists l1.
    rewrite H1. cbn. now rewrite <- app_assoc.
  - exists []. reflexivity.
Qed.

Lemma grows_ensureUserRegistered (telegramId : string)
    (userName : option string) :
  grows (ensureUserRegistered telegramId userName).
Proof. unfold ensureUserRegistered, createUser. grows_tac. Qed.

#[local] Hint Resolve grows_ensureUserRegistered : grows.

Lemma reply_machine (text : string) (markup : option ReplyMarkup) (w : World)
    (m : Machine) :
  snd (reply text markup w m) = emit (TgSendMessage text markup) m.
Proof. reflexivity. Qed.

(** X10.  The size guard of the document, video and audio handlers, for an
    update with a sender and an identifier not seen before.  A declared
    size above 20 MiB is answered with the "too large" text of the kind and
    nothing else is done.  A declared size of exactly 20 MiB or less (a
    missing size counts as 0) passes: the first call is the "Uploading"
    announcement. *)
Theorem size_guard_threshold (u : Update) (w : World) (m : Machine) (f : From)
    (sz : Z) (text : string) :
  tooLargeText u = Some text ->
  ~ In (updateId u) (processedUpdates m) ->
  senderOf u = Some f ->
  declaredSize u = Some sz ->
  (sz > 20 * 1024 * 1024 ->
   new_calls m (snd (handle u w m)) = [TgSendMessage text None])
  /\ (sz <= 20 * 1024 * 1024 ->
      exists announcement,
        hd_error (new_calls m (snd (handle u w m)))
        = Some (TgSendMessage announcement None)
        /\ String.prefix "📤 Uploading" announcement = true).
Proof.
  intros Htext Hfresh Hfrom Hsize. split.
  - intros Hbig. exact (oversize_rejected u w m f sz text Htext Hfresh Hfrom
                          Hsize Hbig).
  - intros Hsmall.
    assert (Hfirst : forall (t : string) (rest : Z -> M unit) (m0 : Machine),
              log m0 = log m ->
              (forall a, grows (rest a)) ->
              String.prefix "📤 Uploading" t = true ->
              exists announcement,
                hd_error (new_calls m (snd (bind (reply t None) rest w m0)))
                = Some (TgSendMessage announcement None)
                /\ String.prefix "📤 Uploading" announcement = true).
    { intros t rest m0 Hm0 Hrest Ht. exists t. split; [| exact Ht].
      destruct (bind_first (reply t None) rest (TgSendMessage t None) w m0
                  (reply_machine t None w m0) Hrest) as [others Hlog].
      rewrite Hm0 in Hlog. exact (new_calls_head m _ _ others Hlog). }
    destruct u; try discriminate;
      cbn [handle updateId senderOf declaredSize] in *;
      injection Hsize as <-;
      unfold on_document, on_video, on_audio;
      unfold bind at 1; rewrite (isProcessedM_fresh _ w m Hfresh);
      rewrite (telegramId_of_from ctx f Hfrom); cbv zeta.
    + replace (or_zero (file_size (message ctx)) >? 20 * 1024 * 1024)
        with false
        by (symmetry; rewrite Z.gtb_ltb; apply Z.ltb_ge; lia).
      apply Hfirst; [reflexivity | intros a; grows_tac | reflexivity].
    + unfold bind at 1, nameOrStamp.
      replace (or_zero (file_size (message ctx)) >? 20 * 1024 * 1024)
        with false
        by (symmetry; rewrite Z.gtb_ltb; apply Z.ltb_ge; lia).
      destruct (nonempty (file_name (message ctx)));
        [unfold ret at 1 | unfold bind at 1, date_now, ret at 1];
        apply Hfirst; try reflexivity; intros a; grows_tac.
    + unfold bind at 1, nameOrStamp.
      replace (or_zero (file_size (message ctx)) >? 20 * 1024 * 1024)
        with false
        by (symmetry; rewrite Z.gtb_ltb; apply Z.ltb_ge; lia).
      destruct (nonempty (file_name (message ctx)));
        [unfold ret at 1 | unfold bind at 1, date_now, ret at 1];
        apply Hfirst; try reflexivity; intros a; grows_tac.
Qed.

Lemma size_guard_threshold_witness :
  new_calls freshMachine
    (snd (handle (MessageDocument (demoDocument 7 20971521)) (demoWorld [])
            freshMachine))
  = [TgSendMessage fileTooLarge None]
  /\ exists announcement,
       hd_error
         (new_calls freshMachine
            (snd (handle (MessageDocument (demoDocument 7 20971520))
                    (demoWorld []) freshMachine)))
       = Some (TgSendMessage announcement None)
       /\ String.prefix "📤 Uploading" announcement = true.
Proof.
  assert (Hfresh : ~ In 7 (processedUpdates freshMachine)) by (simpl; tauto).
  split.
  - apply (proj1 (size_guard_threshold
                    (MessageDocument (demoDocument 7 20971521)) (demoWorld [])
                    freshMachine demoFrom 20971521 fileTooLarge eq_refl Hfresh
                    eq_refl eq_refl)).
    reflexivity.
  - apply (proj2 (size_guard_threshold
                    (MessageDocument (demoDocument 7 20971520)) (demoWorld [])
                    freshMachine demoFrom 20971520 fileTooLarge eq_refl Hfresh
                    eq_refl eq_refl)).
    vm_compute. discriminate.
Defined.

(* ------------------------------------------------------------------ *)
(** ** What a document declares to the backend *)
(* ------------------------------------------------------------------ *)

Lemma try_catch_bind_ok {A B : Type} (c : M A) (k : A -> M B)
    (h : Exn -> M B) (w : World) (m : Machine) (a : A) (m1 : Machine) :
  c w m = (Ok a, m1) -> try_catch (bind c k) h w m = try_catch (k a) h w m1.
Proof. intros H. unfold try_catch, bind. now rewrite H. Qed.

Lemma try_catch_first2 {A B C : Type} (c : M A) (k1 : A -> M B)
    (k2 : B -> M C) (h : Exn -> M C) (call : Call) (w : World) (m : Machine) :
  snd (c w m) = emit call m ->
  (forall a, grows (k1 a)) -> (forall b, grows (k2 b)) ->
  (forall e, grows (h e)) ->
  exists rest,
    log (snd (try_catch (bind (bind c k1) k2) h w m))
    = (log m ++ call :: rest)%list.
Proof.
  intros Hc H1 H2 Hh.
  destruct (try_catch_first c (fun a => bind (k1 a) k2) h call w m Hc)
    as [rest Hrest]; [intros a; now apply grows_bind | assumption |].
  exists rest. rewrite <- Hrest. unfold try_catch, bind.
  destruct (c w m) as [[a | e] m1]; reflexivity.
Qed.

(** X11.  A document that is accepted (sender [f], identifier not seen
    before, declared size within the limit, announcement delivered) is
    followed by the registration of [f] under their display name and then,
    whether or not the registration worked, by the presign request.  That
    request declares the name, the content type and the size of the
    document, and where the update has none of them, ["unnamed_file"],
    ["application/octet-stream"] and [0]. *)
Theorem document_request_defaults (ctx : Ctx TgFile) (w : World) (m : Machine)
    (f : From) (statusMsg : Z) :
  ~ In (update_id ctx) (processedUpdates m) ->
  from ctx = Some f ->
  or_zero (file_size (message ctx)) <= 20 * 1024 * 1024 ->
  w_telegram w (log m) (TgSendMessage (documentStatusText ctx) None)
  = inr statusMsg ->
  exists mid rest,
    new_calls m (snd (on_document ctx w m))
    = TgSendMessage (documentStatusText ctx) None
      :: backendCall (config w) "/api/v1/auth/bot/create-user"
           (PCreateUser (dec (id f)) (Some (getUserDisplayName f)) None)
      :: (mid ++
          presignCall (config w) (dec (id f))
            (or_else (file_name (message ctx)) "unnamed_file")
            (or_else (mime_type (message ctx)) "application/octet-stream")
            (or_zero (file_size (message ctx)))
          :: rest)%list
    /\ (mid = []
        \/ exists e, mid = [ConsoleError "Error ensuring user registration:" e]).
Proof.
  intros Hfresh Hfrom Hsize Hstatus.
  rewrite (on_document_accepted ctx w m f statusMsg Hfresh Hfrom Hsize Hstatus).
  pose proof (ensureUserRegistered_run (dec (id f))
                (Some (getUserDisplayName f)) w (afterStatus ctx m)) as Hreg.
  pose proof (request_machine "/api/v1/auth/bot/create-user"
                (PCreateUser (dec (id f)) (Some (getUserDisplayName f)) None)
                w (afterStatus ctx m)) as Hm1.
  fold (createUser (dec (id f)) (Some (getUserDisplayName f)) None) in Hm1.
  destruct (createUser (dec (id f)) (Some (getUserDisplayName f)) None w
              (afterStatus ctx m)) as [[r | e] m1];
    cbn [snd] in Hm1; subst m1;
    rewrite (try_catch_bind_ok _ _ _ _ _ _ _ Hreg); cbv beta;
    unfold fastUploadFile, getUploadUrl.
  - match goal with
    | |- context [try_catch (bind (bind ?c ?k1) ?k2) ?h ?w0 ?m0] =>
        destruct (try_catch_first2 c k1 k2 h
                    (presignCall (config w) (dec (id f)) (documentName ctx)
                       (documentMime ctx) (documentSize ctx)) w0 m0)
          as [rest Hrest];
          [ apply request_machine
          | intros a; unfold downloadTelegramFile, uploadToS3,
              completeUpload; grows_tac
          | intros b; grows_tac
          | intros e0; grows_tac | ]
    end.
    exists [], rest. split; [| now left].
    apply new_calls_app. rewrite Hrest. cbn. rewrite <- !app_assoc. reflexivity.
  - match goal with
    | |- context [try_catch (bind (bind ?c ?k1) ?k2) ?h ?w0 ?m0] =>
        destruct (try_catch_first2 c k1 k2 h
                    (presignCall (config w) (dec (id f)) (documentName ctx)
                       (documentMime ctx) (documentSize ctx)) w0 m0)
          as [rest Hrest];
          [ apply request_machine
          | intros a; unfold downloadTelegramFile, uploadToS3,
              completeUpload; grows_tac
          | intros b; grows_tac
          | intros e0; grows_tac | ]
    end.
    exists [ConsoleError "Error ensuring user registration:" e], rest.
    split; [| right; now exists e].
    apply new_calls_app. rewrite Hrest. cbn. rewrite <- !app_assoc. reflexivity.
Qed.

(** A document without a name, a type or a size, and a backend that
    refuses the registration. *)
Lemma document_request_defaults_witness :
  exists mid rest,
    new_calls freshMachine
      (snd (on_document
              {| update_id := 7; from := Some demoFrom; chat_id := 9;
                 message := {| file_id := "BQACAgQ"; file_name := None;
                               mime_type := None; file_size := None |} |}
              (demoWorld ["/api/v1/auth/bot/create-user"]) freshMachine))
    = TgSendMessage
        ("📤 Uploading " ++ dq ++ "unnamed_file" ++ dq ++ "..." ++ nl ++
         "Size: 0 B") None
      :: backendCall demoConfig "/api/v1/auth/bot/create-user"
           (PCreateUser "77" (Some "Ada") None)
      :: (mid ++
          presignCall demoConfig "77" "unnamed_file" "application/octet-stream"
            0
          :: rest)%list
    /\ (mid = []
        \/ exists e, mid = [ConsoleError "Error ensuring user registration:" e]).
Proof.
  refine (document_request_defaults
            {| update_id := 7; from := Some demoFrom; chat_id := 9;
               message := {| file_id := "BQACAgQ"; file_name := None;
                             mime_type := None; file_size := None |} |}
            (demoWorld ["/api/v1/auth/bot/create-user"]) freshMachine demoFrom
            42 _ eq_refl _ eq_refl).
  - simpl. tauto.
  - vm_compute. discriminate.
Defined.

(* ------------------------------------------------------------------ *)
(** ** Deleting the account *)
(* ------------------------------------------------------------------ *)

(** X12.  The confirmation of the account deletion, pressed by an
    identified sender [f], starts with the [delete-account] request for
    [f].  When the request succeeds the handler answers "Account deleted"
    and replaces the prompt with the farewell text.  When it fails the
    handler shows an alert and changes nothing else: the alert carries the
    message of the backend if the failure is a [CloudStorageApiError], and
    "Failed to delete account." for every other error.  The request has
    succeeded when the answer has a status in 200-299 and a body that is
    JSON: the body is not read, so it need not hold any [data]. *)
Theorem confirm_delete_account_outcomes (ctx : Ctx unit) (w : World)
    (m : Machine) (f : From) :
  from ctx = Some f ->
  botApiAnswers w ->
  let request :=
    backendCall (config w) "/api/v1/auth/bot/delete-account"
      (PTelegramId (dec (id f))) in
  (forall r j,
     w_fetch w (log m) (backendUrl (config w) "/api/v1/auth/bot/delete-account")
       (backendInit (config w) (PTelegramId (dec (id f)))) = inr r ->
     ok r = true -> json r = Some j ->
     fst (deleteAccount (dec (id f)) w m) = Ok j)
  /\ match deleteAccount (dec (id f)) w m with
  | (Ok _, _) =>
      new_calls m (snd (on_confirm_delete_account ctx w m))
      = [request;
         TgAnswerCallbackQuery (Some "Account deleted") false;
         TgEditMessageText CallbackMessage accountDeletedText]
  | (Throw e, _) =>
      new_calls m (snd (on_confirm_delete_account ctx w m))
      = [request;
         ConsoleError "Error deleting account:" e;
         TgAnswerCallbackQuery
           (Some (apiMessageOr "Failed to delete account." e)) true]
  end.
Proof.
  intros Hfrom Hw. cbv zeta. split.
  { intros r j Hfetch Hok Hjson. unfold deleteAccount.
    now rewrite (request_resolves _ _ w m r j Hfetch Hok Hjson). }
  unfold on_confirm_delete_account. rewrite (telegramId_of_from ctx f Hfrom).
  pose proof (request_machine "/api/v1/auth/bot/delete-account" (PTelegramId (dec (id f)))
                w m) as Hm1.
  fold (deleteAccount (dec (id f))) in Hm1.
  destruct (deleteAccount (dec (id f)) w m) as [[r | e] m1] eqn:Hdel;
    cbn [snd] in Hm1; subst m1; apply new_calls_app;
    unfold try_catch, bind at 1; rewrite Hdel.
  - unfold answerCallbackQuery, editMessageText, void, telegram, bind.
    cbn [log emit fst snd].
    destruct (Hw (log m ++ [backendCall (config w)
                              "/api/v1/auth/bot/delete-account"
                              (PTelegramId (dec (id f)))])%list
                (TgAnswerCallbackQuery (Some "Account deleted") false))
      as [k1 Hk1].
    rewrite Hk1. cbn [of_sum ret log emit fst snd].
    match goal with
    | |- context [w_telegram w ?h ?c] => destruct (Hw h c) as [k2 Hk2];
                                        rewrite Hk2
    end.
    cbn. rewrite <- !app_assoc. reflexivity.
  - unfold answerCallbackQuery, void, telegram, bind, console_error.
    cbn [log emit fst snd].
    match goal with
    | |- context [w_telegram w ?h ?c] => destruct (w_telegram w h c)
    end; cbn; rewrite <- !app_assoc; reflexivity.
Qed.

(** The backend refuses the deletion with its envelope: the alert shows
    the text of the envelope. *)
Lemma confirm_delete_account_outcomes_witness :
  new_calls freshMachine
    (snd (on_confirm_delete_account (demoCallback 5 tt)
            (demoWorld ["/api/v1/auth/bot/delete-account"]) freshMachine))
  = [backendCall demoConfig "/api/v1/auth/bot/delete-account" (PTelegramId "77");
     ConsoleError "Error deleting account:"
       (CloudStorageApiError "Service unavailable" 503 (Some demoEnvelope));
     TgAnswerCallbackQuery (Some "Service unavailable") true].
Proof.
  exact (proj2 (confirm_delete_account_outcomes (demoCallback 5 tt)
                  (demoWorld ["/api/v1/auth/bot/delete-account"]) freshMachine
                  demoFrom eq_refl
                  (botApiAnswers_demo ["/api/v1/auth/bot/delete-account"]))).
Defined.

(** A deletion that is answered 200 without [data] has succeeded: the
    answer is not read, and the user is told that the account is deleted. *)
Example confirm_delete_account_without_data :
  new_calls freshMachine
    (snd (on_confirm_delete_account (demoCallback 5 tt) datalessWorld
            freshMachine))
  = [backendCall demoConfig "/api/v1/auth/bot/delete-account" (PTelegramId "77");
     TgAnswerCallbackQuery (Some "Account deleted") false;
     TgEditMessageText CallbackMessage accountDeletedText].
Proof. vm_compute. reflexivity. Qed.

(* ------------------------------------------------------------------ *)
(** ** Handlers that stay away from the backend *)
(* ------------------------------------------------------------------ *)

Lemma single_call (c : Call) (w : World) (m : Machine) :
  new_calls m (snd (void (telegram c) w m)) = [c].
Proof.
  apply new_calls_app. unfold void, telegram, bind. cbn.
  destruct (w_telegram w _ _); reflexivity.
Qed.

Lemma two_calls (a b : Call) (w : World) (m : Machine) :
  new_calls m (snd (bind (void (telegram a)) (fun _ => void (telegram b)) w m))
  = [a]
  \/ new_calls m
       (snd (bind (void (telegram a)) (fun _ => void (telegram b)) w m))
     = [a; b].
Proof.
  unfold void, telegram, bind. cbn.
  destruct (w_telegram w (log m) a); cbn.
  - left. now apply new_calls_app.
  - right. apply new_calls_app.
    destruct (w_telegram w _ _); cbn; now rewrite <- app_assoc.
Qed.

(** X13.  The help command, the delete-account command, the cancel button
    of the account deletion and the fallback for other text never call the
    backend, the storage or the file service, in any world and whatever the
    Bot API answers.  In particular the delete-account command deletes
    nothing: for an identified sender it only shows the prompt with the
    confirm button and the cancel button, each in a row of its own. *)
Theorem commands_without_backend (c : Command) (w : World) (m : Machine) :
  (forall ctx, c <> CommandDeleteLink ctx) ->
  filter isTransferCall (new_calls m (snd (handleCommand c w m))) = []
  /\ (forall ctx f,
        c = CommandDeleteAccount ctx -> from ctx = Some f ->
        new_calls m (snd (handleCommand c w m))
        = [TgSendMessage deleteAccountPrompt
             (Some (InlineMarkup
                      [[{| b_text := "⚠️ Yes, delete my account";
                           b_callback_data := "confirm_delete_account" |}];
                       [{| b_text := "❌ Cancel";
                           b_callback_data := "cancel_delete_account" |}]]))]).
Proof.
  intros Hnot. split.
  - destruct c as [ctx | ctx | ctx | ctx | ctx]; cbn [handleCommand].
    + unfold on_help, reply. now rewrite single_call.
    + unfold on_delete_account_command.
      destruct (telegramId_of ctx); unfold reply; now rewrite single_call.
    + exfalso. now apply (Hnot ctx).
    + unfold on_cancel_delete_account, answerCallbackQuery, editMessageText.
      destruct (two_calls
                  (TgAnswerCallbackQuery (Some "Cancelled") false)
                  (TgEditMessageText CallbackMessage
                     ("✅ Account deletion cancelled." ++ nl ++ nl ++
                      "Your account is safe. Use /help to see available commands."))
                  w m) as [H | H]; rewrite H; reflexivity.
    + unfold on_text, reply. now rewrite single_call.
  - intros ctx f -> Hfrom. cbn [handleCommand].
    unfold on_delete_account_command. rewrite (telegramId_of_from ctx f Hfrom).
    unfold reply. now rewrite single_call.
Qed.

Lemma commands_without_backend_witness :
  filter isTransferCall
    (new_calls freshMachine
       (snd (handleCommand (CallbackCancelDeleteAccount (demoCallback 5 tt))
               (demoWorld []) freshMachine))) = [].
Proof.
  apply (proj1 (commands_without_backend
                  (CallbackCancelDeleteAccount (demoCallback 5 tt))
                  (demoWorld []) freshMachine
                  ltac:(intros ctx; discriminate))).
Defined.

(* ------------------------------------------------------------------ *)
(** ** The page of shared links and its navigation *)
(* ------------------------------------------------------------------ *)

(** X14.  The keyboard under a page of links.  Its first row holds the
    Previous button exactly when the page is beyond the first and the Next
    button exactly when pages follow, in this order; a second row with the
    page indicator is there exactly when there is more than one page.  So a
    listing of one page, shown as page 1, has no button at all, the first
    page does not
    offer Previous and the last page does not offer Next. *)
Theorem linksKeyboard_navigation (pagination : Pagination) :
  let page := pg_page pagination in
  let total := pg_totalPages pagination in
  let navigation :=
    ((if page >? 1 then [previousButton pagination] else []) ++
     (if page <? total then [nextButton pagination] else []))%list in
  linksKeyboard pagination
  = (if total >? 1
     then [navigation; [indicatorButton pagination]]
     else [navigation])
  /\ (total <= 1 -> page = 1 ->
      InlineKeyboard.buttons (linksKeyboard pagination) = [])
  /\ (page <= 1 ->
      ~ In (previousButton pagination)
           (InlineKeyboard.buttons (linksKeyboard pagination)))
  /\ (total <= page ->
      ~ In (nextButton pagination)
           (InlineKeyboard.buttons (linksKeyboard pagination))).
Proof.
  cbv zeta.
  assert (Hform :
    linksKeyboard pagination
    = (if pg_totalPages pagination >? 1
       then [((if pg_page pagination >? 1 then [previousButton pagination]
               else []) ++
              (if pg_page pagination <? pg_totalPages pagination
               then [nextButton pagination] else []))%list;
             [indicatorButton pagination]]
       else [((if pg_page pagination >? 1 then [previousButton pagination]
               else []) ++
              (if pg_page pagination <? pg_totalPages pagination
               then [nextButton pagination] else []))%list])).
  { unfold linksKeyboard. cbv zeta.
    destruct (pg_page pagination >? 1);
      destruct (pg_page pagination <? pg_totalPages pagination);
      destruct (pg_totalPages pagination >? 1); reflexivity. }
  split; [exact Hform |]. rewrite Hform. clear Hform.
  assert (Hdiff : previousButton pagination <> nextButton pagination).
  { unfold previousButton, nextButton. intros H. discriminate H. }
  assert (Hind1 : previousButton pagination <> indicatorButton pagination)
    by (unfold previousButton, indicatorButton; intros H; discriminate).
  assert (Hind2 : nextButton pagination <> indicatorButton pagination)
    by (unfold nextButton, indicatorButton; intros H; discriminate).
  split; [| split].
  - intros Htotal Hpage.
    replace (pg_totalPages pagination >? 1) with false
      by (symmetry; rewrite Z.gtb_ltb; apply Z.ltb_ge; lia).
    replace (pg_page pagination >? 1) with false
      by (symmetry; rewrite Z.gtb_ltb; apply Z.ltb_ge; lia).
    replace (pg_page pagination <? pg_totalPages pagination) with false
      by (symmetry; apply Z.ltb_ge; lia).
    reflexivity.
  - intros Hpage.
    replace (pg_page pagination >? 1) with false
      by (symmetry; rewrite Z.gtb_ltb; apply Z.ltb_ge; lia).
    destruct (pg_totalPages pagination >? 1);
      destruct (pg_page pagination <? pg_totalPages pagination); cbn;
      intuition congruence.
  - intros Hlast.
    replace (pg_page pagination <? pg_totalPages pagination) with false
      by (symmetry; apply Z.ltb_ge; lia).
    destruct (pg_totalPages pagination >? 1);
      destruct (pg_page pagination >? 1); cbn; intuition congruence.
Qed.

Lemma linksKeyboard_navigation_witness :
  InlineKeyboard.buttons
    (linksKeyboard {| pg_page := 1; pg_limit := 5; pg_total := 3;
                      pg_totalPages := 1 |}) = []
  /\ ~ In (nextButton {| pg_page := 3; pg_limit := 5; pg_total := 12;
                         pg_totalPages := 3 |})
          (InlineKeyboard.buttons
             (linksKeyboard {| pg_page := 3; pg_limit := 5; pg_total := 12;
                               pg_totalPages := 3 |})).
Proof.
  split.
  - apply (proj1 (proj2 (linksKeyboard_navigation
                           {| pg_page := 1; pg_limit := 5; pg_total := 3;
                              pg_totalPages := 1 |}))); cbn; lia.
  - apply (proj2 (proj2 (proj2 (linksKeyboard_navigation
                                  {| pg_page := 3; pg_limit := 5;
                                     pg_total := 12; pg_totalPages := 3 |}))));
      cbn; lia.
Defined.

Example linksKeyboard_middle_page :
  linksKeyboard {| pg_page := 2; pg_limit := 5; pg_total := 12;
                   pg_totalPages := 3 |}
  = [[{| b_text := "⬅️ Previous"; b_callback_data := "links_page:1" |};
      {| b_text := "Next ➡️"; b_callback_data := "links_page:3" |}];
     [{| b_text := "📄 2/3"; b_callback_data := "links_page:noop" |}]].
Proof. vm_compute. reflexivity. Qed.

(* ------------------------------------------------------------------ *)
(** ** Reading the page number back *)
(* ------------------------------------------------------------------ *)

Lemma digitsValue_uint (d : Decimal.uint) (acc : Z) (rest : string) :
  digitsValue acc (NilEmpty.string_of_uint d ++ rest)
  = digitsValue (uintValue acc d) rest.
Proof.
  revert acc. induction d; intros acc; cbn [NilEmpty.string_of_uint append];
    [reflexivity | ..]; cbn [digitsValue uintValue];
    match goal with
    | |- context [digitOf ?c] =>
        let v := eval vm_compute in (digitOf c) in
        change (digitOf c) with v
    end; cbv iota; apply IHd.
Qed.

Lemma digitsValue_stops (acc : Z) (rest : string) :
  startsWithDigit rest = false -> digitsValue acc rest = acc.
Proof.
  destruct rest as [| c rest]; [reflexivity |]. cbn.
  destruct (digitOf c); [discriminate | reflexivity].
Qed.

Lemma uintValue_acc (d : Decimal.uint) (acc : positive) :
  uintValue (Z.pos acc) d = Z.pos (Pos.of_uint_acc d acc).
Proof.
  revert acc. induction d; intros acc; cbn [uintValue Pos.of_uint_acc];
    [reflexivity | ..];
    match goal with
    | |- uintValue ?z _ = Z.pos (Pos.of_uint_acc _ ?p) =>
        replace z with (Z.pos p) by lia
    end; apply IHd.
Qed.

Lemma uintValue_of_uint (d : Decimal.uint) :
  uintValue 0 d = Z.of_N (Pos.of_uint d).
Proof.
  induction d; cbn [uintValue Pos.of_uint]; [reflexivity | exact IHd | ..];
    match goal with
    | |- uintValue ?z _ = Z.of_N (N.pos (Pos.of_uint_acc _ ?p)) =>
        change z with (Z.pos p)
    end; apply uintValue_acc.
Qed.

Lemma digit_is_no_sign (c : ascii) (v : Z) (s : string) :
  digitOf c = Some v -> parseInt10 (String c s) = Some (digitsValue 0 (String c s)).
Proof.
  intros H. unfold parseInt10.
  destruct c as [[] [] [] [] [] [] [] []]; try discriminate H;
    cbn [trimStart];
    repeat match goal with
      | |- context [isWhiteSpace ?c] =>
          let v := eval vm_compute in (isWhiteSpace c) in
          change (isWhiteSpace c) with v
      end;
    cbv beta iota;
    match goal with
    | |- context [match digitOf ?c with _ => _ end] =>
        let v := eval vm_compute in (digitOf c) in
        change (digitOf c) with v
    end;
    cbv beta iota; now rewrite Z.mul_1_l.
Qed.

Lemma uint_string_head (d : Decimal.uint) :
  d <> Decimal.Nil ->
  exists c s v, NilEmpty.string_of_uint d = String c s /\ digitOf c = Some v.
Proof.
  intros H. destruct d; [contradiction | ..];
    cbn [NilEmpty.string_of_uint]; do 3 eexists; split;
    try reflexivity; vm_compute; reflexivity.
Qed.

Lemma dec_pos (p : positive) :
  dec (Z.pos p) = NilEmpty.string_of_uint (Pos.to_uint p).
Proof.
  unfold dec. cbn [Z.to_int NilZero.string_of_int NilZero.string_of_uint].
  pose proof (DecimalPos.Unsigned.to_uint_nonnil p) as H.
  destruct (Pos.to_uint p); [contradiction | reflexivity ..].
Qed.

Lemma digits_of_pos (p : positive) (rest : string) :
  startsWithDigit rest = false ->
  digitsValue 0 (NilEmpty.string_of_uint (Pos.to_uint p) ++ rest) = Z.pos p.
Proof.
  intros Hrest. rewrite digitsValue_uint, digitsValue_stops by assumption.
  rewrite uintValue_of_uint, DecimalPos.Unsigned.of_to. reflexivity.
Qed.

(** [parseInt] reads back the decimal text of an integer, also when other
    text follows it. *)
Lemma parseInt10_dec (n : Z) (rest : string) :
  startsWithDigit rest = false -> parseInt10 (dec n ++ rest) = Some n.
Proof.
  intros Hrest. destruct n as [| p | p].
  - change (dec 0) with "0". cbn [append].
    rewrite (digit_is_no_sign "0" 0) by reflexivity.
    cbn [digitsValue]. change (digitOf "0") with (Some 0). cbv iota.
    now rewrite digitsValue_stops.
  - rewrite dec_pos.
    destruct (uint_string_head (Pos.to_uint p)
                (DecimalPos.Unsigned.to_uint_nonnil p)) as (c & s & v & Hs & Hc).
    pose proof (digits_of_pos p rest Hrest) as Hval.
    rewrite Hs in Hval |- *. cbn [append] in Hval |- *.
    rewrite (digit_is_no_sign c v _ Hc). now rewrite Hval.
  - unfold dec. cbn [Z.to_int NilZero.string_of_int].
    pose proof (DecimalPos.Unsigned.to_uint_nonnil p) as Hnil.
    replace (NilZero.string_of_uint (Pos.to_uint p))
      with (NilEmpty.string_of_uint (Pos.to_uint p))
      by (destruct (Pos.to_uint p); [contradiction | reflexivity ..]).
    destruct (uint_string_head (Pos.to_uint p) Hnil) as (c & s & v & Hs & Hc).
    pose proof (digits_of_pos p rest Hrest) as Hval.
    rewrite Hs in Hval |- *. cbn [append] in Hval |- *.
    unfold parseInt10. cbn [trimStart isWhiteSpace].
    change (isWhiteSpace "-") with false. cbv iota.
    rewrite Hc, Hval. reflexivity.
Qed.

Lemma dec_is_not_noop (n : Z) (rest : string) :
  exists c s, dec n ++ rest = String c s /\ String.eqb (dec n ++ rest) "noop" = false.
Proof.
  destruct n as [| p | p].
  - change (dec 0) with "0". cbn. eauto.
  - rewrite dec_pos.
    destruct (uint_string_head (Pos.to_uint p)
                (DecimalPos.Unsigned.to_uint_nonnil p)) as (c & s & v & Hs & Hc).
    rewrite Hs. cbn [append]. exists c, (s ++ rest). split; [reflexivity |].
    cbn [String.eqb].
    destruct (Ascii.eqb_spec c "n") as [-> | _]; [discriminate Hc | reflexivity].
  - unfold dec. cbn [Z.to_int NilZero.string_of_int append].
    eexists _, _. split; reflexivity.
Qed.

(** X15.  The page number written into a Previous or Next button comes
    back unchanged.  When the token behind ["links_page:"] is the decimal
    text of an integer [n] (other text that does not begin with a digit
    may follow it, and is ignored), the handler of an identified sender
    acknowledges the press and shows page [n].  The integers are those a
    number of the host language holds exactly, up to 2^53 - 1 either way. *)
Theorem links_page_round_trip (showLinksPage : string -> Z -> M unit)
    (ctx : Ctx (option string)) (w : World) (m : Machine) (f : From) (n : Z)
    (rest : string) :
  from ctx = Some f ->
  Z.abs n <= 9007199254740991 ->
  message ctx = Some (dec n ++ rest) ->
  startsWithDigit rest = false ->
  parseInt10 (dec n ++ rest) = Some n
  /\ on_links_page_callback showLinksPage ctx w m
     = (answerCallbackQuery None false ;; showLinksPage (dec (id f)) n) w m.
Proof.
  intros Hfrom _ Hmsg Hrest.
  pose proof (parseInt10_dec n rest Hrest) as Hparse.
  split; [exact Hparse |].
  unfold on_links_page_callback. rewrite (telegramId_of_from ctx f Hfrom), Hmsg.
  destruct (dec_is_not_noop n rest) as (c & s & Hs & Hnoop).
  unfold nonempty. rewrite Hs. cbn [truthy]. rewrite <- Hs.
  rewrite Hnoop, Hparse. reflexivity.
Qed.

(** The Next button of page 2 leads to page 3, and a token with a tail is
    read up to the tail. *)
Lemma links_page_round_trip_witness :
  parseInt10 (dec 3 ++ "") = Some 3
  /\ on_links_page_callback (fun _ _ => ret tt)
       (demoCallback 5 (Some (dec 12 ++ "abc"))) (demoWorld []) freshMachine
     = (answerCallbackQuery None false ;; ret tt) (demoWorld []) freshMachine.
Proof.
  split.
  - exact (proj1 (links_page_round_trip (fun _ _ => ret tt)
                    (demoCallback 5 (Some (dec 3 ++ ""))) (demoWorld [])
                    freshMachine demoFrom 3 "" eq_refl ltac:(cbn; lia) eq_refl
                    eq_refl)).
  - exact (proj2 (links_page_round_trip (fun _ _ => ret tt)
                    (demoCallback 5 (Some (dec 12 ++ "abc"))) (demoWorld [])
                    freshMachine demoFrom 12 "abc" eq_refl ltac:(cbn; lia)
                    eq_refl eq_refl)).
Defined.

(** X16.  A token that is no page number never reaches the listing.  For
    an identified sender, the token ["noop"] of the page indicator and a
    missing token are acknowledged without text; a token that begins with
    an ASCII character that is neither a digit, a sign nor white space is
    answered "Invalid page.".  In all three cases the answer is the only call that
    is made, whatever [showLinksPage] would do. *)
Theorem links_page_not_a_number (showLinksPage : string -> Z -> M unit)
    (ctx : Ctx (option string)) (w : World) (m : Machine) (f : From) :
  from ctx = Some f ->
  (truthy (message ctx) = false \/ message ctx = Some "noop" ->
   new_calls m (snd (on_links_page_callback showLinksPage ctx w m))
   = [TgAnswerCallbackQuery None false])
  /\ (forall c s,
        message ctx = Some (String c s) ->
        String c s <> "noop" ->
        (nat_of_ascii c < 128)%nat ->
        digitOf c = None -> isWhiteSpace c = false ->
        c <> "-"%char -> c <> "+"%char ->
        parseInt10 (String c s) = None
        /\ new_calls m (snd (on_links_page_callback showLinksPage ctx w m))
           = [TgAnswerCallbackQuery (Some "Invalid page.") false]).
Proof.
  intros Hfrom. unfold on_links_page_callback.
  rewrite (telegramId_of_from ctx f Hfrom).
  split.
  - intros [Hfalsy | Hnoop].
    + unfold nonempty. rewrite Hfalsy. unfold answerCallbackQuery.
      apply single_call.
    + rewrite Hnoop. cbn. unfold answerCallbackQuery. apply single_call.
  - intros c s Hmsg Hne _ Hdigit Hwhite Hminus Hplus.
    assert (Hparse : parseInt10 (String c s) = None).
    { unfold parseInt10. cbn [trimStart]. rewrite Hwhite.
      destruct c as [[] [] [] [] [] [] [] []];
        try (exfalso; apply Hminus; reflexivity);
        try (exfalso; apply Hplus; reflexivity);
        cbv beta iota; rewrite Hdigit; reflexivity. }
    split; [exact Hparse |].
    rewrite Hmsg. unfold nonempty. cbn [truthy].
    destruct (String.eqb_spec (String c s) "noop") as [Heq | _];
      [contradiction |].
    rewrite Hparse. unfold answerCallbackQuery. apply single_call.
Qed.

Lemma links_page_not_a_number_witness :
  new_calls freshMachine
    (snd (on_links_page_callback
            (fun t p => void (getLinksWithViews t (Some p) (Some 5)))
            (demoCallback 5 (Some "noop")) (demoWorld []) freshMachine))
  = [TgAnswerCallbackQuery None false]
  /\ new_calls freshMachine
       (snd (on_links_page_callback
               (fun t p => void (getLinksWithViews t (Some p) (Some 5)))
               (demoCallback 5 (Some "last")) (demoWorld []) freshMachine))
     = [TgAnswerCallbackQuery (Some "Invalid page.") false].
Proof.
  split.
  - apply (proj1 (links_page_not_a_number
                    (fun t p => void (getLinksWithViews t (Some p) (Some 5)))
                    (demoCallback 5 (Some "noop")) (demoWorld []) freshMachine
                    demoFrom eq_refl)).
    right. reflexivity.
  - apply (proj2 (links_page_not_a_number
                    (fun t p => void (getLinksWithViews t (Some p) (Some 5)))
                    (demoCallback 5 (Some "last")) (demoWorld []) freshMachine
                    demoFrom eq_refl) "l"%char "ast" eq_refl);
      try reflexivity; try discriminate.
    cbn. lia.
Defined.

(* ------------------------------------------------------------------ *)
(** ** The start command *)
(* ------------------------------------------------------------------ *)

Lemma JsMap_get_set (k : Z) (v : option string) (m : JsMap.t) :
  JsMap.get k (JsMap.set k v m) = v.
Proof.
  unfold JsMap.set, JsMap.get, JsMap.has.
  destruct (existsb (fun kv => k =? fst kv) m) eqn:Hhas.
  - induction m as [| [k' v'] m IH]; [discriminate |]. cbn in *.
    destruct (k =? k') eqn:Hk; cbn.
    + now rewrite Z.eqb_refl.
    + rewrite Hk. cbn in Hhas. now apply IH.
  - induction m as [| [k' v'] m IH]; cbn in *.
    + now rewrite Z.eqb_refl.
    + destruct (k =? k') eqn:Hk; [discriminate |]. cbn in Hhas. now apply IH.
Qed.

Lemma JsMap_has_set (k : Z) (v : option string) (m : JsMap.t) :
  JsMap.has k (JsMap.set k v m) = true.
Proof.
  unfold JsMap.set, JsMap.has.
  destruct (existsb (fun kv => k =? fst kv) m) eqn:Hhas.
  - induction m as [| [k' v'] m IH]; [discriminate |]. cbn in *.
    destruct (k =? k') eqn:Hk; cbn.
    + now rewrite Z.eqb_refl.
    + rewrite Hk. cbn in Hhas. now apply IH.
  - rewrite existsb_app. cbn. rewrite Z.eqb_refl. now rewrite orb_true_r.
Qed.

Lemma JsMap_get_set_other (k k' : Z) (v : option string) (m : JsMap.t) :
  k' <> k -> JsMap.get k' (JsMap.set k v m) = JsMap.get k' m.
Proof.
  intros Hne. unfold JsMap.set, JsMap.get, JsMap.has.
  destruct (existsb (fun kv => k =? fst kv) m).
  - induction m as [| [k0 v0] m IH]; [reflexivity |]. cbn.
    destruct (k =? k0) eqn:Hk; cbn.
    + apply Z.eqb_eq in Hk. subst k0.
      replace (k' =? k) with false by (symmetry; now apply Z.eqb_neq).
      exact IH.
    + destruct (k' =? k0); [reflexivity | exact IH].
  - induction m as [| [k0 v0] m IH]; cbn.
    + now replace (k' =? k) with false by (symmetry; now apply Z.eqb_neq).
    + destruct (k' =? k0); [reflexivity | exact IH].
Qed.

(** X17.  The start command of an identified sender [f] makes the one
    [create-user] request.  When it succeeds with the body that the client
    declares, the token of the answer is stored under the id of [f] (the
    tokens of other senders stay as they are) and the reply is the welcome
    for a new account or the welcome back, as the backend flags it.  When
    it fails, the map of tokens is not touched and the reply tells the
    failure: with the message of the backend for a [CloudStorageApiError],
    with a fixed text otherwise.  A success body without [data] is such a
    failure: reading the token throws before anything is stored.  A body
    with another object as [data] stores what that object has as [token],
    which is [undefined], before the handler goes on: it welcomes back a
    user whose name the object carries, and tells the failure otherwise. *)
Theorem start_outcomes (ctx : Ctx unit) (userTokens : JsMap.t) (w : World)
    (m : Machine) (f : From) :
  from ctx = Some f ->
  botApiAnswers w ->
  let request :=
    backendCall (config w) "/api/v1/auth/bot/create-user"
      (PCreateUser (dec (id f)) (Some (getUserDisplayName f)) None) in
  let typeError (name : string) :=
    JsError ("TypeError: Cannot read properties of undefined (reading '"
             ++ name ++ "')") in
  let failure (e : Exn) :=
    [request; ConsoleError "Error creating user:" e;
     TgSendMessage (failedToRegister e) None] in
  match createUser (dec (id f)) (Some (getUserDisplayName f)) None w m with
  | (Ok r, _) =>
      match data r with
      | Some d =>
          exists stored,
            fst (on_start ctx userTokens w m) = Ok stored
            /\ JsMap.get (id f) stored = d_token d
            /\ JsMap.has (id f) stored = true
            /\ (forall other, other <> id f ->
                  JsMap.get other stored = JsMap.get other userTokens)
            /\ new_calls m (snd (on_start ctx userTokens w m))
               = match d with
                 | DCreateUser x =>
                     [request;
                      TgSendMessage
                        (if cu_isNewUser x
                         then welcomeNew (user_name (cu_user x))
                         else welcomeBack (user_name (cu_user x))) None]
                 | DUpdatePhone user =>
                     [request; TgSendMessage (welcomeBack (pu_name user)) None]
                 | _ => failure (typeError "name")
                 end
      | None =>
          fst (on_start ctx userTokens w m) = Ok userTokens
          /\ new_calls m (snd (on_start ctx userTokens w m))
             = failure (typeError "token")
      end
  | (Throw e, _) =>
      fst (on_start ctx userTokens w m) = Ok userTokens
      /\ new_calls m (snd (on_start ctx userTokens w m)) = failure e
  end.
Proof.
  intros Hfrom Hw. cbv zeta.
  pose proof (request_machine "/api/v1/auth/bot/create-user"
                (PCreateUser (dec (id f)) (Some (getUserDisplayName f)) None)
                w m) as Hm1.
  fold (createUser (dec (id f)) (Some (getUserDisplayName f)) None) in Hm1.
  destruct (createUser (dec (id f)) (Some (getUserDisplayName f)) None w m)
    as [[r | e] m1] eqn:Hcreate; cbn [snd] in Hm1; subst m1;
    [destruct (data r) as [d |] eqn:Hd |];
    unfold on_start; rewrite (telegramId_of_from ctx f Hfrom); cbv zeta;
    unfold userName_of; rewrite Hfrom; cbn [option_map];
    unfold try_catch, console_error, read, ret, throw, reply, telegram, bind;
    rewrite Hcreate; rewrite ?Hd; cbn [fst snd log emit].
  - exists (JsMap.set (id f) (d_token d) userTokens).
    assert (Hmap : JsMap.get (id f) (JsMap.set (id f) (d_token d) userTokens)
                   = d_token d
                   /\ JsMap.has (id f)
                        (JsMap.set (id f) (d_token d) userTokens) = true
                   /\ forall other, other <> id f ->
                        JsMap.get other
                          (JsMap.set (id f) (d_token d) userTokens)
                        = JsMap.get other userTokens).
    { split; [apply JsMap_get_set |]. split; [apply JsMap_has_set |].
      intros other Hother. now apply JsMap_get_set_other. }
    destruct Hmap as (Hget & Hhas & Hother).
    destruct d; cbn [d_token d_isNewUser d_user u_name fst snd log emit];
      match goal with
      | |- context [w_telegram w ?h ?c] =>
          destruct (Hw h c) as [k Hk]; rewrite Hk
      end;
      cbn [of_sum fst snd];
      (split; [reflexivity |]); (split; [exact Hget |]);
      (split; [exact Hhas |]); (split; [exact Hother |]);
      apply new_calls_app; cbn [log emit]; rewrite <- ?app_assoc;
      reflexivity.
  - match goal with
    | |- context [w_telegram w ?h ?c] => destruct (Hw h c) as [k Hk]; rewrite Hk
    end.
    cbn [of_sum fst snd]. split; [reflexivity |].
    apply new_calls_app. cbn [log emit]. rewrite <- !app_assoc. reflexivity.
  - match goal with
    | |- context [w_telegram w ?h ?c] => destruct (Hw h c) as [k Hk]; rewrite Hk
    end.
    cbn [of_sum fst snd]. split; [reflexivity |].
    apply new_calls_app. cbn [log emit]. rewrite <- !app_assoc. reflexivity.
Qed.

Lemma start_outcomes_witness :
  fst (on_start (demoCallback 5 tt) [(12, Some "old")]
         (demoWorld ["/api/v1/auth/bot/create-user"]) freshMachine)
  = Ok [(12, Some "old")]
  /\ new_calls freshMachine
       (snd (on_start (demoCallback 5 tt) [(12, Some "old")]
               (demoWorld ["/api/v1/auth/bot/create-user"]) freshMachine))
     = [backendCall demoConfig "/api/v1/auth/bot/create-user"
          (PCreateUser "77" (Some "Ada") None);
        ConsoleError "Error creating user:"
          (CloudStorageApiError "Service unavailable" 503 (Some demoEnvelope));
        TgSendMessage
          (failedToRegister
             (CloudStorageApiError "Service unavailable" 503
                (Some demoEnvelope))) None].
Proof.
  exact (start_outcomes (demoCallback 5 tt) [(12, Some "old")]
           (demoWorld ["/api/v1/auth/bot/create-user"]) freshMachine demoFrom
           eq_refl (botApiAnswers_demo ["/api/v1/auth/bot/create-user"])).
Defined.

Example start_stores_token :
  fst (on_start (demoCallback 5 tt) [(12, Some "old"); (77, Some "stale")]
         (demoWorld []) freshMachine)
  = Ok [(12, Some "old"); (77, Some "jwt")].
Proof. vm_compute. reflexivity. Qed.

(** A body without [data] on a success status: nothing is stored and the
    failure is told. *)
Example start_without_data :
  fst (on_start (demoCallback 5 tt) [(12, Some "old")] datalessWorld
         freshMachine)
  = Ok [(12, Some "old")]
  /\ filter isUserVisible
       (log (snd (on_start (demoCallback 5 tt) [(12, Some "old")] datalessWorld
                    freshMachine)))
     = [TgSendMessage
          ("An unexpected error occurred while setting up your account." ++ nl
           ++ "Please try again later.") None].
Proof. vm_compute. split; reflexivity. Qed.

(* ------------------------------------------------------------------ *)
(** ** Just below one mebibyte *)
(* ------------------------------------------------------------------ *)

(** X18.  The last 51 byte counts below 1024^2 are shown as ["1024.0 KB"]:
    the unit changes at the threshold of the byte count, not at the
    rounded value, so the text ["1024.0 KB"] comes before ["1.0 MB"]. *)
Theorem formatFileSize_below_one_MiB (b : Z) :
  1048525 <= b < 1024 * 1024 -> formatFileSize b = "1024.0 KB".
Proof.
  intros H. unfold formatFileSize.
  destruct (Z.ltb_spec b 1024); [lia |].
  destruct (Z.ltb_spec b (1024 * 1024)); [| lia].
  rewrite toFixed1_ratio by lia.
  replace ((20 * b + 1024) / (2 * 1024)) with 10240
    by (apply (Z.div_unique _ _ _ (20 * b + 1024 - 10240 * 2048)); lia).
  reflexivity.
Qed.

Lemma formatFileSize_below_one_MiB_witness :
  formatFileSize 1048525 = "1024.0 KB".
Proof. apply (formatFileSize_below_one_MiB 1048525). lia. Defined.

Example formatFileSize_1048524 : formatFileSize 1048524 = "1023.9 KB".
Proof. vm_compute. reflexivity. Qed.

(* ------------------------------------------------------------------ *)
(** ** Which size of a photo is uploaded *)
(* ------------------------------------------------------------------ *)

Lemma begins_with_bind {A B : Type} (call : Call) (c : M A) (k : A -> M B) :
  begins_with call c -> (forall a, grows (k a)) -> begins_with call (bind c k).
Proof.
  intros Hc Hk w m. unfold bind. destruct (Hc w m) as [rest Hrest].
  destruct (c w m) as [[a | e] m1]; cbn [snd] in *.
  - destruct (Hk a w m1) as [more Hmore]. exists (rest ++ more)%list.
    rewrite Hmore, Hrest. now rewrite <- app_assoc.
  - now exists rest.
Qed.

Lemma begins_with_try_catch {A : Type} (call : Call) (c : M A)
    (h : Exn -> M A) :
  begins_with call c -> (forall e, grows (h e)) ->
  begins_with call (try_catch c h).
Proof.
  intros Hc Hh w m. unfold try_catch. destruct (Hc w m) as [rest Hrest].
  destruct (c w m) as [[a | e] m1]; cbn [snd] in *.
  - now exists rest.
  - destruct (Hh e w m1) as [more Hmore]. exists (rest ++ more)%list.
    rewrite Hmore, Hrest. now rewrite <- app_assoc.
Qed.

Lemma begins_with_getFile (fileId : string) :
  begins_with (TgGetFile fileId) (getFile fileId).
Proof. intros w m. exists []. reflexivity. Qed.

Lemma try_catch_bind2_ok {A B C : Type} (c : M A) (k1 : A -> M B)
    (k2 : B -> M C) (h : Exn -> M C) (w : World) (m : Machine) (a : A)
    (m1 : Machine) :
  c w m = (Ok a, m1) ->
  try_catch (bind (bind c k1) k2) h w m = try_catch (bind (k1 a) k2) h w m1.
Proof. intros H. unfold try_catch, bind. now rewrite H. Qed.

Lemma nth_error_last {A : Type} (l : list A) (x : A) :
  nth_error (l ++ [x]) (List.length (l ++ [x]) - 1) = Some x.
Proof.
  rewrite length_app. cbn [List.length].
  replace (List.length l + 1 - 1)%nat with (List.length l) by lia.
  rewrite nth_error_app2 by lia. now rewrite Nat.sub_diag.
Qed.

(** X19.  Of the sizes a photo message carries, the last one is uploaded,
    whatever it declares: the photo handler has no size limit.  For a
    sender [f] and an identifier not seen before, an empty list of sizes
    is answered "Could not process this photo." and nothing else happens.
    Otherwise the announcement tells the declared size of the last entry,
    [f] is registered, and the presign request declares the name
    [photo_<now>.jpg] (the clock read before the announcement), the type
    [image/jpeg] and that size.  What follows is either the [getFile]
    call for the file of the last entry, or, when the presign request
    failed, the console line and the failure text in the announcement. *)
Theorem photo_last_size_uploaded (ctx : Ctx (list TgFile)) (w : World)
    (m : Machine) (f : From) :
  ~ In (update_id ctx) (processedUpdates m) ->
  from ctx = Some f ->
  (message ctx = [] ->
   new_calls m (snd (on_photo ctx w m))
   = [TgSendMessage "Could not process this photo. Please try again." None])
  /\ (forall smaller photo statusMsg,
        message ctx = (smaller ++ [photo])%list ->
        w_telegram w (log m) (TgSendMessage (photoStatusText photo) None)
        = inr statusMsg ->
        exists mid rest,
          new_calls m (snd (on_photo ctx w m))
          = TgSendMessage (photoStatusText photo) None
            :: backendCall (config w) "/api/v1/auth/bot/create-user"
                 (PCreateUser (dec (id f)) (Some (getUserDisplayName f)) None)
            :: (mid ++
                presignCall (config w) (dec (id f))
                  ("photo_" ++ dec (w_now w (log m)) ++ ".jpg") "image/jpeg"
                  (or_zero (file_size photo))
                :: rest)%list
          /\ (mid = []
              \/ exists e,
                   mid = [ConsoleError "Error ensuring user registration:" e])
          /\ ((exists more, rest = TgGetFile (file_id photo) :: more)
              \/ exists e,
                   rest = [ConsoleError "Error uploading photo:" e;
                           TgEditMessageText
                             (ChatMessage (chat_id ctx) statusMsg)
                             (uploadFailed
                                (apiMessageOr "Failed to upload photo." e))])).
Proof.
  intros Hfresh Hfrom.
  assert (Hstart : forall k : M unit,
            (duplicate <- isProcessedM (update_id ctx) ;;
             if duplicate then console_log (skippingDuplicate (update_id ctx))
             else k) w m
            = k w {| processedUpdates :=
                       snd (isProcessed (update_id ctx) (processedUpdates m));
                     log := log m |}).
  { intros k. unfold bind. now rewrite (isProcessedM_fresh _ w m Hfresh). }
  unfold on_photo. rewrite Hstart. clear Hstart.
  rewrite (telegramId_of_from ctx f Hfrom). cbv zeta.
  set (m0 := {| processedUpdates :=
                  snd (isProcessed (update_id ctx) (processedUpdates m));
                log := log m |}).
  split.
  - intros Hempty. rewrite Hempty. cbn [List.length Nat.sub nth_error].
    apply new_calls_app. unfold void, reply, telegram, bind. cbn.
    destruct (w_telegram w (log m) _); reflexivity.
  - intros smaller photo statusMsg Hmsg Hstatus.
    rewrite Hmsg, nth_error_last.
    unfold bind at 1, date_now at 1. cbn [log m0].
    fold (photoStatusText photo).
    unfold bind at 1. unfold reply at 1, telegram at 1. cbn [log m0].
    rewrite Hstatus. cbn [of_sum].
    unfold userName_of. rewrite Hfrom. cbn [option_map].
    set (m1 := emit (TgSendMessage (photoStatusText photo) None) m0).
    set (name := "photo_" ++ dec (w_now w (log m)) ++ ".jpg").
    assert (Hupload : forall m2,
              exists rest,
                log (snd
                  (try_catch
                     (result <- fastUploadFile (dec (id f)) (file_id photo)
                                  name "image/jpeg"
                                  (or_zero (file_size photo)) ;;
                      editMessageText (ChatMessage (chat_id ctx) statusMsg)
                        ("✅ Photo uploaded!" ++ nl ++ nl ++
                         "📸 Size: " ++ formatFileSizeOf (size result) ++ nl ++
                         nl ++ "🔗 Shareable Link:" ++ nl ++
                         interp (shareableLink result)))
                     (fun error =>
                        console_error "Error uploading photo:" error ;;
                        editMessageText (ChatMessage (chat_id ctx) statusMsg)
                          (uploadFailed
                             (apiMessageOr "Failed to upload photo." error)))
                     w m2))
                = (log m2 ++
                   presignCall (config w) (dec (id f)) name "image/jpeg"
                     (or_zero (file_size photo)) :: rest)%list
                /\ ((exists more, rest = TgGetFile (file_id photo) :: more)
                    \/ exists e,
                         rest = [ConsoleError "Error uploading photo:" e;
                                 TgEditMessageText
                                   (ChatMessage (chat_id ctx) statusMsg)
                                   (uploadFailed
                                      (apiMessageOr "Failed to upload photo."
                                         e))])).
    { intros m2. unfold fastUploadFile.
      pose proof (request_machine "/api/v1/auth/bot/get-upload-url"
                    (PGetUploadUrl (dec (id f)) name "image/jpeg"
                       (or_zero (file_size photo))) w m2) as Hm3.
      fold (getUploadUrl (dec (id f)) name "image/jpeg"
              (or_zero (file_size photo))) in Hm3.
      fold (presignCall (config w) (dec (id f)) name "image/jpeg"
              (or_zero (file_size photo))) in Hm3.
      destruct (getUploadUrl (dec (id f)) name "image/jpeg"
                  (or_zero (file_size photo)) w m2) as [[u | e] m3] eqn:Hget;
        cbn [snd] in Hm3; subst m3.
      - rewrite (try_catch_bind2_ok _ _ _ _ _ _ _ _ Hget).
        match goal with
        | |- context [try_catch ?c ?h w ?m3] =>
            assert (Hb : begins_with (TgGetFile (file_id photo)) (try_catch c h))
        end.
        { apply begins_with_try_catch; [| intros e0; grows_tac].
          apply begins_with_bind; [| intros r; grows_tac].
          apply begins_with_bind;
            [| intros buf; unfold uploadToS3, completeUpload; grows_tac].
          unfold downloadTelegramFile.
          apply begins_with_bind; [apply begins_with_getFile |].
          intros p. destruct (nonempty p); grows_tac. }
        destruct (Hb w (emit (presignCall (config w) (dec (id f)) name
                                "image/jpeg" (or_zero (file_size photo))) m2))
          as [more Hmore].
        exists (TgGetFile (file_id photo) :: more). split; [| left; now exists more].
        rewrite Hmore. cbn [log emit]. now rewrite <- app_assoc.
      - exists [ConsoleError "Error uploading photo:" e;
                TgEditMessageText (ChatMessage (chat_id ctx) statusMsg)
                  (uploadFailed (apiMessageOr "Failed to upload photo." e))].
        split; [| right; now exists e].
        unfold try_catch, bind at 1, bind at 1. rewrite Hget.
        unfold console_error, editMessageText, void, telegram, bind.
        cbn [fst snd log emit].
        destruct (of_sum _); unfold ret; cbn [snd log emit];
          now rewrite <- !app_assoc. }
    pose proof (ensureUserRegistered_run (dec (id f))
                  (Some (getUserDisplayName f)) w m1) as Hreg.
    pose proof (request_machine "/api/v1/auth/bot/create-user"
                  (PCreateUser (dec (id f)) (Some (getUserDisplayName f)) None)
                  w m1) as Hm2.
    fold (createUser (dec (id f)) (Some (getUserDisplayName f)) None) in Hm2.
    destruct (createUser (dec (id f)) (Some (getUserDisplayName f)) None w m1)
      as [[r | e] m2]; cbn [snd] in Hm2; subst m2;
      rewrite (try_catch_bind_ok _ _ _ _ _ _ _ Hreg); cbv beta;
      match goal with
      | |- context [try_catch _ _ w ?m2] =>
          destruct (Hupload m2) as (rest & Hlog & Hrest)
      end.
    + exists [], rest. split; [| split; [now left | exact Hrest]].
      apply new_calls_app. rewrite Hlog. subst m1 m0. cbn [log emit app].
      now rewrite <- !app_assoc.
    + exists [ConsoleError "Error ensuring user registration:" e], rest.
      split; [| split; [right; now exists e | exact Hrest]].
      apply new_calls_app. rewrite Hlog. subst m1 m0. cbn [log emit app].
      now rewrite <- !app_assoc.
Qed.

(** Three sizes of one photo, the last one larger than the limit of the
    other handlers. *)
Lemma photo_last_size_uploaded_witness :
  exists mid rest,
    new_calls freshMachine
      (snd (on_photo
              {| update_id := 7; from := Some demoFrom; chat_id := 9;
                 message :=
                   [ {| file_id := "small"; file_name := None;
                        mime_type := None; file_size := Some 1200 |};
                     {| file_id := "medium"; file_name := None;
                        mime_type := None; file_size := Some 48000 |};
                     {| file_id := "large"; file_name := None;
                        mime_type := None;
                        file_size := Some (21 * 1024 * 1024) |} ] |}
              (demoWorld []) freshMachine))
    = TgSendMessage ("📤 Uploading photo..." ++ nl ++ "Size: 21.0 MB") None
      :: backendCall demoConfig "/api/v1/auth/bot/create-user"
           (PCreateUser "77" (Some "Ada") None)
      :: (mid ++
          presignCall demoConfig "77"
            ("photo_" ++ dec (w_now (demoWorld []) []) ++ ".jpg") "image/jpeg"
            (21 * 1024 * 1024)
          :: rest)%list
    /\ (mid = []
        \/ exists e, mid = [ConsoleError "Error ensuring user registration:" e])
    /\ ((exists more, rest = TgGetFile "large" :: more)
        \/ exists e,
             rest = [ConsoleError "Error uploading photo:" e;
                     TgEditMessageText (ChatMessage 9 42)
                       (uploadFailed
                          (apiMessageOr "Failed to upload photo." e))]).
Proof.
  refine (proj2 (photo_last_size_uploaded
                   {| update_id := 7; from := Some demoFrom; chat_id := 9;
                      message :=
                        [ {| file_id := "small"; file_name := None;
                             mime_type := None; file_size := Some 1200 |};
                          {| file_id := "medium"; file_name := None;
                             mime_type := None; file_size := Some 48000 |};
                          {| file_id := "large"; file_name := None;
                             mime_type := None;
                             file_size := Some (21 * 1024 * 1024) |} ] |}
                   (demoWorld []) freshMachine demoFrom _ eq_refl)
            [ {| file_id := "small"; file_name := None;
                 mime_type := None; file_size := Some 1200 |};
              {| file_id := "medium"; file_name := None;
                 mime_type := None; file_size := Some 48000 |} ]
            {| file_id := "large"; file_name := None; mime_type := None;
               file_size := Some (21 * 1024 * 1024) |}
            42 eq_refl eq_refl).
  simpl. tauto.
Defined.
